(** * Zilliqa Mining Proxy: miners, workers and hashrate samples

    A shallow embedding of [zilpool/database/miner.py] and the properties of
    its counter cascade, sample ingestion and windowed aggregations.

    The three mongoengine documents become records, the three collections
    become lists of documents in insertion order, and every method that talks
    to the store becomes a computation in a small state-and-exception monad
    over the store.  The store keeps a log of the operations issued against
    it, so that "the store is not queried" is a statement about that log. *)

From Stdlib Require Import ZArith List String Bool Lia.
Import ListNotations.
Open Scope Z_scope.

(** ** Python outcomes: a value, or a raised exception *)

Module Py.

Inductive exn : Type :=
| OperationError    (* mongoengine.errors.OperationError *)
| ValidationError   (* mongoengine.errors.ValidationError *)
| OverflowError     (* bson: an int that does not fit 8 bytes *)
| AttributeError.   (* attribute access on None *)

Inductive outcome (A : Type) : Type :=
| Ret (a : A)
| Raise (e : exn).
Arguments Ret {A} a.
Arguments Raise {A} e.

(** A computation over a state [S]: the state reached so far survives a
    raised exception, as writes already made to the store do. *)
Definition M (S A : Type) : Type := S -> outcome A * S.

Definition ret {S A} (a : A) : M S A := fun s => (Ret a, s).
Definition raise {S A} (e : exn) : M S A := fun s => (Raise e, s).
Definition bind {S A B} (m : M S A) (k : A -> M S B) : M S B :=
  fun s => match m s with
           | (Ret a, s') => k a s'
           | (Raise e, s') => (Raise e, s')
           end.

(** [None] as the value of a method without a [return]. *)
Inductive none : Type := None_.

End Py.

Notation "x <- m ;; k" := (Py.bind m (fun x => k))
  (at level 61, m at next level, right associativity).

(** ** Identifiers and time *)

Definition ObjectId := N.

(** A [datetime] is a number of milliseconds since the epoch, the resolution
    at which the store keeps and compares dates. *)
Definition datetime := Z.
Definition timedelta_hours (h : Z) : Z := h * 3600000.

(** ** Documents *)

(** The keys of the [update_kwargs] dictionaries: an [$inc] of one of the four
    [work_*] counters shared by [Miner] and [Worker]. *)
Inductive stat_field : Type :=
| inc__work_submitted | inc__work_failed | inc__work_finished | inc__work_verified.

(** [Miner].  The float fields [rewards] and [paid] are touched by no method
    of this file and are left out. *)
Module MinerDoc.
Record t : Type := mk {
  pk : option ObjectId;
  wallet_address : string;
  authorized : bool;
  nick_name : string;
  email : string;
  email_verified : bool;
  join_date : option datetime;
  workers_name : list string;
  work_submitted : Z;
  work_failed : Z;
  work_finished : Z;
  work_verified : Z
}.

Definition stat (f : stat_field) (d : t) : Z :=
  match f with
  | inc__work_submitted => work_submitted d
  | inc__work_failed => work_failed d
  | inc__work_finished => work_finished d
  | inc__work_verified => work_verified d
  end.

(** [$inc] of one counter. *)
Definition inc (f : stat_field) (v : Z) (d : t) : t :=
  match f with
  | inc__work_submitted =>
      mk (pk d) (wallet_address d) (authorized d) (nick_name d) (email d)
         (email_verified d) (join_date d) (workers_name d)
         (work_submitted d + v) (work_failed d) (work_finished d) (work_verified d)
  | inc__work_failed =>
      mk (pk d) (wallet_address d) (authorized d) (nick_name d) (email d)
         (email_verified d) (join_date d) (workers_name d)
         (work_submitted d) (work_failed d + v) (work_finished d) (work_verified d)
  | inc__work_finished =>
      mk (pk d) (wallet_address d) (authorized d) (nick_name d) (email d)
         (email_verified d) (join_date d) (workers_name d)
         (work_submitted d) (work_failed d) (work_finished d + v) (work_verified d)
  | inc__work_verified =>
      mk (pk d) (wallet_address d) (authorized d) (nick_name d) (email d)
         (email_verified d) (join_date d) (workers_name d)
         (work_submitted d) (work_failed d) (work_finished d) (work_verified d + v)
  end.
End MinerDoc.

Module WorkerDoc.
Record t : Type := mk {
  pk : option ObjectId;
  wallet_address : string;
  worker_name : string;
  work_submitted : Z;
  work_failed : Z;
  work_finished : Z;
  work_verified : Z
}.

Definition stat (f : stat_field) (d : t) : Z :=
  match f with
  | inc__work_submitted => work_submitted d
  | inc__work_failed => work_failed d
  | inc__work_finished => work_finished d
  | inc__work_verified => work_verified d
  end.

Definition inc (f : stat_field) (v : Z) (d : t) : t :=
  match f with
  | inc__work_submitted =>
      mk (pk d) (wallet_address d) (worker_name d)
         (work_submitted d + v) (work_failed d) (work_finished d) (work_verified d)
  | inc__work_failed =>
      mk (pk d) (wallet_address d) (worker_name d)
         (work_submitted d) (work_failed d + v) (work_finished d) (work_verified d)
  | inc__work_finished =>
      mk (pk d) (wallet_address d) (worker_name d)
         (work_submitted d) (work_failed d) (work_finished d + v) (work_verified d)
  | inc__work_verified =>
      mk (pk d) (wallet_address d) (worker_name d)
         (work_submitted d) (work_failed d) (work_finished d) (work_verified d + v)
  end.
End WorkerDoc.

Module HashRateDoc.
Record t : Type := mk {
  pk : option ObjectId;
  wallet_address : string;
  worker_name : string;
  hashrate : Z;
  updated_time : datetime
}.
End HashRateDoc.

(** ** The document store *)

Module Mongo.

Inductive collection : Type := zil_miners | zil_mine_workers | zil_mine_hashrate.

(** The commands a client sends to the store. *)
Inductive op : Type :=
| Find (c : collection)
| FindAndModify (c : collection)
| UpdateOne (c : collection)
| InsertOne (c : collection)
| Aggregate (c : collection).

Record store : Type := mk {
  miners : list MinerDoc.t;
  workers : list WorkerDoc.t;
  hashrates : list HashRateDoc.t;
  next_oid : ObjectId;
  oplog : list op
}.

Definition logged (o : op) (s : store) : store :=
  mk (miners s) (workers s) (hashrates s) (next_oid s) (oplog s ++ [o]).
Definition with_miners (l : list MinerDoc.t) (s : store) : store :=
  mk l (workers s) (hashrates s) (next_oid s) (oplog s).
Definition with_workers (l : list WorkerDoc.t) (s : store) : store :=
  mk (miners s) l (hashrates s) (next_oid s) (oplog s).
Definition with_hashrates (l : list HashRateDoc.t) (s : store) : store :=
  mk (miners s) (workers s) l (next_oid s) (oplog s).
Definition fresh_oid (s : store) : ObjectId * store :=
  (next_oid s, mk (miners s) (workers s) (hashrates s) (N.succ (next_oid s)) (oplog s)).

Definition is_pk (id : ObjectId) (o : option ObjectId) : bool :=
  match o with
  | Some i => N.eqb i id
  | None => false
  end.

Section Collection.
Context {D : Type}.

(** [update_one]: the first document matching [p] is replaced by its
    image under [f]; the count of matched documents (0 or 1) comes back
    as the reply's ["n"]. *)
Fixpoint update_one (p : D -> bool) (f : D -> D) (l : list D) : Z * list D :=
  match l with
  | [] => (0, [])
  | d :: l' =>
      if p d then (1, f d :: l')
      else let (n, l'') := update_one p f l' in (n, d :: l'')
  end.

(** [find_one_and_update] answering the document after the update: the
    first match updated by [f]; with [upsert=True] and no match, the
    document [fresh] is inserted and answered. *)
Definition find_one_and_update (p : D -> bool) (f : D -> D) (l : list D)
  : option (D * list D) :=
  match find p l with
  | Some d => Some (f d, snd (update_one p f l))
  | None => None
  end.
End Collection.

(** *** The aggregation pipeline over hashrate samples *)

(** The conditions a [$match] stage of this file is built from. *)
Inductive cond : Type :=
| updated_time__gte (t : datetime)
| updated_time__lte (t : datetime)
| wallet_address__eq (a : string)
| worker_name__eq (n : string).

Definition sat (d : HashRateDoc.t) (c : cond) : bool :=
  match c with
  | updated_time__gte t => t <=? HashRateDoc.updated_time d
  | updated_time__lte t => HashRateDoc.updated_time d <=? t
  | wallet_address__eq a => String.eqb (HashRateDoc.wallet_address d) a
  | worker_name__eq n => String.eqb (HashRateDoc.worker_name d) n
  end.

Definition stage_match (m : list cond) (docs : list HashRateDoc.t)
  : list HashRateDoc.t :=
  filter (fun d => forallb (sat d) m) docs.

(** The group key [{"wallet_address": ..., "worker_name": ...}]. *)
Definition key : Type := string * string.
Definition key_of (d : HashRateDoc.t) : key :=
  (HashRateDoc.wallet_address d, HashRateDoc.worker_name d).
Definition key_eqb (a b : key) : bool :=
  String.eqb (fst a) (fst b) && String.eqb (snd a) (snd b).

(** One document entering a [$group] stage: it opens a group with
    accumulator [init], or updates the accumulator of its group. *)
Fixpoint group_put {A : Type} (init : A) (step : A -> A) (k : key)
    (g : list (key * A)) : list (key * A) :=
  match g with
  | [] => [(k, init)]
  | (k', a) :: g' =>
      if key_eqb k k' then (k', step a) :: g'
      else (k', a) :: group_put init step k g'
  end.

(** [$group] by [key_of], with an accumulator started by [first] at a
    group's first document and advanced by [acc] at each later one. *)
Definition stage_group {A : Type} (first : HashRateDoc.t -> A)
    (acc : A -> HashRateDoc.t -> A) (docs : list HashRateDoc.t)
  : list (key * A) :=
  fold_left (fun g d => group_put (first d) (fun a => acc a d) (key_of d) g)
            docs [].

(** [$group] with [_id: None] and one [$sum]: a single row holding the sum
    of [f] over the input rows, and no row at all for an empty input. *)
Definition stage_group_sum {A : Type} (f : A -> Z) (rows : list A) : list Z :=
  match rows with
  | [] => []
  | _ :: _ => [fold_left (fun s r => s + f r) rows 0]
  end.

(** [cls.objects.aggregate] of a pipeline, on the hashrate collection. *)
Definition aggregate {A : Type} (pipeline : list HashRateDoc.t -> list A)
  : Py.M store (list A) :=
  fun s => (Py.Ret (pipeline (hashrates s)),
            logged (Aggregate zil_mine_hashrate) s).

End Mongo.

Import Py.

(** A keyword dictionary of [$inc] updates, in insertion order. *)
Definition kwargs : Type := list (stat_field * Z).

(** An integer the client can encode for the store: it fits 8 bytes. *)
Definition fits_int64 (z : Z) : bool := (- 2 ^ 63 <=? z) && (z <=? 2 ^ 63 - 1).

(** The values of an update all fit; otherwise encoding the command raises
    [OverflowError] and nothing is sent. *)
Definition encodable (kw : kwargs) : bool := forallb (fun kv => fits_int64 (snd kv)) kw.

(** ** ModelMixin *)

Module ModelMixin.

(** Modelled from the spec: [ModelMixin.get_one] of [basemodel.py], which is
    not among the sources.  The store's "point get by filter": the first
    document that passes the filter, or [None]; nothing is written. *)
Definition get_one {D : Type} (c : Mongo.collection)
    (coll : Mongo.store -> list D) (p : D -> bool)
  : M Mongo.store (option D) :=
  fun s => (Ret (find p (coll s)), Mongo.logged (Mongo.Find c) s).

(** Modelled from the spec: [ModelMixin.aggregate_count] of [basemodel.py],
    which is not among the sources.  "Filter samples by time, group by
    (account, workerName), count resulting groups": the [$match] and the
    [$group] of the caller, then a count of the groups, 0 when there are
    none. *)
Definition aggregate_count (match_ : list Mongo.cond) : M Mongo.store Z :=
  res <- Mongo.aggregate (fun docs =>
           Mongo.stage_group_sum (fun _ : Mongo.key * unit => 1)
             (Mongo.stage_group (fun _ => tt) (fun a _ => a)
                (Mongo.stage_match match_ docs))) ;;
  ret (match res with
       | r :: _ => r
       | [] => 0
       end).

End ModelMixin.

(** ** Miner *)

Module Miner.

Definition get_one (wallet_address : string) : M Mongo.store (option MinerDoc.t) :=
  ModelMixin.get_one Mongo.zil_miners Mongo.miners
    (fun d => String.eqb (MinerDoc.wallet_address d) wallet_address).

(** Modelled from the spec: [ModelMixin.get], the same point lookup. *)
Definition get (wallet_address : string) : M Mongo.store (option MinerDoc.t) :=
  get_one wallet_address.

Definition apply_kwargs (kw : kwargs) (d : MinerDoc.t) : MinerDoc.t :=
  fold_left (fun d' kv => MinerDoc.inc (fst kv) (snd kv) d') kw d.

(** mongoengine's [Document.update]: refused for a document that was never
    saved and for an empty update; an increment that does not fit 8 bytes
    cannot be encoded; otherwise an [update_one] of the document with this
    primary key, answering the matched count. *)
Definition update (self : MinerDoc.t) (kw : kwargs) : M Mongo.store Z :=
  fun s =>
    match MinerDoc.pk self, kw with
    | None, _ => (Raise OperationError, s)
    | Some _, [] => (Raise OperationError, s)
    | Some id, _ :: _ =>
        if negb (encodable kw) then (Raise OverflowError, s)
        else
          let (n, l) := Mongo.update_one
                          (fun d => Mongo.is_pk id (MinerDoc.pk d))
                          (apply_kwargs kw) (Mongo.miners s) in
          (Ret n, Mongo.logged (Mongo.UpdateOne Mongo.zil_miners)
                    (Mongo.with_miners l s))
    end.

Definition update_stat (self : MinerDoc.t)
    (inc_submitted inc_failed inc_finished inc_verified : Z)
  : M Mongo.store Z :=
  let update_kwargs : kwargs :=
    [ (inc__work_submitted, inc_submitted);
      (inc__work_failed, inc_failed);
      (inc__work_finished, inc_finished);
      (inc__work_verified, inc_verified) ] in
  let update_kwargs := filter (fun kv => 0 <? snd kv) update_kwargs in
  update self update_kwargs.

End Miner.

(** ** Worker *)

Module Worker.

(** The [miner] property. *)
Definition miner (self : WorkerDoc.t) : M Mongo.store (option MinerDoc.t) :=
  Miner.get_one (WorkerDoc.wallet_address self).

Definition set__wallet_address (a : string) (d : WorkerDoc.t) : WorkerDoc.t :=
  WorkerDoc.mk (WorkerDoc.pk d) a (WorkerDoc.worker_name d)
    (WorkerDoc.work_submitted d) (WorkerDoc.work_failed d)
    (WorkerDoc.work_finished d) (WorkerDoc.work_verified d).
Definition set__worker_name (n : string) (d : WorkerDoc.t) : WorkerDoc.t :=
  WorkerDoc.mk (WorkerDoc.pk d) (WorkerDoc.wallet_address d) n
    (WorkerDoc.work_submitted d) (WorkerDoc.work_failed d)
    (WorkerDoc.work_finished d) (WorkerDoc.work_verified d).

(** The query [cls.objects(wallet_address=..., worker_name=...)]. *)
Definition has_key (wallet_address worker_name : string) (d : WorkerDoc.t) : bool :=
  String.eqb (WorkerDoc.wallet_address d) wallet_address
  && String.eqb (WorkerDoc.worker_name d) worker_name.

(** The values of the two [set__*] against their fields: [max_length] 128
    and 64. *)
Definition valid_set (wallet_address worker_name : string) : bool :=
  (Z.of_nat (String.length wallet_address) <=? 128)
  && (Z.of_nat (String.length worker_name) <=? 64).

(** [modify(upsert=True, new=True, ...)]: the value of every [set__*] is
    validated against its field before the command is built, and a value
    that fails raises [ValidationError] with nothing sent; with an upsert the
    answer is always a document. *)
Definition get_or_create (wallet_address worker_name : string)
  : M Mongo.store (option WorkerDoc.t) :=
  fun s =>
    if negb (valid_set wallet_address worker_name)
    then (Raise ValidationError, s)
    else
    let query := has_key wallet_address worker_name in
    let set_ := fun d => set__worker_name worker_name
                           (set__wallet_address wallet_address d) in
    match Mongo.find_one_and_update query set_ (Mongo.workers s) with
    | Some (worker, l) =>
        (Ret (Some worker),
         Mongo.logged (Mongo.FindAndModify Mongo.zil_mine_workers)
           (Mongo.with_workers l s))
    | None =>
        let (oid, s1) := Mongo.fresh_oid s in
        let worker :=
          WorkerDoc.mk (Some oid) wallet_address worker_name 0 0 0 0 in
        (Ret (Some worker),
         Mongo.logged (Mongo.FindAndModify Mongo.zil_mine_workers)
           (Mongo.with_workers (Mongo.workers s1 ++ [worker]) s1))
    end.

Definition active_count (utcnow : datetime) : M Mongo.store Z :=
  let three_hours := utcnow - timedelta_hours 3 in
  let match_ := [ Mongo.updated_time__gte three_hours ] in
  ModelMixin.aggregate_count match_.

Definition apply_kwargs (kw : kwargs) (d : WorkerDoc.t) : WorkerDoc.t :=
  fold_left (fun d' kv => WorkerDoc.inc (fst kv) (snd kv) d') kw d.

(** mongoengine's [Document.update], as for [Miner]. *)
Definition update (self : WorkerDoc.t) (kw : kwargs) : M Mongo.store Z :=
  fun s =>
    match WorkerDoc.pk self, kw with
    | None, _ => (Raise OperationError, s)
    | Some _, [] => (Raise OperationError, s)
    | Some id, _ :: _ =>
        if negb (encodable kw) then (Raise OverflowError, s)
        else
          let (n, l) := Mongo.update_one
                          (fun d => Mongo.is_pk id (WorkerDoc.pk d))
                          (apply_kwargs kw) (Mongo.workers s) in
          (Ret n, Mongo.logged (Mongo.UpdateOne Mongo.zil_mine_workers)
                    (Mongo.with_workers l s))
    end.

Definition update_stat (self : WorkerDoc.t)
    (inc_submitted inc_failed inc_finished inc_verified : Z)
  : M Mongo.store Py.none :=
  let update_kwargs : kwargs :=
    [ (inc__work_submitted, inc_submitted);
      (inc__work_failed, inc_failed);
      (inc__work_finished, inc_finished);
      (inc__work_verified, inc_verified) ] in
  let update_kwargs := filter (fun kv => 0 <? snd kv) update_kwargs in
  n <- update self update_kwargs ;;
  if negb (n =? 0) then
    (* update miner's stats *)
    m <- miner self ;;
    match m with
    | None => raise AttributeError
    | Some m =>
        _ <- Miner.update_stat m inc_submitted inc_failed
               inc_finished inc_verified ;;
        ret None_
    end
  else ret None_.

End Worker.

(** ** HashRate *)

Module HashRate.

(** [Document.save] of a new sample: the field validation of the schema
    ([max_length] of the two strings), the 8-byte limit of a stored
    integer, then the insert; the saved document is the result. *)
Definition save (hr : HashRateDoc.t) : M Mongo.store HashRateDoc.t :=
  fun s =>
    if (128 <? Z.of_nat (String.length (HashRateDoc.wallet_address hr)))
       || (64 <? Z.of_nat (String.length (HashRateDoc.worker_name hr)))
    then (Raise ValidationError, s)
    else if (HashRateDoc.hashrate hr <? - 2 ^ 63)
            || (2 ^ 63 - 1 <? HashRateDoc.hashrate hr)
    then (Raise OverflowError, s)
    else
      let (oid, s1) := Mongo.fresh_oid s in
      let saved :=
        HashRateDoc.mk (Some oid) (HashRateDoc.wallet_address hr)
          (HashRateDoc.worker_name hr) (HashRateDoc.hashrate hr)
          (HashRateDoc.updated_time hr) in
      (Ret saved,
       Mongo.logged (Mongo.InsertOne Mongo.zil_mine_hashrate)
         (Mongo.with_hashrates (Mongo.hashrates s1 ++ [saved]) s1)).

(** [log] answers [False] or the saved sample. *)
Definition log (utcnow : datetime) (hashrate : Z)
    (wallet_address worker_name : string)
  : M Mongo.store (bool + HashRateDoc.t) :=
  if hashrate <? 0 then ret (inl false)
  else
    _miner <- Miner.get wallet_address ;;
    match _miner with
    | None => ret (inl false)
    | Some _ =>
        _worker <- Worker.get_or_create wallet_address worker_name ;;
        match _worker with
        | None => ret (inl false)
        | Some _ =>
            let hr := HashRateDoc.mk None wallet_address worker_name
                        hashrate utcnow in
            saved <- save hr ;;
            ret (inr saved)
        end
    end.

Section EpochHashrate.

(** [PoWWindow.get_pow_window] of [pow.py], which is not among the
    sources: the window resolver, from a block number (or [None]) to the
    two bounds of the epoch, each a date or [None]. *)
Variable get_pow_window : option Z -> option datetime * option datetime.

(** The [$match] dictionary of [epoch_hashrate]. *)
Definition epoch_match (pow_start pow_end : datetime)
    (wallet_address worker_name : option string) : list Mongo.cond :=
  let match_ := [ Mongo.updated_time__gte pow_start;
                  Mongo.updated_time__lte pow_end ] in
  let match_ :=
    match wallet_address with
    | Some a => match_ ++ [ Mongo.wallet_address__eq a ]
    | None => match_
    end in
  match worker_name with
  | Some n => match_ ++ [ Mongo.worker_name__eq n ]
  | None => match_
  end.

(** The three stages [$match], [$group] with [$max], [$group] with
    [$sum]. *)
Definition epoch_pipeline (match_ : list Mongo.cond)
    (docs : list HashRateDoc.t) : list Z :=
  Mongo.stage_group_sum snd
    (Mongo.stage_group HashRateDoc.hashrate
       (fun a d => Z.max a (HashRateDoc.hashrate d))
       (Mongo.stage_match match_ docs)).

(** [if not pow_start or not pow_end]: a date is true whatever its value, so
    a bound fails the test exactly when it is [None]. *)
Definition epoch_hashrate (block_num : option Z)
    (wallet_address worker_name : option string) : M Mongo.store Z :=
  match get_pow_window block_num with
  | (Some pow_start, Some pow_end) =>
      let match_ := epoch_match pow_start pow_end wallet_address worker_name in
      res <- Mongo.aggregate (epoch_pipeline match_) ;;
      ret (match res with
           | r :: _ => r
           | [] => 0
           end)
  | _ => ret 0
  end.

End EpochHashrate.

End HashRate.

(** ** Miner.get_or_create *)

(** [Miner.get_or_create] calls [Worker.get_or_create], so it is placed after
    [Worker], in a module of its own. *)
Module MinerUpsert.

(** The four [set__*] of the [modify]. *)
Definition set_ (wallet_address : string) (authorized : bool)
    (nick_name email : string) (d : MinerDoc.t) : MinerDoc.t :=
  MinerDoc.mk (MinerDoc.pk d) wallet_address authorized nick_name email
    (MinerDoc.email_verified d) (MinerDoc.join_date d) (MinerDoc.workers_name d)
    (MinerDoc.work_submitted d) (MinerDoc.work_failed d)
    (MinerDoc.work_finished d) (MinerDoc.work_verified d).

Definition with_join_date (t : option datetime) (d : MinerDoc.t) : MinerDoc.t :=
  MinerDoc.mk (MinerDoc.pk d) (MinerDoc.wallet_address d) (MinerDoc.authorized d)
    (MinerDoc.nick_name d) (MinerDoc.email d) (MinerDoc.email_verified d)
    t (MinerDoc.workers_name d)
    (MinerDoc.work_submitted d) (MinerDoc.work_failed d)
    (MinerDoc.work_finished d) (MinerDoc.work_verified d).

Definition with_workers_name (l : list string) (d : MinerDoc.t) : MinerDoc.t :=
  MinerDoc.mk (MinerDoc.pk d) (MinerDoc.wallet_address d) (MinerDoc.authorized d)
    (MinerDoc.nick_name d) (MinerDoc.email d) (MinerDoc.email_verified d)
    (MinerDoc.join_date d) l
    (MinerDoc.work_submitted d) (MinerDoc.work_failed d)
    (MinerDoc.work_finished d) (MinerDoc.work_verified d).

Definition with_pk (id : ObjectId) (d : MinerDoc.t) : MinerDoc.t :=
  MinerDoc.mk (Some id) (MinerDoc.wallet_address d) (MinerDoc.authorized d)
    (MinerDoc.nick_name d) (MinerDoc.email d) (MinerDoc.email_verified d)
    (MinerDoc.join_date d) (MinerDoc.workers_name d)
    (MinerDoc.work_submitted d) (MinerDoc.work_failed d)
    (MinerDoc.work_finished d) (MinerDoc.work_verified d).

(** The values of the [set__*] against their fields: [max_length] 128, 64
    and 128. *)
Definition valid_set (wallet_address nick_name email : string) : bool :=
  (Z.of_nat (String.length wallet_address) <=? 128)
  && (Z.of_nat (String.length nick_name) <=? 64)
  && (Z.of_nat (String.length email) <=? 128).

(** [cls.objects(wallet_address=...).modify(upsert=True, new=True, ...)]: the
    values of the [set__*] are validated first, and [ValidationError] is
    raised with nothing sent when one fails; otherwise the first Miner of
    the wallet address with the four fields set, or a new document that
    holds them and the defaults of the schema. *)
Definition modify (wallet_address : string) (authorized : bool)
    (nick_name email : string) : M Mongo.store MinerDoc.t :=
  fun s =>
    if negb (valid_set wallet_address nick_name email)
    then (Raise ValidationError, s)
    else
    let query := fun d => String.eqb (MinerDoc.wallet_address d) wallet_address in
    match Mongo.find_one_and_update query
            (set_ wallet_address authorized nick_name email) (Mongo.miners s) with
    | Some (miner, l) =>
        (Ret miner,
         Mongo.logged (Mongo.FindAndModify Mongo.zil_miners)
           (Mongo.with_miners l s))
    | None =>
        let (oid, s1) := Mongo.fresh_oid s in
        let miner :=
          MinerDoc.mk (Some oid) wallet_address authorized nick_name email
            false None [] 0 0 0 0 in
        (Ret miner,
         Mongo.logged (Mongo.FindAndModify Mongo.zil_miners)
           (Mongo.with_miners (Mongo.miners s1 ++ [miner]) s1))
    end.

(** [Document.save] of a Miner, with the fields assigned since it was loaded:
    the [max_length] validation of the three strings first (in
    [get_or_create] the [modify] has checked the same bounds already); a
    document without primary key is inserted; one with a primary key has its
    changed fields [$set] by an [update_one], and nothing is sent when none
    changed.  (The update carries [upsert=True]; [get_or_create] saves a
    document that [modify] has just answered, so the update finds it.) *)
Definition save (self : MinerDoc.t) (changed_join_date changed_workers_name : bool)
  : M Mongo.store MinerDoc.t :=
  fun s =>
    if (128 <? Z.of_nat (String.length (MinerDoc.wallet_address self)))
       || (64 <? Z.of_nat (String.length (MinerDoc.nick_name self)))
       || (128 <? Z.of_nat (String.length (MinerDoc.email self)))
    then (Raise ValidationError, s)
    else
      match MinerDoc.pk self with
      | None =>
          let (oid, s1) := Mongo.fresh_oid s in
          let saved := with_pk oid self in
          (Ret saved,
           Mongo.logged (Mongo.InsertOne Mongo.zil_miners)
             (Mongo.with_miners (Mongo.miners s1 ++ [saved]) s1))
      | Some id =>
          if changed_join_date || changed_workers_name then
            let set_changed := fun d =>
              let d := if changed_join_date
                       then with_join_date (MinerDoc.join_date self) d else d in
              if changed_workers_name
              then with_workers_name (MinerDoc.workers_name self) d else d in
            let (n, l) := Mongo.update_one
                            (fun d => Mongo.is_pk id (MinerDoc.pk d))
                            set_changed (Mongo.miners s) in
            (Ret self,
             Mongo.logged (Mongo.UpdateOne Mongo.zil_miners)
               (Mongo.with_miners l s))
          else (Ret self, s)
      end.

Definition get_or_create (utcnow : datetime) (wallet_address worker_name : string)
    (nick_name email : string) (authorized : bool)
  : M Mongo.store (option MinerDoc.t) :=
  worker <- Worker.get_or_create wallet_address worker_name ;;
  match worker with
  | Some _ =>
      miner <- modify wallet_address authorized nick_name email ;;
      let no_join_date :=
        match MinerDoc.join_date miner with
        | None => true
        | Some _ => false
        end in
      let miner :=
        if no_join_date then with_join_date (Some utcnow) miner else miner in
      let new_name :=
        negb (existsb (String.eqb worker_name) (MinerDoc.workers_name miner)) in
      let miner :=
        if new_name
        then with_workers_name
               (MinerDoc.workers_name miner ++ [worker_name]) miner
        else miner in
      saved <- save miner no_join_date new_name ;;
      ret (Some saved)
  | None => ret None
  end.

End MinerUpsert.

(** * Properties *)

(** ** What a store holds *)

(** A Miner is registered for an account when the miners collection holds a
    document with this wallet address. *)
Definition registered (wallet_address : string) (s : Mongo.store) : Prop :=
  exists m, In m (Mongo.miners s) /\ MinerDoc.wallet_address m = wallet_address.

(** Two stores hold the same documents (their operation logs may differ). *)
Definition same_documents (s s' : Mongo.store) : Prop :=
  Mongo.miners s' = Mongo.miners s
  /\ Mongo.workers s' = Mongo.workers s
  /\ Mongo.hashrates s' = Mongo.hashrates s.

(** The optional exact-match filters of [epoch_hashrate]. *)
Definition passes (filter_ : option string) (v : string) : Prop :=
  match filter_ with
  | Some x => v = x
  | None => True
  end.

(** A sample is in the epoch window, and passes the two filters. *)
Definition in_epoch (pow_start pow_end : datetime)
    (wallet_address worker_name : option string) (d : HashRateDoc.t) : Prop :=
  pow_start <= HashRateDoc.updated_time d <= pow_end
  /\ passes wallet_address (HashRateDoc.wallet_address d)
  /\ passes worker_name (HashRateDoc.worker_name d).

(** A sample is stamped in the closed window from [pow_start] to [pow_end],
    the two ends included. *)
Definition in_window (pow_start pow_end : datetime) (d : HashRateDoc.t) : bool :=
  (pow_start <=? HashRateDoc.updated_time d)
  && (HashRateDoc.updated_time d <=? pow_end).

(** The dictionary [update_kwargs] that both [update_stat] methods build:
    the four deltas, those above 0 only. *)
Definition stat_kwargs (inc_submitted inc_failed inc_finished inc_verified : Z)
  : kwargs :=
  filter (fun kv => 0 <? snd kv)
    [ (inc__work_submitted, inc_submitted);
      (inc__work_failed, inc_failed);
      (inc__work_finished, inc_finished);
      (inc__work_verified, inc_verified) ].

(** The delta an [update_stat] call carries for a counter. *)
Definition delta (inc_submitted inc_failed inc_finished inc_verified : Z)
    (f : stat_field) : Z :=
  match f with
  | inc__work_submitted => inc_submitted
  | inc__work_failed => inc_failed
  | inc__work_finished => inc_finished
  | inc__work_verified => inc_verified
  end.

(** The stored document with a given primary key. *)
Definition miner_by_pk (id : ObjectId) (s : Mongo.store) : option MinerDoc.t :=
  find (fun d => Mongo.is_pk id (MinerDoc.pk d)) (Mongo.miners s).
Definition worker_by_pk (id : ObjectId) (s : Mongo.store) : option WorkerDoc.t :=
  find (fun d => Mongo.is_pk id (WorkerDoc.pk d)) (Mongo.workers s).

(** The worker's own update succeeds: [self.update] answers a count that is
    not 0, the truth value the [if] of [Worker.update_stat] tests. *)
Definition worker_update_ok (self : WorkerDoc.t)
    (inc_submitted inc_failed inc_finished inc_verified : Z)
    (s : Mongo.store) : Prop :=
  exists n,
    fst (Worker.update self
           (stat_kwargs inc_submitted inc_failed inc_finished inc_verified) s)
    = Ret n
    /\ n <> 0.

(** The commands sent to the store between two of its states. *)
Definition ops_since (s s' : Mongo.store) : list Mongo.op :=
  skipn (List.length (Mongo.oplog s)) (Mongo.oplog s').

(** A Worker document is of a (wallet address, worker name) key. *)
Definition of_key (wallet_address worker_name : string) (d : WorkerDoc.t) : bool :=
  if string_dec (WorkerDoc.wallet_address d) wallet_address
  then if string_dec (WorkerDoc.worker_name d) worker_name then true else false
  else false.

(** The number of Worker documents stored for a (wallet address, worker
    name) key. *)
Definition worker_count (wallet_address worker_name : string) (s : Mongo.store)
  : nat :=
  List.length (filter (of_key wallet_address worker_name) (Mongo.workers s)).


(** The sum of a list of integers. *)
Definition Zsum (l : list Z) : Z := fold_right Z.add 0 l.

(** [v] is the largest hashrate among the samples of the pair [k]: one of
    them reports it, and none reports more. *)
Definition peak_of (samples : list HashRateDoc.t) (k : Mongo.key) (v : Z) : Prop :=
  (exists d, In d samples /\ Mongo.key_of d = k /\ HashRateDoc.hashrate d = v)
  /\ (forall d, In d samples -> Mongo.key_of d = k -> HashRateDoc.hashrate d <= v).

(** The number of Miner documents stored for a wallet address. *)
Definition miner_count (wallet_address : string) (s : Mongo.store) : nat :=
  List.length
    (filter (fun d => String.eqb (MinerDoc.wallet_address d) wallet_address)
       (Mongo.miners s)).

(** The value of a counter summed over the stored Workers of a wallet
    address. *)
Definition worker_total (f : stat_field) (wallet_address : string)
    (s : Mongo.store) : Z :=
  Zsum (map (WorkerDoc.stat f)
          (filter (fun w => String.eqb (WorkerDoc.wallet_address w) wallet_address)
             (Mongo.workers s))).

(** Every stored Miner's counters are the sums of its Workers' counters. *)
Definition stats_in_sync (s : Mongo.store) : Prop :=
  forall m, In m (Mongo.miners s) ->
  forall f, MinerDoc.stat f m = worker_total f (MinerDoc.wallet_address m) s.

(** The miners collection as the store keeps it: every document has a
    primary key, one that was handed out already; no two share one, and no
    two share a wallet address (the field is declared unique). *)
Definition miners_keyed (s : Mongo.store) : Prop :=
  (forall m, In m (Mongo.miners s) ->
             exists id, MinerDoc.pk m = Some id /\ (id < Mongo.next_oid s)%N)
  /\ NoDup (map MinerDoc.pk (Mongo.miners s))
  /\ NoDup (map MinerDoc.wallet_address (Mongo.miners s)).

(** The Miner that [Miner.get_or_create] leaves for a Miner [m] found in the
    store: the four fields set, a join date given if there was none, the
    worker name recorded if it was not; the rest as it was. *)
Definition upserted (utcnow : datetime) (wallet_address worker_name : string)
    (nick_name email : string) (authorized : bool) (m : MinerDoc.t) : MinerDoc.t :=
  MinerDoc.mk (MinerDoc.pk m) wallet_address authorized nick_name email
    (MinerDoc.email_verified m)
    (match MinerDoc.join_date m with
     | None => Some utcnow
     | Some t => Some t
     end)
    (if existsb (String.eqb worker_name) (MinerDoc.workers_name m)
     then MinerDoc.workers_name m
     else (MinerDoc.workers_name m ++ [worker_name])%list)
    (MinerDoc.work_submitted m) (MinerDoc.work_failed m)
    (MinerDoc.work_finished m) (MinerDoc.work_verified m).

(** The number an answer carries (0 for a raised exception). *)
Definition answer_of (r : outcome Z) : Z :=
  match r with
  | Ret z => z
  | Raise _ => 0
  end.

(** No stored sample reports a hashrate below 0. *)
Definition samples_nonneg (s : Mongo.store) : Prop :=
  forall d, In d (Mongo.hashrates s) -> 0 <= HashRateDoc.hashrate d.

(** ** Lookups *)

Lemma find_none_iff {D : Type} (p : D -> bool) (l : list D) :
  find p l = None <-> forall d, In d l -> p d = false.
Proof.
  split.
  - intros H d Hd. exact (find_none p l H d Hd).
  - induction l as [|x l IH]; intros H; simpl; [reflexivity|].
    rewrite (H x (or_introl eq_refl)). apply IH. intros d Hd. apply H. now right.
Qed.

Lemma get_unregistered (wallet_address : string) (s : Mongo.store) :
  ~ registered wallet_address s ->
  Miner.get wallet_address s = (Ret None, Mongo.logged (Mongo.Find Mongo.zil_miners) s).
Proof.
  intros Hno. unfold Miner.get, Miner.get_one, ModelMixin.get_one.
  f_equal. f_equal. apply find_none_iff. intros d Hd.
  apply String.eqb_neq. intros E. apply Hno. now exists d.
Qed.

Lemma get_registered (wallet_address : string) (s : Mongo.store) :
  registered wallet_address s ->
  exists m, In m (Mongo.miners s)
            /\ MinerDoc.wallet_address m = wallet_address
            /\ Miner.get_one wallet_address s
               = (Ret (Some m), Mongo.logged (Mongo.Find Mongo.zil_miners) s).
Proof.
  intros [m [Hin Hw]]. unfold Miner.get_one, ModelMixin.get_one.
  destruct (find (fun d => String.eqb (MinerDoc.wallet_address d) wallet_address)
                 (Mongo.miners s)) as [m'|] eqn:F.
  - exists m'. apply find_some in F. destruct F as [F1 F2].
    apply String.eqb_eq in F2. auto.
  - exfalso. pose proof (find_none _ _ F m Hin) as E. simpl in E.
    apply String.eqb_neq in E. auto.
Qed.

(** ** The [$match] of [epoch_hashrate] *)

Lemma forallb_app_true {A : Type} (p : A -> bool) (l1 l2 : list A) :
  forallb p (l1 ++ l2) = true <-> forallb p l1 = true /\ forallb p l2 = true.
Proof. rewrite forallb_app. apply andb_true_iff. Qed.

Lemma epoch_match_sat pow_start pow_end wallet_address worker_name d :
  forallb (Mongo.sat d)
    (HashRate.epoch_match pow_start pow_end wallet_address worker_name) = true
  <-> in_epoch pow_start pow_end wallet_address worker_name d.
Proof.
  unfold HashRate.epoch_match, in_epoch, passes.
  destruct wallet_address as [a|], worker_name as [n|];
    repeat rewrite forallb_app_true; simpl;
    repeat rewrite andb_true_iff;
    repeat rewrite Z.leb_le;
    repeat rewrite String.eqb_eq; tauto.
Qed.

Lemma epoch_match_in pow_start pow_end wallet_address worker_name docs d :
  In d (Mongo.stage_match
          (HashRate.epoch_match pow_start pow_end wallet_address worker_name) docs)
  <-> In d docs /\ in_epoch pow_start pow_end wallet_address worker_name d.
Proof.
  unfold Mongo.stage_match. rewrite filter_In. now rewrite epoch_match_sat.
Qed.

(** ** Sample ingestion *)

(** C4: [HashRate.log] with a hashrate below 0 answers [False] and leaves the
    store exactly as it was: no sample is inserted and no command is sent. *)
Theorem log_negative_hashrate
    (utcnow : datetime) (hashrate : Z) (wallet_address worker_name : string)
    (s : Mongo.store) :
  hashrate < 0 ->
  HashRate.log utcnow hashrate wallet_address worker_name s = (Ret (inl false), s).
Proof.
  intros H. unfold HashRate.log.
  apply Z.ltb_lt in H. rewrite H. reflexivity.
Qed.

Lemma log_negative_hashrate_witness :
  -1 < 0 /\
  HashRate.log 1000 (-1) "zil1"%string "rig0"%string (Mongo.mk [] [] [] 0%N [])
  = (Ret (inl false), Mongo.mk [] [] [] 0%N []).
Proof. split; [lia | apply log_negative_hashrate; lia]. Defined.

(** C5: [HashRate.log] of a hashrate that is not negative, for an account
    without a Miner, answers [False]; the only command sent is the lookup of
    the Miner, so the Worker upsert is not reached, and the three collections
    are what they were: no Worker, no Miner and no sample is created. *)
Theorem log_unregistered_account
    (utcnow : datetime) (hashrate : Z) (wallet_address worker_name : string)
    (s : Mongo.store) :
  0 <= hashrate ->
  ~ registered wallet_address s ->
  let r := HashRate.log utcnow hashrate wallet_address worker_name s in
  fst r = Ret (inl false)
  /\ same_documents s (snd r)
  /\ Mongo.oplog (snd r) = (Mongo.oplog s ++ [Mongo.Find Mongo.zil_miners])%list.
Proof.
  intros Hh Hno. unfold HashRate.log.
  destruct (hashrate <? 0) eqn:E; [apply Z.ltb_lt in E; lia|].
  unfold bind. rewrite (get_unregistered _ _ Hno). simpl.
  repeat split.
Qed.

Lemma log_unregistered_account_witness :
  let s := Mongo.mk [] [] [] 0%N [] in
  let r := HashRate.log 1000 42 "zil1"%string "rig0"%string s in
  fst r = Ret (inl false)
  /\ same_documents s (snd r)
  /\ Mongo.oplog (snd r) = [Mongo.Find Mongo.zil_miners].
Proof.
  apply (log_unregistered_account 1000 42 "zil1"%string "rig0"%string (Mongo.mk [] [] [] 0%N [])).
  - lia.
  - intros [m [Hin _]]. exact Hin.
Defined.

(** ** The epoch window *)

(** C6: when the resolver leaves the start or the end of the epoch unset,
    [epoch_hashrate] answers 0 and the store, its operation log included, is
    what it was: no aggregation is sent and nothing is raised, whatever the
    store holds. *)
Theorem epoch_hashrate_unresolved
    (get_pow_window : option Z -> option datetime * option datetime)
    (block_num : option Z) (wallet_address worker_name : option string)
    (s : Mongo.store) :
  fst (get_pow_window block_num) = None \/ snd (get_pow_window block_num) = None ->
  HashRate.epoch_hashrate get_pow_window block_num wallet_address worker_name s
  = (Ret 0, s).
Proof.
  intros H. unfold HashRate.epoch_hashrate.
  destruct (get_pow_window block_num) as [[pow_start|] [pow_end|]];
    simpl in H; try reflexivity.
  destruct H; discriminate.
Qed.

Lemma epoch_hashrate_unresolved_witness :
  let s := Mongo.mk [] [] [HashRateDoc.mk (Some 0%N) "zil1"%string "rig0"%string 100 5]
             1%N [] in
  HashRate.epoch_hashrate (fun _ => (Some 0, None)) (Some 77) None None s
  = (Ret 0, s).
Proof.
  apply (epoch_hashrate_unresolved (fun _ => (Some 0, None))).
  right. reflexivity.
Defined.

(** ** Updates of one document *)

Section UpdateOne.
Context {D : Type}.
Variables (p : D -> bool) (f : D -> D).

Lemma update_one_found (l : list D) (d : D) :
  find p l = Some d -> fst (Mongo.update_one p f l) = 1.
Proof.
  induction l as [|x l IH]; simpl; [discriminate|].
  destruct (p x); [reflexivity|]. intros H.
  specialize (IH H). destruct (Mongo.update_one p f l). exact IH.
Qed.

Lemma update_one_missing (l : list D) :
  find p l = None -> Mongo.update_one p f l = (0, l).
Proof.
  induction l as [|x l IH]; simpl; [reflexivity|].
  destruct (p x); [discriminate|]. intros H. now rewrite (IH H).
Qed.

Lemma update_one_count (l : list D) :
  fst (Mongo.update_one p f l) = 0 \/ fst (Mongo.update_one p f l) = 1.
Proof.
  destruct (find p l) eqn:F.
  - right. eapply update_one_found; eauto.
  - left. now rewrite update_one_missing.
Qed.

(** The document looked up by the predicate of the update is the updated
    one. *)
Lemma find_update_one_same (l : list D) :
  (forall d, p (f d) = p d) ->
  find p (snd (Mongo.update_one p f l)) = option_map f (find p l).
Proof.
  intros Hp. induction l as [|x l IH]; simpl; [reflexivity|].
  destruct (p x) eqn:E; simpl.
  - now rewrite Hp, E.
  - destruct (Mongo.update_one p f l) as [n l']. simpl in *. now rewrite E.
Qed.

(** A lookup that the update cannot tell apart from before. *)
Lemma find_update_one_other (q : D -> bool) (l : list D) :
  (forall d, q (f d) = q d) ->
  (forall d, p d = true -> q d = false) ->
  find q (snd (Mongo.update_one p f l)) = find q l.
Proof.
  intros Hq Hpq. induction l as [|x l IH]; simpl; [reflexivity|].
  destruct (p x) eqn:E; simpl.
  - now rewrite Hq, (Hpq x E).
  - destruct (Mongo.update_one p f l) as [n l']. simpl in *. now rewrite IH.
Qed.

Lemma update_one_id (l : list D) :
  (forall d, p d = true -> f d = d) ->
  snd (Mongo.update_one p f l) = l.
Proof.
  intros Hf. induction l as [|x l IH]; simpl; [reflexivity|].
  destruct (p x) eqn:E; simpl.
  - now rewrite (Hf x E).
  - destruct (Mongo.update_one p f l) as [n l']. simpl in *. now rewrite IH.
Qed.
End UpdateOne.

Lemma is_pk_distinct (i j : ObjectId) (o : option ObjectId) :
  i <> j -> Mongo.is_pk i o = true -> Mongo.is_pk j o = false.
Proof.
  destruct o as [k|]; simpl; [|discriminate].
  intros Hij E. apply N.eqb_eq in E. subst k. now apply N.eqb_neq.
Qed.

Lemma skipn_length_app {A : Type} (l x : list A) : skipn (List.length l) (l ++ x) = x.
Proof. induction l; simpl; auto. Qed.

(** ** The counters under [$inc] *)

Lemma stat_kwargs_nil a b c d :
  stat_kwargs a b c d = [] <-> (forall f, delta a b c d f <= 0).
Proof.
  unfold stat_kwargs. simpl. split.
  - intros H f.
    destruct (0 <? a) eqn:Ea; [discriminate|].
    destruct (0 <? b) eqn:Eb; [discriminate|].
    destruct (0 <? c) eqn:Ec; [discriminate|].
    destruct (0 <? d) eqn:Ed; [discriminate|].
    apply Z.ltb_ge in Ea, Eb, Ec, Ed. destruct f; simpl; assumption.
  - intros H.
    pose proof (H inc__work_submitted) as Ha. pose proof (H inc__work_failed) as Hb.
    pose proof (H inc__work_finished) as Hc. pose proof (H inc__work_verified) as Hd.
    simpl in *. apply Z.ltb_ge in Ha, Hb, Hc, Hd.
    now rewrite Ha, Hb, Hc, Hd.
Qed.

Lemma miner_apply_stat a b c d (f : stat_field) (doc : MinerDoc.t) :
  MinerDoc.stat f (Miner.apply_kwargs (stat_kwargs a b c d) doc)
  = MinerDoc.stat f doc + Z.max 0 (delta a b c d f).
Proof.
  unfold stat_kwargs. simpl.
  destruct (0 <? a) eqn:Ea, (0 <? b) eqn:Eb, (0 <? c) eqn:Ec, (0 <? d) eqn:Ed;
    try apply Z.ltb_lt in Ea; try apply Z.ltb_ge in Ea;
    try apply Z.ltb_lt in Eb; try apply Z.ltb_ge in Eb;
    try apply Z.ltb_lt in Ec; try apply Z.ltb_ge in Ec;
    try apply Z.ltb_lt in Ed; try apply Z.ltb_ge in Ed;
    destruct f; simpl; lia.
Qed.

Lemma miner_apply_pk (kw : kwargs) (doc : MinerDoc.t) :
  MinerDoc.pk (Miner.apply_kwargs kw doc) = MinerDoc.pk doc.
Proof.
  unfold Miner.apply_kwargs. revert doc.
  induction kw as [|[f v] kw IH]; intros doc; simpl; [reflexivity|].
  rewrite IH. now destruct f.
Qed.

Lemma miner_apply_wallet (kw : kwargs) (doc : MinerDoc.t) :
  MinerDoc.wallet_address (Miner.apply_kwargs kw doc) = MinerDoc.wallet_address doc.
Proof.
  unfold Miner.apply_kwargs. revert doc.
  induction kw as [|[f v] kw IH]; intros doc; simpl; [reflexivity|].
  rewrite IH. now destruct f.
Qed.

Lemma worker_apply_stat a b c d (f : stat_field) (doc : WorkerDoc.t) :
  WorkerDoc.stat f (Worker.apply_kwargs (stat_kwargs a b c d) doc)
  = WorkerDoc.stat f doc + Z.max 0 (delta a b c d f).
Proof.
  unfold stat_kwargs. simpl.
  destruct (0 <? a) eqn:Ea, (0 <? b) eqn:Eb, (0 <? c) eqn:Ec, (0 <? d) eqn:Ed;
    try apply Z.ltb_lt in Ea; try apply Z.ltb_ge in Ea;
    try apply Z.ltb_lt in Eb; try apply Z.ltb_ge in Eb;
    try apply Z.ltb_lt in Ec; try apply Z.ltb_ge in Ec;
    try apply Z.ltb_lt in Ed; try apply Z.ltb_ge in Ed;
    destruct f; simpl; lia.
Qed.

Lemma worker_apply_pk (kw : kwargs) (doc : WorkerDoc.t) :
  WorkerDoc.pk (Worker.apply_kwargs kw doc) = WorkerDoc.pk doc.
Proof.
  unfold Worker.apply_kwargs. revert doc.
  induction kw as [|[f v] kw IH]; intros doc; simpl; [reflexivity|].
  rewrite IH. now destruct f.
Qed.

(** ** [Document.update] on the two collections *)


Lemma miner_update_cases (self : MinerDoc.t) (kw : kwargs) (s : Mongo.store) :
  (exists e,
      Miner.update self kw s = (Raise e, s)
      /\ e <> AttributeError
      /\ (MinerDoc.pk self = None \/ kw = [] \/ encodable kw = false))
  \/ (exists id,
        MinerDoc.pk self = Some id /\ kw <> [] /\ encodable kw = true
        /\ Miner.update self kw s
           = (Ret (fst (Mongo.update_one (fun d => Mongo.is_pk id (MinerDoc.pk d))
                          (Miner.apply_kwargs kw) (Mongo.miners s))),
              Mongo.logged (Mongo.UpdateOne Mongo.zil_miners)
                (Mongo.with_miners
                   (snd (Mongo.update_one (fun d => Mongo.is_pk id (MinerDoc.pk d))
                           (Miner.apply_kwargs kw) (Mongo.miners s))) s))).
Proof.
  unfold Miner.update. destruct (MinerDoc.pk self) as [id|];
    [|left; exists OperationError; repeat split; auto; discriminate].
  destruct kw as [|kv kw];
    [left; exists OperationError; repeat split; auto; discriminate|].
  destruct (encodable (kv :: kw)) eqn:E; cbn [negb].
  - right. exists id. repeat split; [discriminate|].
    now destruct (Mongo.update_one _ _ (Mongo.miners s)).
  - left. exists OverflowError. repeat split; auto. discriminate.
Qed.

Lemma worker_update_cases (self : WorkerDoc.t) (kw : kwargs) (s : Mongo.store) :
  (exists e,
      Worker.update self kw s = (Raise e, s)
      /\ e <> AttributeError
      /\ (WorkerDoc.pk self = None \/ kw = [] \/ encodable kw = false))
  \/ (exists id,
        WorkerDoc.pk self = Some id /\ kw <> [] /\ encodable kw = true
        /\ Worker.update self kw s
           = (Ret (fst (Mongo.update_one (fun d => Mongo.is_pk id (WorkerDoc.pk d))
                          (Worker.apply_kwargs kw) (Mongo.workers s))),
              Mongo.logged (Mongo.UpdateOne Mongo.zil_mine_workers)
                (Mongo.with_workers
                   (snd (Mongo.update_one (fun d => Mongo.is_pk id (WorkerDoc.pk d))
                           (Worker.apply_kwargs kw) (Mongo.workers s))) s))).
Proof.
  unfold Worker.update. destruct (WorkerDoc.pk self) as [id|];
    [|left; exists OperationError; repeat split; auto; discriminate].
  destruct kw as [|kv kw];
    [left; exists OperationError; repeat split; auto; discriminate|].
  destruct (encodable (kv :: kw)) eqn:E; cbn [negb].
  - right. exists id. repeat split; [discriminate|].
    now destruct (Mongo.update_one _ _ (Mongo.workers s)).
  - left. exists OverflowError. repeat split; auto. discriminate.
Qed.

(** After [update], the document of the updated key carries the increments. *)
Lemma miner_update_hit (self : MinerDoc.t) (kw : kwargs) (s : Mongo.store)
    (id : ObjectId) :
  MinerDoc.pk self = Some id -> kw <> [] -> encodable kw = true ->
  miner_by_pk id (snd (Miner.update self kw s))
  = option_map (Miner.apply_kwargs kw) (miner_by_pk id s).
Proof.
  intros Hpk Hkw Hfit.
  destruct (miner_update_cases self kw s)
    as [[e [_ [_ [E|[E|E]]]]]|[id' [Hpk' [_ [_ E]]]]]; try congruence.
  rewrite E. assert (id' = id) by congruence. subst id'.
  unfold miner_by_pk. simpl. apply find_update_one_same.
  intros x. now rewrite miner_apply_pk.
Qed.


Lemma worker_update_hit (self : WorkerDoc.t) (kw : kwargs) (s : Mongo.store)
    (id : ObjectId) :
  WorkerDoc.pk self = Some id -> kw <> [] -> encodable kw = true ->
  worker_by_pk id (snd (Worker.update self kw s))
  = option_map (Worker.apply_kwargs kw) (worker_by_pk id s).
Proof.
  intros Hpk Hkw Hfit.
  destruct (worker_update_cases self kw s)
    as [[e [_ [_ [E|[E|E]]]]]|[id' [Hpk' [_ [_ E]]]]]; try congruence.
  rewrite E. assert (id' = id) by congruence. subst id'.
  unfold worker_by_pk. simpl. apply find_update_one_same.
  intros x. now rewrite worker_apply_pk.
Qed.


(** Each [update] leaves the other collections alone. *)
Lemma miner_update_frame (self : MinerDoc.t) (kw : kwargs) (s : Mongo.store) :
  Mongo.workers (snd (Miner.update self kw s)) = Mongo.workers s
  /\ Mongo.hashrates (snd (Miner.update self kw s)) = Mongo.hashrates s.
Proof.
  destruct (miner_update_cases self kw s) as [[e [E _]]|[id [_ [_ [_ E]]]]];
    rewrite E; auto.
Qed.

Lemma worker_update_frame (self : WorkerDoc.t) (kw : kwargs) (s : Mongo.store) :
  Mongo.miners (snd (Worker.update self kw s)) = Mongo.miners s
  /\ Mongo.hashrates (snd (Worker.update self kw s)) = Mongo.hashrates s.
Proof.
  destruct (worker_update_cases self kw s) as [[e [E _]]|[id [_ [_ [_ E]]]]];
    rewrite E; auto.
Qed.

(** ** The course of [Worker.update_stat] *)

Lemma worker_update_stat_run (self : WorkerDoc.t) (a b c d : Z) (s : Mongo.store) :
  Worker.update_stat self a b c d s
  = match Worker.update self (stat_kwargs a b c d) s with
    | (Raise e, s1) => (Raise e, s1)
    | (Ret n, s1) =>
        if n =? 0 then (Ret None_, s1)
        else
          let s2 := Mongo.logged (Mongo.Find Mongo.zil_miners) s1 in
          match find (fun m => String.eqb (MinerDoc.wallet_address m)
                                 (WorkerDoc.wallet_address self))
                     (Mongo.miners s1) with
          | None => (Raise AttributeError, s2)
          | Some m =>
              match Miner.update m (stat_kwargs a b c d) s2 with
              | (Ret _, s3) => (Ret None_, s3)
              | (Raise e, s3) => (Raise e, s3)
              end
          end
    end.
Proof.
  unfold Worker.update_stat, bind. fold (stat_kwargs a b c d).
  destruct (Worker.update self (stat_kwargs a b c d) s) as [[n|e] s1];
    [|reflexivity].
  destruct (n =? 0); simpl; [reflexivity|].
  unfold Worker.miner, Miner.get_one, ModelMixin.get_one.
  destruct (find _ (Mongo.miners s1)) as [m|]; [|reflexivity].
  unfold Miner.update_stat. fold (stat_kwargs a b c d).
  now destruct (Miner.update m (stat_kwargs a b c d) _) as [[k|e] s3].
Qed.

Lemma worker_update_stat_workers (self : WorkerDoc.t) (a b c d : Z) (s : Mongo.store) :
  Mongo.workers (snd (Worker.update_stat self a b c d s))
  = Mongo.workers (snd (Worker.update self (stat_kwargs a b c d) s)).
Proof.
  rewrite worker_update_stat_run.
  destruct (Worker.update self (stat_kwargs a b c d) s) as [[n|e] s1];
    [|reflexivity].
  destruct (n =? 0); [reflexivity|]. simpl.
  destruct (find _ (Mongo.miners s1)) as [m|]; [|reflexivity].
  pose proof (miner_update_frame m (stat_kwargs a b c d)
                (Mongo.logged (Mongo.Find Mongo.zil_miners) s1)) as [F _].
  now destruct (Miner.update m (stat_kwargs a b c d) _) as [[k|e] s3].
Qed.


(** ** The counters never go down *)



(** C3, as claimed, fails: a delta above the largest 8-byte integer is
    strictly positive but cannot be encoded; [update_stat] with the delta
    2^63 raises [OverflowError] and the stored counter keeps its value 10
    instead of growing by the delta. *)
Lemma update_stat_delta_too_large :
  let m := MinerDoc.mk (Some 0%N) "zil1"%string true ""%string ""%string false
             None [] 10 0 3 7 in
  let s := Mongo.mk [m] [] [] 1%N [] in
  0 < delta (2 ^ 63) 0 0 0 inc__work_submitted
  /\ Miner.update_stat m (2 ^ 63) 0 0 0 s = (Raise OverflowError, s)
  /\ (exists doc',
        miner_by_pk 0%N (snd (Miner.update_stat m (2 ^ 63) 0 0 0 s)) = Some doc'
        /\ MinerDoc.stat inc__work_submitted doc' = 10
        /\ MinerDoc.stat inc__work_submitted doc'
           <> MinerDoc.stat inc__work_submitted m
              + delta (2 ^ 63) 0 0 0 inc__work_submitted).
Proof.
  intros m s. split; [reflexivity|]. split; [reflexivity|].
  exists m. split; [reflexivity|]. split; [reflexivity|]. discriminate.
Qed.



(** ** The cascade from a Worker to its Miner *)

Lemma worker_update_ok_inv (self : WorkerDoc.t) (a b c d : Z) (s : Mongo.store) :
  worker_update_ok self a b c d s ->
  exists wid w,
    WorkerDoc.pk self = Some wid
    /\ stat_kwargs a b c d <> []
    /\ worker_by_pk wid s = Some w
    /\ Mongo.miners (snd (Worker.update self (stat_kwargs a b c d) s))
       = Mongo.miners s
    /\ Mongo.oplog (snd (Worker.update self (stat_kwargs a b c d) s))
       = (Mongo.oplog s ++ [Mongo.UpdateOne Mongo.zil_mine_workers])%list.
Proof.
  intros [n [Hn Hn0]].
  destruct (worker_update_cases self (stat_kwargs a b c d) s)
    as [[e [E _]]|[wid [Hpk [Hkw [_ E]]]]]; rewrite E in *; simpl in Hn;
    [discriminate|].
  injection Hn as Hn.
  destruct (worker_by_pk wid s) as [w|] eqn:F.
  - exists wid, w. simpl. auto.
  - unfold worker_by_pk in F.
    rewrite (update_one_missing _ (Worker.apply_kwargs (stat_kwargs a b c d)) _ F)
      in Hn.
    simpl in Hn. congruence.
Qed.

Lemma worker_update_ok_fit (self : WorkerDoc.t) (a b c d : Z) (s : Mongo.store) :
  worker_update_ok self a b c d s -> encodable (stat_kwargs a b c d) = true.
Proof.
  intros [n [Hn _]].
  destruct (worker_update_cases self (stat_kwargs a b c d) s)
    as [[e [E _]]|[wid [_ [_ [Hfit _]]]]]; [|exact Hfit].
  rewrite E in Hn. discriminate.
Qed.

(** Without success of the worker's own update the call ends there. *)
Lemma worker_update_stat_not_ok (self : WorkerDoc.t) (a b c d : Z)
    (s : Mongo.store) :
  ~ worker_update_ok self a b c d s ->
  Worker.update_stat self a b c d s
  = (match fst (Worker.update self (stat_kwargs a b c d) s) with
     | Ret _ => Ret None_
     | Raise e => Raise e
     end,
     snd (Worker.update self (stat_kwargs a b c d) s)).
Proof.
  intros Hno. rewrite worker_update_stat_run. unfold worker_update_ok in Hno.
  destruct (Worker.update self (stat_kwargs a b c d) s) as [[n|e] s1];
    [|reflexivity].
  destruct (n =? 0) eqn:E; [reflexivity|].
  exfalso. apply Hno. exists n. split; [reflexivity|]. now apply Z.eqb_neq.
Qed.

Lemma worker_update_stat_ok (self : WorkerDoc.t) (a b c d : Z) (s : Mongo.store) :
  worker_update_ok self a b c d s ->
  let s2 := Mongo.logged (Mongo.Find Mongo.zil_miners)
              (snd (Worker.update self (stat_kwargs a b c d) s)) in
  Worker.update_stat self a b c d s
  = match find (fun m => String.eqb (MinerDoc.wallet_address m)
                           (WorkerDoc.wallet_address self))
               (Mongo.miners s) with
    | None => (Raise AttributeError, s2)
    | Some m =>
        (match fst (Miner.update m (stat_kwargs a b c d) s2) with
         | Ret _ => Ret None_
         | Raise e => Raise e
         end,
         snd (Miner.update m (stat_kwargs a b c d) s2))
    end.
Proof.
  intros Hok. pose proof (worker_update_ok_inv _ _ _ _ _ _ Hok)
    as [wid [w [_ [_ [_ [Hm _]]]]]].
  destruct Hok as [n [Hn Hn0]]. rewrite worker_update_stat_run.
  destruct (Worker.update self (stat_kwargs a b c d) s) as [[k|e] s1];
    simpl in *; [|discriminate].
  injection Hn as ->. apply Z.eqb_neq in Hn0. rewrite Hn0, Hm.
  destruct (find _ (Mongo.miners s)) as [m|]; [|reflexivity].
  now destruct (Miner.update m (stat_kwargs a b c d) _) as [[k|e] s3].
Qed.

Lemma worker_update_oplog (self : WorkerDoc.t) (kw : kwargs) (s : Mongo.store) :
  Mongo.oplog (snd (Worker.update self kw s)) = Mongo.oplog s
  \/ Mongo.oplog (snd (Worker.update self kw s))
     = (Mongo.oplog s ++ [Mongo.UpdateOne Mongo.zil_mine_workers])%list.
Proof.
  destruct (worker_update_cases self kw s) as [[e [E _]]|[id [_ [_ [_ E]]]]];
    rewrite E; auto.
Qed.

Lemma find_by_pk_present (l : list MinerDoc.t) (m : MinerDoc.t) (id : ObjectId) :
  In m l -> MinerDoc.pk m = Some id ->
  exists doc, find (fun x => Mongo.is_pk id (MinerDoc.pk x)) l = Some doc.
Proof.
  intros Hin Hpk.
  destruct (find (fun x => Mongo.is_pk id (MinerDoc.pk x)) l) as [doc|] eqn:F.
  - now exists doc.
  - pose proof (find_none _ _ F m Hin) as E. simpl in E. rewrite Hpk in E.
    simpl in E. now rewrite N.eqb_refl in E.
Qed.

Lemma worker_update_ok_dec (self : WorkerDoc.t) (a b c d : Z) (s : Mongo.store) :
  worker_update_ok self a b c d s \/ ~ worker_update_ok self a b c d s.
Proof.
  unfold worker_update_ok.
  destruct (fst (Worker.update self (stat_kwargs a b c d) s)) as [n|e].
  - destruct (Z.eq_dec n 0) as [->|Hn].
    + right. intros [k [Hk Hk0]]. congruence.
    + left. now exists n.
  - right. intros [k [Hk _]]. discriminate.
Qed.

(** In a list without two documents of the same key, the lookup of a key
    finds the document that carries it. *)
Lemma find_unique {D K : Type} (key : D -> K) (q : D -> bool) (l : list D)
    (m : D) :
  (forall x, q x = true <-> key x = key m) ->
  NoDup (map key l) -> In m l -> find q l = Some m.
Proof.
  intros Hq. induction l as [|y l IH]; simpl; intros Hnd Hin; [destruct Hin|].
  inversion Hnd as [|? ? Hy Hnd']. subst.
  destruct (q y) eqn:E.
  - apply Hq in E. destruct Hin as [->|Hin]; [reflexivity|].
    exfalso. apply Hy. rewrite E. now apply in_map.
  - destruct Hin as [->|Hin]; [|now apply IH].
    assert (q m = true) by now apply Hq. congruence.
Qed.

(** The Miner of a wallet address: in a keyed collection, the lookup that
    [Worker.miner] makes finds the stored Miner with the worker's wallet
    address, and that Miner is the document of its primary key. *)
Lemma miner_of_wallet (s : Mongo.store) (m : MinerDoc.t) :
  miners_keyed s -> In m (Mongo.miners s) ->
  find (fun x => String.eqb (MinerDoc.wallet_address x) (MinerDoc.wallet_address m))
       (Mongo.miners s) = Some m
  /\ exists id, MinerDoc.pk m = Some id /\ miner_by_pk id s = Some m.
Proof.
  intros [Hpk [Hnd Hw]] Hin. split.
  - apply (find_unique MinerDoc.wallet_address); auto.
    intros x. apply String.eqb_eq.
  - destruct (Hpk m Hin) as [id [E _]]. exists id. split; [exact E|].
    unfold miner_by_pk. apply (find_unique MinerDoc.pk); auto.
    intros x. rewrite E. destruct (MinerDoc.pk x) as [i|]; simpl.
    + rewrite N.eqb_eq. split; congruence.
    + split; discriminate.
Qed.

(** C2: [Worker.update_stat] sends the Miner update exactly when the worker's
    own update has succeeded.  When it has not, the miners collection is what
    it was and no update of a Miner is sent.  When it has, then for the
    stored Miner that has the worker's wallet address (in a miners
    collection with distinct primary keys and wallet addresses) the update
    is sent and this Miner's four counters grow by the same amounts as the
    stored Worker's, each delta above zero and nothing for the others, while
    no other Miner changes. *)
Theorem worker_update_stat_cascade
    (self : WorkerDoc.t) (a b c d : Z) (s : Mongo.store) :
  let s' := snd (Worker.update_stat self a b c d s) in
  (~ worker_update_ok self a b c d s ->
   Mongo.miners s' = Mongo.miners s
   /\ ~ In (Mongo.UpdateOne Mongo.zil_miners) (ops_since s s'))
  /\ (In (Mongo.UpdateOne Mongo.zil_miners) (ops_since s s') ->
      worker_update_ok self a b c d s)
  /\ (worker_update_ok self a b c d s ->
      miners_keyed s ->
      forall m : MinerDoc.t,
        In m (Mongo.miners s) ->
        MinerDoc.wallet_address m = WorkerDoc.wallet_address self ->
        In (Mongo.UpdateOne Mongo.zil_miners) (ops_since s s')
        /\ (exists id m',
              MinerDoc.pk m = Some id
              /\ miner_by_pk id s = Some m
              /\ miner_by_pk id s' = Some m'
              /\ MinerDoc.wallet_address m' = WorkerDoc.wallet_address self
              /\ (forall f, MinerDoc.stat f m'
                            = MinerDoc.stat f m + Z.max 0 (delta a b c d f))
              /\ (forall id', id' <> id ->
                              miner_by_pk id' s' = miner_by_pk id' s))
        /\ (exists wid w w',
              WorkerDoc.pk self = Some wid
              /\ worker_by_pk wid s = Some w
              /\ worker_by_pk wid s' = Some w'
              /\ forall f, WorkerDoc.stat f w'
                           = WorkerDoc.stat f w + Z.max 0 (delta a b c d f))).
Proof.
  intros s'.
  assert (Hfail : ~ worker_update_ok self a b c d s ->
                  Mongo.miners s' = Mongo.miners s
                  /\ ~ In (Mongo.UpdateOne Mongo.zil_miners) (ops_since s s')).
  { intros Hno. unfold s'. rewrite (worker_update_stat_not_ok _ _ _ _ _ _ Hno).
    simpl. split; [apply worker_update_frame|].
    unfold ops_since.
    destruct (worker_update_oplog self (stat_kwargs a b c d) s) as [E|E];
      rewrite E.
    - rewrite <- (app_nil_r (Mongo.oplog s)) at 2. rewrite skipn_length_app.
      intros [].
    - rewrite skipn_length_app. intros [H|[]]. discriminate. }
  split; [exact Hfail|]. split.
  - intros Hin. destruct (worker_update_ok_dec self a b c d s) as [Hok|Hno];
      [exact Hok|]. exfalso. exact (proj2 (Hfail Hno) Hin).
  - intros Hok Hkeyed m Hin Hwallet.
    pose proof (worker_update_ok_inv _ _ _ _ _ _ Hok)
      as [wid [w [Hwpk [Hkw [Hw [Hmin Hlog]]]]]].
    pose proof (worker_update_ok_fit _ _ _ _ _ _ Hok) as Hfit.
    destruct (miner_of_wallet s m Hkeyed Hin) as [Hm [id [Hpk Hdoc]]].
    rewrite Hwallet in Hm.
    pose proof (worker_update_stat_ok _ _ _ _ _ _ Hok) as Hrun.
    simpl in Hrun. rewrite Hm in Hrun.
    set (s2 := Mongo.logged (Mongo.Find Mongo.zil_miners)
                 (snd (Worker.update self (stat_kwargs a b c d) s))) in *.
    assert (Hs' : s' = snd (Miner.update m (stat_kwargs a b c d) s2))
      by (unfold s'; now rewrite Hrun).
    assert (Hby : forall i, miner_by_pk i s2 = miner_by_pk i s)
      by (intros i; unfold miner_by_pk, s2; simpl; now rewrite Hmin).
    destruct (miner_update_cases m (stat_kwargs a b c d) s2)
      as [[e [_ [_ [E|[E|E]]]]]|[id' [Hpk' [_ [_ E]]]]]; try congruence.
    assert (id' = id) by congruence. subst id'.
    split; [|split].
    + rewrite Hs', E. unfold ops_since, s2. simpl. rewrite Hlog.
      rewrite <- !app_assoc. rewrite skipn_length_app. simpl. auto.
    + exists id, (Miner.apply_kwargs (stat_kwargs a b c d) m).
      split; [exact Hpk|]. split; [exact Hdoc|]. split; [|split; [|split]].
      * rewrite Hs'. rewrite (miner_update_hit m _ s2 id Hpk Hkw Hfit), Hby.
        now rewrite Hdoc.
      * now rewrite miner_apply_wallet.
      * intros f. apply miner_apply_stat.
      * intros i Hi. rewrite Hs', E, <- Hby. unfold miner_by_pk. simpl.
        apply find_update_one_other.
        -- intros x. now rewrite miner_apply_pk.
        -- intros x. apply is_pk_distinct. congruence.
    + exists wid, w, (Worker.apply_kwargs (stat_kwargs a b c d) w).
      split; [exact Hwpk|]. split; [exact Hw|]. split.
      * unfold s', worker_by_pk. rewrite worker_update_stat_workers.
        fold (worker_by_pk wid (snd (Worker.update self (stat_kwargs a b c d) s))).
        now rewrite (worker_update_hit self _ s wid Hwpk Hkw Hfit), Hw.
      * intros f. apply worker_apply_stat.
Qed.

Lemma worker_update_stat_cascade_witness :
  let w := WorkerDoc.mk (Some 1%N) "zil1"%string "rig0"%string 10 0 3 7 in
  let m := MinerDoc.mk (Some 0%N) "zil1"%string true ""%string ""%string false
             None ["rig0"%string] 10 0 3 7 in
  let s := Mongo.mk [m] [w] [] 2%N [] in
  let gone := WorkerDoc.mk (Some 9%N) "zil1"%string "rig9"%string 0 0 0 0 in
  (In (Mongo.UpdateOne Mongo.zil_miners)
      (ops_since s (snd (Worker.update_stat w 2 0 (-1) 5 s))))
  /\ Mongo.miners (snd (Worker.update_stat gone 2 0 (-1) 5 s)) = Mongo.miners s.
Proof.
  intros w m s gone. split.
  - refine (proj1 (proj2 (proj2 (worker_update_stat_cascade w 2 0 (-1) 5 s))
                     _ _ m _ _)).
    + exists 1. split; [reflexivity | lia].
    + split; [|split].
      * intros x [<-|[]]. exists 0%N. split; reflexivity.
      * repeat constructor. intros [].
      * repeat constructor. intros [].
    + now left.
    + reflexivity.
  - refine (proj1 (proj1 (worker_update_stat_cascade gone 2 0 (-1) 5 s) _)).
    intros [n [Hn Hn0]]. vm_compute in Hn. congruence.
Defined.

Lemma find_wallet_registered (a : string) (s : Mongo.store) :
  registered a s <->
  exists m, find (fun x => String.eqb (MinerDoc.wallet_address x) a)
                 (Mongo.miners s) = Some m.
Proof.
  split.
  - intros H. destruct (get_registered a s H) as [m [_ [_ E]]].
    exists m. unfold Miner.get_one, ModelMixin.get_one in E. congruence.
  - intros [m F]. apply find_some in F. destruct F as [Hin E].
    apply String.eqb_eq in E. now exists m.
Qed.

(** C10: the cascade of [Worker.update_stat] reads the owning Miner with no
    test for [None].  With a Miner registered for the worker's wallet address
    the call never raises [AttributeError]; when the worker's own update has
    succeeded and no such Miner is registered it raises [AttributeError], the
    worker's counters already incremented; and [AttributeError] has no other
    cause.  A call that returns answers [None] whether the worker's update
    matched a document or not, so the caller learns nothing from the value. *)
Theorem worker_update_stat_needs_miner
    (self : WorkerDoc.t) (a b c d : Z) (s : Mongo.store) :
  let r := Worker.update_stat self a b c d s in
  (registered (WorkerDoc.wallet_address self) s -> fst r <> Raise AttributeError)
  /\ (worker_update_ok self a b c d s ->
      ~ registered (WorkerDoc.wallet_address self) s ->
      fst r = Raise AttributeError
      /\ Mongo.workers (snd r)
         = Mongo.workers (snd (Worker.update self (stat_kwargs a b c d) s)))
  /\ (fst r = Raise AttributeError ->
      worker_update_ok self a b c d s
      /\ ~ registered (WorkerDoc.wallet_address self) s)
  /\ (forall v, fst r = Ret v -> v = None_)
  /\ (fst (Worker.update self (stat_kwargs a b c d) s) = Ret 0 ->
      fst r = Ret None_)
  /\ (worker_update_ok self a b c d s ->
      forall m id,
        fst (Worker.miner self s) = Ret (Some m) ->
        MinerDoc.pk m = Some id ->
        fst r = Ret None_).
Proof.
  intros r.
  assert (Hreg : registered (WorkerDoc.wallet_address self) s ->
                 fst r <> Raise AttributeError).
  { intros Hr. unfold r.
    destruct (worker_update_ok_dec self a b c d s) as [Hok|Hno].
    - rewrite (worker_update_stat_ok _ _ _ _ _ _ Hok).
      apply find_wallet_registered in Hr. destruct Hr as [m F]. rewrite F.
      simpl.
      destruct (miner_update_cases m (stat_kwargs a b c d)
                  (Mongo.logged (Mongo.Find Mongo.zil_miners)
                     (snd (Worker.update self (stat_kwargs a b c d) s))))
        as [[e [E [Hne _]]]|[id [_ [_ [_ E]]]]]; rewrite E; simpl;
        [congruence | discriminate].
    - rewrite (worker_update_stat_not_ok _ _ _ _ _ _ Hno). simpl.
      destruct (worker_update_cases self (stat_kwargs a b c d) s)
        as [[e [E [Hne _]]]|[id [_ [_ [_ E]]]]]; rewrite E; simpl;
        [congruence | discriminate]. }
  assert (Hmiss : worker_update_ok self a b c d s ->
                  ~ registered (WorkerDoc.wallet_address self) s ->
                  fst r = Raise AttributeError
                  /\ Mongo.workers (snd r)
                     = Mongo.workers
                         (snd (Worker.update self (stat_kwargs a b c d) s))).
  { intros Hok Hno. unfold r. rewrite (worker_update_stat_ok _ _ _ _ _ _ Hok).
    destruct (find _ (Mongo.miners s)) as [m|] eqn:F.
    - exfalso. apply Hno. apply find_wallet_registered. now exists m.
    - simpl. auto. }
  repeat split.
  - exact Hreg.
  - apply Hmiss; assumption.
  - apply Hmiss; assumption.
  - destruct (worker_update_ok_dec self a b c d s) as [Hok|Hno]; [exact Hok|].
    exfalso. unfold r in H.
    rewrite (worker_update_stat_not_ok _ _ _ _ _ _ Hno) in H. simpl in H.
    destruct (worker_update_cases self (stat_kwargs a b c d) s)
      as [[e [E [Hne _]]]|[id [_ [_ [_ E]]]]]; rewrite E in H; simpl in H;
      [congruence | discriminate].
  - intros Hr. exact (Hreg Hr H).
  - intros v _. now destruct v.
  - intros H0. unfold r. rewrite worker_update_stat_not_ok.
    + now rewrite H0.
    + intros [n [Hn Hn0]]. congruence.
  - intros Hok m id Hm Hpk. unfold r.
    rewrite (worker_update_stat_ok _ _ _ _ _ _ Hok).
    unfold Worker.miner, Miner.get_one, ModelMixin.get_one in Hm.
    simpl in Hm. injection Hm as Hm. rewrite Hm. simpl.
    pose proof (worker_update_ok_inv _ _ _ _ _ _ Hok) as [_ [_ [_ [Hkw _]]]].
    pose proof (worker_update_ok_fit _ _ _ _ _ _ Hok) as Hfit.
    destruct (miner_update_cases m (stat_kwargs a b c d)
                (Mongo.logged (Mongo.Find Mongo.zil_miners)
                   (snd (Worker.update self (stat_kwargs a b c d) s))))
      as [[e [_ [_ [E|[E|E]]]]]|[id' [_ [_ [_ E]]]]]; try congruence.
    now rewrite E.
Qed.

Lemma worker_update_stat_needs_miner_witness :
  let w := WorkerDoc.mk (Some 1%N) "zil1"%string "rig0"%string 10 0 3 7 in
  let m := MinerDoc.mk (Some 0%N) "zil1"%string true ""%string ""%string false
             None ["rig0"%string] 10 0 3 7 in
  fst (Worker.update_stat w 2 0 (-1) 5 (Mongo.mk [m] [w] [] 2%N []))
    <> Raise AttributeError
  /\ fst (Worker.update_stat w 2 0 (-1) 5 (Mongo.mk [] [w] [] 2%N []))
     = Raise AttributeError.
Proof.
  intros w m. split.
  - apply (proj1 (worker_update_stat_needs_miner w 2 0 (-1) 5
                    (Mongo.mk [m] [w] [] 2%N []))).
    exists m. split; [now left | reflexivity].
  - apply (proj1 (proj2 (worker_update_stat_needs_miner w 2 0 (-1) 5
                           (Mongo.mk [] [w] [] 2%N [])))).
    + exists 1. split; [reflexivity | lia].
    + intros [x [Hin _]]. exact Hin.
Defined.

(** ** Get-or-create of a Worker *)

Lemma has_key_of_key (a n : string) (d : WorkerDoc.t) :
  Worker.has_key a n d = of_key a n d.
Proof.
  unfold Worker.has_key, of_key.
  destruct (string_dec (WorkerDoc.wallet_address d) a) as [Ea|Na].
  - rewrite (proj2 (String.eqb_eq _ _) Ea). simpl.
    destruct (string_dec (WorkerDoc.worker_name d) n) as [En|Nn].
    + now apply String.eqb_eq.
    + now apply String.eqb_neq.
  - now rewrite (proj2 (String.eqb_neq _ _) Na).
Qed.

Lemma worker_count_has_key (a n : string) (s : Mongo.store) :
  worker_count a n s
  = List.length (filter (Worker.has_key a n) (Mongo.workers s)).
Proof.
  unfold worker_count. f_equal. apply filter_ext. intros d.
  symmetry. apply has_key_of_key.
Qed.

Lemma worker_valid_set_bounds (a n : string) :
  Worker.valid_set a n = true
  <-> (String.length a <= 128)%nat /\ (String.length n <= 64)%nat.
Proof.
  unfold Worker.valid_set. rewrite andb_true_iff, !Z.leb_le. lia.
Qed.

Lemma get_or_create_invalid (a n : string) (s : Mongo.store) :
  Worker.valid_set a n = false ->
  Worker.get_or_create a n s = (Raise ValidationError, s).
Proof. intros V. unfold Worker.get_or_create. now rewrite V. Qed.

Lemma has_key_set (a n : string) (d : WorkerDoc.t) :
  Worker.has_key a n d = true ->
  Worker.set__worker_name n (Worker.set__wallet_address a d) = d.
Proof.
  unfold Worker.has_key. intros H. apply andb_true_iff in H.
  destruct H as [Ha Hn]. apply String.eqb_eq in Ha, Hn.
  destruct d; simpl in *. now subst.
Qed.

Lemma get_or_create_found (a n : string) (s : Mongo.store) (d : WorkerDoc.t) :
  Worker.valid_set a n = true ->
  find (Worker.has_key a n) (Mongo.workers s) = Some d ->
  fst (Worker.get_or_create a n s) = Ret (Some d)
  /\ Mongo.workers (snd (Worker.get_or_create a n s)) = Mongo.workers s.
Proof.
  intros V F. unfold Worker.get_or_create, Mongo.find_one_and_update.
  rewrite V, F. simpl. split.
  - rewrite has_key_set; [reflexivity|]. now apply find_some in F.
  - apply update_one_id. intros x. apply has_key_set.
Qed.

Lemma get_or_create_missing (a n : string) (s : Mongo.store) :
  Worker.valid_set a n = true ->
  find (Worker.has_key a n) (Mongo.workers s) = None ->
  let w := WorkerDoc.mk (Some (Mongo.next_oid s)) a n 0 0 0 0 in
  fst (Worker.get_or_create a n s) = Ret (Some w)
  /\ Mongo.workers (snd (Worker.get_or_create a n s))
     = (Mongo.workers s ++ [w])%list.
Proof.
  intros V F. unfold Worker.get_or_create, Mongo.find_one_and_update.
  rewrite V, F. simpl. auto.
Qed.


Lemma filter_find_none {D : Type} (p : D -> bool) (l : list D) :
  find p l = None -> filter p l = [].
Proof.
  induction l as [|y l IH]; simpl; [reflexivity|].
  destruct (p y); [discriminate|]. exact IH.
Qed.


Lemma has_key_refl (a n : string) (pk : option ObjectId) (w x y z : Z) :
  Worker.has_key a n (WorkerDoc.mk pk a n w x y z) = true.
Proof. unfold Worker.has_key. simpl. now rewrite !String.eqb_refl. Qed.

(** At most one document per key is kept by [get_or_create], for every key:
    stores built from the empty one by this call alone never hold two
    documents with the same key. *)
Lemma get_or_create_keeps_unique (a n a' n' : string) (s : Mongo.store) :
  (worker_count a' n' s <= 1)%nat ->
  (worker_count a' n' (snd (Worker.get_or_create a n s)) <= 1)%nat.
Proof.
  intros Hle. rewrite worker_count_has_key in *.
  destruct (Worker.valid_set a n) eqn:V;
    [|now rewrite (get_or_create_invalid _ _ _ V)].
  destruct (find (Worker.has_key a n) (Mongo.workers s)) as [d|] eqn:F.
  - destruct (get_or_create_found _ _ _ _ V F) as [_ W]. now rewrite W.
  - destruct (get_or_create_missing _ _ _ V F) as [_ W]. rewrite W, filter_app.
    rewrite length_app. simpl.
    destruct (Worker.has_key a' n'
                (WorkerDoc.mk (Some (Mongo.next_oid s)) a n 0 0 0 0)) eqn:E;
      simpl; [|lia].
    unfold Worker.has_key in E. simpl in E. apply andb_true_iff in E.
    destruct E as [Ea En]. apply String.eqb_eq in Ea, En. subst a' n'.
    rewrite (filter_find_none _ _ F). simpl. lia.
Qed.

(** C9, as claimed, fails: the claim is made for every (wallet_address,
    worker_name) pair, but the worker name field holds at most 64
    characters.  With a name of 69 characters both calls raise
    [ValidationError]; no Worker is answered, and the store holds no
    document for the key afterwards. *)
Lemma get_or_create_name_too_long :
  let n := "rig-0123456789-0123456789-0123456789-0123456789-0123456789-0123456789"%string in
  let s := Mongo.mk [] [] [] 0%N [] in
  let r1 := Worker.get_or_create "zil1"%string n s in
  let r2 := Worker.get_or_create "zil1"%string n (snd r1) in
  String.length n = 69%nat
  /\ fst r1 = Raise ValidationError
  /\ fst r2 = Raise ValidationError
  /\ worker_count "zil1"%string n (snd r2) = 0%nat
  /\ snd r2 = s.
Proof. vm_compute. repeat split. Qed.



(** ** The [$group] stages *)

Lemma key_eqb_eq (a b : Mongo.key) : Mongo.key_eqb a b = true <-> a = b.
Proof.
  unfold Mongo.key_eqb. destruct a as [a1 a2], b as [b1 b2]. simpl.
  rewrite andb_true_iff, !String.eqb_eq. split.
  - intros [-> ->]. reflexivity.
  - intros E. injection E as -> ->. auto.
Qed.

Lemma key_eqb_neq (a b : Mongo.key) : Mongo.key_eqb a b = false <-> a <> b.
Proof.
  rewrite <- key_eqb_eq. destruct (Mongo.key_eqb a b); split; congruence.
Qed.

Section Group.
Context {A : Type}.

(** A document entering the stage opens the last group, or advances the
    one group of its key. *)
Lemma group_put_cases (init : A) (step : A -> A) (k : Mongo.key)
    (g : list (Mongo.key * A)) :
  (~ In k (map fst g) /\ Mongo.group_put init step k g = (g ++ [(k, init)])%list)
  \/ (exists g1 a g2,
        g = (g1 ++ (k, a) :: g2)%list
        /\ ~ In k (map fst g1)
        /\ Mongo.group_put init step k g = (g1 ++ (k, step a) :: g2)%list).
Proof.
  induction g as [|[k' a] g IH]; simpl.
  - left. auto.
  - destruct (Mongo.key_eqb k k') eqn:E.
    + apply key_eqb_eq in E. subst k'. right. exists [], a, g. simpl. auto.
    + apply key_eqb_neq in E. destruct IH as [[Hn Hp]|[g1 [b [g2 [Hg [Hn Hp]]]]]].
      * left. split; [intros [H|H]; auto | now rewrite Hp].
      * right. exists ((k', a) :: g1), b, g2. simpl. rewrite Hp, Hg.
        repeat split; auto. intros [H|H]; auto.
Qed.

Lemma group_put_keys (init : A) (step : A -> A) (k k' : Mongo.key)
    (g : list (Mongo.key * A)) :
  In k' (map fst (Mongo.group_put init step k g))
  <-> k' = k \/ In k' (map fst g).
Proof.
  destruct (group_put_cases init step k g)
    as [[Hn Hp]|[g1 [a [g2 [Hg [Hn Hp]]]]]]; rewrite Hp.
  - rewrite map_app, in_app_iff. simpl. intuition auto.
  - rewrite Hg, !map_app, !in_app_iff. simpl. intuition auto.
Qed.

Lemma group_put_NoDup (init : A) (step : A -> A) (k : Mongo.key)
    (g : list (Mongo.key * A)) :
  NoDup (map fst g) -> NoDup (map fst (Mongo.group_put init step k g)).
Proof.
  destruct (group_put_cases init step k g)
    as [[Hn Hp]|[g1 [a [g2 [Hg [Hn Hp]]]]]]; rewrite Hp.
  - intros H. rewrite map_app. simpl.
    apply NoDup_app; [exact H | repeat constructor; intros [] | ].
    intros x Hx [<-|[]]. exact (Hn Hx).
  - rewrite Hg, !map_app. simpl. auto.
Qed.

Variables (first : HashRateDoc.t -> A) (acc : A -> HashRateDoc.t -> A).

Let enter (g : list (Mongo.key * A)) (d : HashRateDoc.t) :=
  Mongo.group_put (first d) (fun a => acc a d) (Mongo.key_of d) g.

Lemma stage_group_snoc (docs : list HashRateDoc.t) (d : HashRateDoc.t) :
  Mongo.stage_group first acc (docs ++ [d])
  = enter (Mongo.stage_group first acc docs) d.
Proof. unfold Mongo.stage_group. now rewrite fold_left_app. Qed.

(** The groups are the pairs that occur, each once. *)
Lemma stage_group_keys (docs : list HashRateDoc.t) (k : Mongo.key) :
  In k (map fst (Mongo.stage_group first acc docs))
  <-> exists d, In d docs /\ Mongo.key_of d = k.
Proof.
  induction docs as [|d docs IH] using rev_ind.
  - simpl. split; [intros [] | intros [d [[] _]]].
  - rewrite stage_group_snoc. unfold enter. rewrite group_put_keys, IH. split.
    + intros [->|[x [Hx Hk]]].
      * exists d. split; [apply in_or_app; right; now left | reflexivity].
      * exists x. split; [apply in_or_app; now left | exact Hk].
    + intros [x [Hx Hk]]. apply in_app_or in Hx. destruct Hx as [Hx|[<-|[]]].
      * right. now exists x.
      * left. now symmetry.
Qed.

Lemma stage_group_NoDup (docs : list HashRateDoc.t) :
  NoDup (map fst (Mongo.stage_group first acc docs)).
Proof.
  induction docs as [|d docs IH] using rev_ind.
  - constructor.
  - rewrite stage_group_snoc. now apply group_put_NoDup.
Qed.
End Group.

Lemma fold_left_sum {A : Type} (f : A -> Z) (rows : list A) (z : Z) :
  fold_left (fun s r => s + f r) rows z = z + Zsum (map f rows).
Proof.
  revert z. induction rows as [|r rows IH]; intros z; simpl; [lia|].
  rewrite IH. lia.
Qed.

Lemma Zsum_ones {A : Type} (rows : list A) :
  Zsum (map (fun _ => 1) rows) = Z.of_nat (List.length rows).
Proof.
  induction rows as [|r rows IH]; [reflexivity|].
  change (1 + Zsum (map (fun _ => 1) rows)
          = Z.of_nat (S (List.length rows))).
  rewrite IH. lia.
Qed.

(** The answer read off the final [$group]: the sum over the rows. *)
Lemma stage_group_sum_first {A : Type} (f : A -> Z) (rows : list A) :
  match Mongo.stage_group_sum f rows with
  | r :: _ => r
  | [] => 0
  end = Zsum (map f rows).
Proof.
  destruct rows as [|r rows]; [reflexivity|].
  unfold Mongo.stage_group_sum. now rewrite fold_left_sum.
Qed.

(** ** The per-worker peak *)

Lemma peak_of_other (docs : list HashRateDoc.t) (d : HashRateDoc.t)
    (k : Mongo.key) (v : Z) :
  Mongo.key_of d <> k -> peak_of docs k v -> peak_of (docs ++ [d]) k v.
Proof.
  intros Hne [[x [Hx [Hk Hv]]] Hmax]. split.
  - exists x. split; [apply in_or_app; now left | auto].
  - intros y Hy Hky. apply in_app_or in Hy. destruct Hy as [Hy|[<-|[]]].
    + now apply Hmax.
    + contradiction.
Qed.

Lemma peak_of_first (docs : list HashRateDoc.t) (d : HashRateDoc.t) :
  (forall x, In x docs -> Mongo.key_of x <> Mongo.key_of d) ->
  peak_of (docs ++ [d]) (Mongo.key_of d) (HashRateDoc.hashrate d).
Proof.
  intros Hnew. split.
  - exists d. split; [apply in_or_app; right; now left | auto].
  - intros y Hy Hky. apply in_app_or in Hy. destruct Hy as [Hy|[<-|[]]].
    + exfalso. exact (Hnew y Hy Hky).
    + lia.
Qed.

Lemma peak_of_again (docs : list HashRateDoc.t) (d : HashRateDoc.t) (a : Z) :
  peak_of docs (Mongo.key_of d) a ->
  peak_of (docs ++ [d]) (Mongo.key_of d) (Z.max a (HashRateDoc.hashrate d)).
Proof.
  intros [[x [Hx [Hk Hv]]] Hmax]. split.
  - destruct (Z.max_spec a (HashRateDoc.hashrate d)) as [[_ E]|[_ E]]; rewrite E.
    + exists d. split; [apply in_or_app; right; now left | auto].
    + exists x. split; [apply in_or_app; now left | auto].
  - intros y Hy Hky. apply in_app_or in Hy. destruct Hy as [Hy|[<-|[]]].
    + specialize (Hmax y Hy Hky). lia.
    + lia.
Qed.

(** Each group of the [$max] stage holds the peak of its pair. *)
Lemma stage_group_max_peak (docs : list HashRateDoc.t) (k : Mongo.key) (v : Z) :
  In (k, v) (Mongo.stage_group HashRateDoc.hashrate
               (fun a d => Z.max a (HashRateDoc.hashrate d)) docs) ->
  peak_of docs k v.
Proof.
  revert k v. induction docs as [|d docs IH] using rev_ind; intros k v.
  - intros [].
  - rewrite stage_group_snoc.
    pose proof (stage_group_NoDup HashRateDoc.hashrate
                  (fun a d => Z.max a (HashRateDoc.hashrate d)) docs) as Hnd.
    pose proof (stage_group_keys HashRateDoc.hashrate
                  (fun a d => Z.max a (HashRateDoc.hashrate d)) docs) as Hkeys.
    set (rows := Mongo.stage_group HashRateDoc.hashrate
                   (fun a d => Z.max a (HashRateDoc.hashrate d)) docs) in *.
    destruct (group_put_cases (HashRateDoc.hashrate d)
                (fun a => Z.max a (HashRateDoc.hashrate d)) (Mongo.key_of d) rows)
      as [[Hn Hp]|[g1 [a [g2 [Hg [Hn Hp]]]]]]; rewrite Hp; intros Hin;
      apply in_app_or in Hin.
    + destruct Hin as [Hin|[E|[]]].
      * apply peak_of_other; [|now apply IH].
        intros E. apply Hn. rewrite E.
        change k with (fst (k, v)). now apply in_map.
      * injection E as <- <-. apply peak_of_first.
        intros x Hx E. apply Hn. apply Hkeys. now exists x.
    + rewrite Hg, map_app in Hnd. simpl in Hnd.
      pose proof (NoDup_remove_2 _ _ _ Hnd) as Hout.
      assert (Hrow : forall k' v', In (k', v') rows -> peak_of docs k' v')
        by (intros k' v'; apply IH).
      rewrite Hg in Hrow.
      destruct Hin as [Hin|[E|Hin]].
      * apply peak_of_other.
        -- intros E. apply Hn. rewrite E.
           change k with (fst (k, v)). now apply in_map.
        -- apply Hrow. apply in_or_app. now left.
      * injection E as <- <-. apply peak_of_again.
        apply Hrow. apply in_or_app. right. now left.
      * apply peak_of_other.
        -- intros E. apply Hout. apply in_or_app. right. rewrite E.
           change k with (fst (k, v)). now apply in_map.
        -- apply Hrow. apply in_or_app. right. now right.
Qed.

(** ** The hashrate of an epoch *)

Lemma epoch_hashrate_run
    (get_pow_window : option Z -> option datetime * option datetime)
    (block_num : option Z) (pow_start pow_end : datetime)
    (wallet_address worker_name : option string) (s : Mongo.store) :
  get_pow_window block_num = (Some pow_start, Some pow_end) ->
  fst (HashRate.epoch_hashrate get_pow_window block_num wallet_address worker_name s)
  = Ret (Zsum (map snd
           (Mongo.stage_group HashRateDoc.hashrate
              (fun a d => Z.max a (HashRateDoc.hashrate d))
              (Mongo.stage_match
                 (HashRate.epoch_match pow_start pow_end wallet_address worker_name)
                 (Mongo.hashrates s))))).
Proof.
  intros Hw. unfold HashRate.epoch_hashrate. rewrite Hw.
  unfold bind, Mongo.aggregate, HashRate.epoch_pipeline. simpl.
  now rewrite stage_group_sum_first.
Qed.

(** Worker A reports 100 then 150, worker B reports 200, all in the epoch. *)
Lemma epoch_hashrate_two_workers
    (get_pow_window : option Z -> option datetime * option datetime)
    (block_num : option Z) (pow_start pow_end : datetime) (s : Mongo.store)
    (p1 p2 p3 : option ObjectId) (wA nA wB nB : string) (t1 t2 t3 : datetime) :
  get_pow_window block_num = (Some pow_start, Some pow_end) ->
  nA <> nB ->
  pow_start <= t1 <= pow_end ->
  pow_start <= t2 <= pow_end ->
  pow_start <= t3 <= pow_end ->
  Mongo.hashrates s = [ HashRateDoc.mk p1 wA nA 100 t1;
                        HashRateDoc.mk p2 wA nA 150 t2;
                        HashRateDoc.mk p3 wB nB 200 t3 ] ->
  fst (HashRate.epoch_hashrate get_pow_window block_num None None s) = Ret 350
  /\ fst (HashRate.epoch_hashrate get_pow_window block_num None (Some nB) s)
     = Ret 200.
Proof.
  intros Hw Hn H1 H2 H3 Hs.
  assert (L1 : (pow_start <=? t1) = true) by (apply Z.leb_le; lia).
  assert (L2 : (pow_start <=? t2) = true) by (apply Z.leb_le; lia).
  assert (L3 : (pow_start <=? t3) = true) by (apply Z.leb_le; lia).
  assert (U1 : (t1 <=? pow_end) = true) by (apply Z.leb_le; lia).
  assert (U2 : (t2 <=? pow_end) = true) by (apply Z.leb_le; lia).
  assert (U3 : (t3 <=? pow_end) = true) by (apply Z.leb_le; lia).
  assert (EAB : String.eqb nA nB = false) by now apply String.eqb_neq.
  assert (KBA : Mongo.key_eqb (wB, nB) (wA, nA) = false)
    by (apply key_eqb_neq; congruence).
  unfold HashRate.epoch_hashrate. rewrite Hw.
  unfold bind, Mongo.aggregate, HashRate.epoch_pipeline, Mongo.stage_match,
    HashRate.epoch_match, Mongo.stage_group, Mongo.key_of.
  rewrite Hs. cbn.
  rewrite L1, L2, L3, U1, U2, U3, EAB, String.eqb_refl. cbn.
  rewrite (proj2 (key_eqb_eq (wA, nA) (wA, nA)) eq_refl). cbn.
  rewrite KBA. cbn. auto.
Qed.

(** C1: in an epoch resolved to the bounds start and end, [epoch_hashrate]
    answers the sum, over the distinct (wallet address, worker name) pairs
    that have a stored sample in the window passing the filters, of the
    largest hashrate among the pair's such samples; it answers 0 when no
    sample matches.  With 100 then 150 from worker A and 200 from worker B in
    the epoch the answer is 350 without filters and 200 when filtered by the
    name of worker B. *)
Theorem epoch_hashrate_sum_of_peaks
    (get_pow_window : option Z -> option datetime * option datetime)
    (block_num : option Z) (pow_start pow_end : datetime)
    (wallet_address worker_name : option string) (s : Mongo.store) :
  get_pow_window block_num = (Some pow_start, Some pow_end) ->
  let matching := fun d =>
    In d (Mongo.hashrates s)
    /\ in_epoch pow_start pow_end wallet_address worker_name d in
  let answer :=
    fst (HashRate.epoch_hashrate get_pow_window block_num
           wallet_address worker_name s) in
  (exists groups : list (Mongo.key * Z),
      NoDup (map fst groups)
      /\ (forall k, In k (map fst groups)
                    <-> exists d, matching d /\ Mongo.key_of d = k)
      /\ (forall k v, In (k, v) groups ->
            (exists d, matching d /\ Mongo.key_of d = k
                       /\ HashRateDoc.hashrate d = v)
            /\ (forall d, matching d -> Mongo.key_of d = k ->
                          HashRateDoc.hashrate d <= v))
      /\ answer = Ret (Zsum (map snd groups)))
  /\ ((forall d, ~ matching d) -> answer = Ret 0)
  /\ (forall p1 p2 p3 wA nA wB nB t1 t2 t3,
        nA <> nB ->
        pow_start <= t1 <= pow_end ->
        pow_start <= t2 <= pow_end ->
        pow_start <= t3 <= pow_end ->
        Mongo.hashrates s = [ HashRateDoc.mk p1 wA nA 100 t1;
                              HashRateDoc.mk p2 wA nA 150 t2;
                              HashRateDoc.mk p3 wB nB 200 t3 ] ->
        fst (HashRate.epoch_hashrate get_pow_window block_num None None s)
        = Ret 350
        /\ fst (HashRate.epoch_hashrate get_pow_window block_num None
                  (Some nB) s) = Ret 200).
Proof.
  intros Hw matching answer.
  set (docs := Mongo.stage_match
                 (HashRate.epoch_match pow_start pow_end wallet_address worker_name)
                 (Mongo.hashrates s)).
  set (groups := Mongo.stage_group HashRateDoc.hashrate
                   (fun a d => Z.max a (HashRateDoc.hashrate d)) docs).
  assert (Hdocs : forall d, In d docs <-> matching d)
    by (intros d; apply epoch_match_in).
  assert (Hans : answer = Ret (Zsum (map snd groups))).
  { unfold answer, HashRate.epoch_hashrate. rewrite Hw.
    unfold bind, Mongo.aggregate, HashRate.epoch_pipeline. simpl.
    now rewrite stage_group_sum_first. }
  assert (Hkeys : forall k, In k (map fst groups)
                            <-> exists d, matching d /\ Mongo.key_of d = k).
  { intros k. unfold groups. rewrite stage_group_keys. split.
    - intros [d [Hd Hk]]. exists d. split; [now apply Hdocs | exact Hk].
    - intros [d [Hd Hk]]. exists d. split; [now apply Hdocs | exact Hk]. }
  split; [|split].
  - exists groups. split; [apply stage_group_NoDup|]. split; [exact Hkeys|].
    split; [|exact Hans].
    intros k v Hin. apply stage_group_max_peak in Hin.
    destruct Hin as [[d [Hd [Hk Hv]]] Hmax]. split.
    + exists d. split; [now apply Hdocs | auto].
    + intros x Hx Hkx. apply Hmax; [now apply Hdocs | exact Hkx].
  - intros Hnone. rewrite Hans.
    destruct groups as [|[k v] groups']; [reflexivity|].
    exfalso. destruct (proj1 (Hkeys k) (or_introl eq_refl)) as [d [Hd _]].
    exact (Hnone d Hd).
  - intros p1 p2 p3 wA nA wB nB t1 t2 t3 Hn H1 H2 H3 Hs.
    exact (epoch_hashrate_two_workers get_pow_window block_num pow_start pow_end
             s p1 p2 p3 wA nA wB nB t1 t2 t3 Hw Hn H1 H2 H3 Hs).
Qed.

Lemma epoch_hashrate_sum_of_peaks_witness :
  let resolver := fun _ : option Z => (Some 1000, Some 2000) in
  let s := Mongo.mk [] []
             [ HashRateDoc.mk (Some 0%N) "zil1"%string "rigA"%string 100 1100;
               HashRateDoc.mk (Some 1%N) "zil1"%string "rigA"%string 150 1500;
               HashRateDoc.mk (Some 2%N) "zil2"%string "rigB"%string 200 2000 ]
             3%N [] in
  fst (HashRate.epoch_hashrate resolver None None None s) = Ret 350
  /\ fst (HashRate.epoch_hashrate resolver None None (Some "rigB"%string) s)
     = Ret 200.
Proof.
  intros resolver s.
  apply (proj2 (proj2 (epoch_hashrate_sum_of_peaks resolver None 1000 2000
                         None None s eq_refl))
           (Some 0%N) (Some 1%N) (Some 2%N)
           "zil1"%string "rigA"%string "zil2"%string "rigB"%string
           1100 1500 2000);
    try lia; try reflexivity.
  intros E. discriminate E.
Defined.

(** ** The two ends of the epoch window *)

Lemma in_window_bounds (pow_start pow_end : datetime) (d : HashRateDoc.t) :
  in_window pow_start pow_end d = true
  <-> pow_start <= HashRateDoc.updated_time d <= pow_end.
Proof. unfold in_window. rewrite andb_true_iff, !Z.leb_le. tauto. Qed.

(** The [$match] drops every sample stamped outside the closed window. *)
Lemma stage_match_window (pow_start pow_end : datetime)
    (wallet_address worker_name : option string) (docs : list HashRateDoc.t) :
  Mongo.stage_match
    (HashRate.epoch_match pow_start pow_end wallet_address worker_name)
    (filter (in_window pow_start pow_end) docs)
  = Mongo.stage_match
      (HashRate.epoch_match pow_start pow_end wallet_address worker_name) docs.
Proof.
  unfold Mongo.stage_match. induction docs as [|d docs IH]; simpl; [reflexivity|].
  destruct (in_window pow_start pow_end d) eqn:W; simpl.
  - now rewrite IH.
  - destruct (forallb (Mongo.sat d)
                (HashRate.epoch_match pow_start pow_end wallet_address worker_name))
      eqn:E; [|exact IH].
    apply epoch_match_sat in E. destruct E as [E _].
    apply in_window_bounds in E. congruence.
Qed.

(** The [$match] on a store that holds one sample. *)
Lemma stage_match_one (pow_start pow_end : datetime)
    (wallet_address worker_name : option string) (d : HashRateDoc.t) :
  passes wallet_address (HashRateDoc.wallet_address d) ->
  passes worker_name (HashRateDoc.worker_name d) ->
  Mongo.stage_match
    (HashRate.epoch_match pow_start pow_end wallet_address worker_name) [d]
  = if in_window pow_start pow_end d then [d] else [].
Proof.
  intros Pa Pn. unfold Mongo.stage_match. simpl.
  destruct (in_window pow_start pow_end d) eqn:W.
  - apply in_window_bounds in W.
    assert (E : forallb (Mongo.sat d)
                  (HashRate.epoch_match pow_start pow_end wallet_address worker_name)
                = true) by (apply epoch_match_sat; unfold in_epoch; auto).
    now rewrite E.
  - destruct (forallb (Mongo.sat d)
                (HashRate.epoch_match pow_start pow_end wallet_address worker_name))
      eqn:E; [|reflexivity].
    apply epoch_match_sat in E. destruct E as [E _].
    apply in_window_bounds in E. congruence.
Qed.

(** C7, as claimed, fails: in the epoch resolved to [10, 20], a sample stamped
    20, the end itself, passes the [$match] and is aggregated; the answer is
    its hashrate 7, where a store without the sample answers 0. *)
Lemma epoch_window_end_is_included :
  let resolver := fun _ : option Z => (Some 10, Some 20) in
  let d := HashRateDoc.mk (Some 0%N) "zil1"%string "rig0"%string 7 20 in
  HashRateDoc.updated_time d = 20
  /\ In d (Mongo.stage_match (HashRate.epoch_match 10 20 None None) [d])
  /\ fst (HashRate.epoch_hashrate resolver None None None
            (Mongo.mk [] [] [d] 1%N [])) = Ret 7
  /\ fst (HashRate.epoch_hashrate resolver None None None
            (Mongo.mk [] [] [] 1%N [])) = Ret 0.
Proof.
  simpl. repeat split. now left.
Qed.

(** C7, amended: the epoch window is closed at both ends.  In an epoch
    resolved to the bounds start and end, what [epoch_hashrate] answers is
    made of the stored samples with start <= timestamp <= end that pass the
    optional filters, and of no other: the answer is the sum over the
    distinct pairs that have such a sample of the largest hashrate among the
    pair's such samples; it is the answer of the store with every sample
    stamped before start or after end taken out; for a store of one sample
    that passes the filters it is the sample's hashrate when start <=
    timestamp <= end and 0 otherwise, so with start <= end a sample stamped
    end is included, as is a sample stamped start. *)
Theorem epoch_window_closed
    (get_pow_window : option Z -> option datetime * option datetime)
    (block_num : option Z) (pow_start pow_end : datetime)
    (wallet_address worker_name : option string) (s : Mongo.store) :
  get_pow_window block_num = (Some pow_start, Some pow_end) ->
  let aggregated := fun d =>
    In d (Mongo.hashrates s)
    /\ pow_start <= HashRateDoc.updated_time d <= pow_end
    /\ passes wallet_address (HashRateDoc.wallet_address d)
    /\ passes worker_name (HashRateDoc.worker_name d) in
  let answer := fun s0 =>
    fst (HashRate.epoch_hashrate get_pow_window block_num
           wallet_address worker_name s0) in
  (exists groups : list (Mongo.key * Z),
      NoDup (map fst groups)
      /\ (forall k, In k (map fst groups)
                    <-> exists d, aggregated d /\ Mongo.key_of d = k)
      /\ (forall k v, In (k, v) groups ->
            (exists d, aggregated d /\ Mongo.key_of d = k
                       /\ HashRateDoc.hashrate d = v)
            /\ (forall d, aggregated d -> Mongo.key_of d = k ->
                          HashRateDoc.hashrate d <= v))
      /\ answer s = Ret (Zsum (map snd groups)))
  /\ (forall s',
        Mongo.hashrates s'
        = filter (in_window pow_start pow_end) (Mongo.hashrates s) ->
        answer s' = answer s)
  /\ (forall d,
        Mongo.hashrates s = [d] ->
        passes wallet_address (HashRateDoc.wallet_address d) ->
        passes worker_name (HashRateDoc.worker_name d) ->
        answer s = Ret (if in_window pow_start pow_end d
                        then HashRateDoc.hashrate d else 0))
  /\ (forall d,
        Mongo.hashrates s = [d] ->
        passes wallet_address (HashRateDoc.wallet_address d) ->
        passes worker_name (HashRateDoc.worker_name d) ->
        pow_start <= pow_end ->
        HashRateDoc.updated_time d = pow_start
        \/ HashRateDoc.updated_time d = pow_end ->
        answer s = Ret (HashRateDoc.hashrate d)).
Proof.
  intros Hw aggregated answer.
  assert (Hone : forall d,
             Mongo.hashrates s = [d] ->
             passes wallet_address (HashRateDoc.wallet_address d) ->
             passes worker_name (HashRateDoc.worker_name d) ->
             answer s = Ret (if in_window pow_start pow_end d
                             then HashRateDoc.hashrate d else 0)).
  { intros d Hs Pa Pn. unfold answer.
    rewrite (epoch_hashrate_run get_pow_window block_num pow_start pow_end
               wallet_address worker_name s Hw).
    rewrite Hs, (stage_match_one pow_start pow_end _ _ d Pa Pn).
    destruct (in_window pow_start pow_end d); simpl; [f_equal; lia | reflexivity]. }
  split; [|split; [|split]].
  - set (docs := Mongo.stage_match
                   (HashRate.epoch_match pow_start pow_end wallet_address
                      worker_name)
                   (Mongo.hashrates s)).
    set (groups := Mongo.stage_group HashRateDoc.hashrate
                     (fun a d => Z.max a (HashRateDoc.hashrate d)) docs).
    assert (Hdocs : forall d, In d docs <-> aggregated d)
      by (intros d; apply epoch_match_in).
    exists groups. split; [apply stage_group_NoDup|]. split; [|split].
    + intros k. unfold groups. rewrite stage_group_keys. split.
      * intros [d [Hd Hk]]. exists d. split; [now apply Hdocs | exact Hk].
      * intros [d [Hd Hk]]. exists d. split; [now apply Hdocs | exact Hk].
    + intros k v Hin. apply stage_group_max_peak in Hin.
      destruct Hin as [[d [Hd [Hk Hv]]] Hmax]. split.
      * exists d. split; [now apply Hdocs | auto].
      * intros x Hx Hkx. apply Hmax; [now apply Hdocs | exact Hkx].
    + exact (epoch_hashrate_run get_pow_window block_num pow_start pow_end
               wallet_address worker_name s Hw).
  - intros s' Hs'. unfold answer.
    rewrite !(epoch_hashrate_run get_pow_window block_num pow_start pow_end
                wallet_address worker_name _ Hw).
    now rewrite Hs', stage_match_window.
  - exact Hone.
  - intros d Hs Pa Pn Hle Ht. rewrite (Hone d Hs Pa Pn).
    assert (W : in_window pow_start pow_end d = true)
      by (apply in_window_bounds; lia).
    now rewrite W.
Qed.

Lemma epoch_window_closed_witness :
  let resolver := fun _ : option Z => (Some 10, Some 20) in
  let d := HashRateDoc.mk (Some 0%N) "zil1"%string "rig0"%string 7 20 in
  fst (HashRate.epoch_hashrate resolver None None None (Mongo.mk [] [] [d] 1%N []))
  = Ret 7.
Proof.
  intros resolver d.
  refine (proj2 (proj2 (proj2
            (epoch_window_closed resolver None 10 20 None None
               (Mongo.mk [] [] [d] 1%N []) eq_refl))) d eq_refl I I _ _).
  - lia.
  - right. reflexivity.
Defined.

(** ** Active workers *)

(** C8: [Worker.active_count] answers the number of distinct (wallet address,
    worker name) pairs with at least one stored sample stamped at or after
    now minus 3 hours.  A pair with a sample stamped 2 hours ago is among
    them, a pair whose samples are all 4 hours old or older is not, and a
    pair counts once however many of its samples qualify. *)
Theorem active_count_distinct_pairs (utcnow : datetime) (s : Mongo.store) :
  exists pairs : list Mongo.key,
    NoDup pairs
    /\ (forall k, In k pairs
                  <-> exists d, In d (Mongo.hashrates s)
                                /\ Mongo.key_of d = k
                                /\ utcnow - timedelta_hours 3
                                   <= HashRateDoc.updated_time d)
    /\ fst (Worker.active_count utcnow s) = Ret (Z.of_nat (List.length pairs))
    /\ (forall d, In d (Mongo.hashrates s) ->
                  HashRateDoc.updated_time d = utcnow - timedelta_hours 2 ->
                  In (Mongo.key_of d) pairs)
    /\ (forall k,
          (forall d, In d (Mongo.hashrates s) -> Mongo.key_of d = k ->
                     HashRateDoc.updated_time d <= utcnow - timedelta_hours 4) ->
          ~ In k pairs).
Proof.
  set (docs := Mongo.stage_match
                 [Mongo.updated_time__gte (utcnow - timedelta_hours 3)]
                 (Mongo.hashrates s)).
  set (groups := Mongo.stage_group (fun _ => tt) (fun (a : unit) _ => a) docs).
  assert (Hdocs : forall d, In d docs
                            <-> In d (Mongo.hashrates s)
                                /\ utcnow - timedelta_hours 3
                                   <= HashRateDoc.updated_time d).
  { intros d. unfold docs, Mongo.stage_match. rewrite filter_In. simpl.
    now rewrite andb_true_r, Z.leb_le. }
  assert (Hkeys : forall k, In k (map fst groups)
                            <-> exists d, In d (Mongo.hashrates s)
                                          /\ Mongo.key_of d = k
                                          /\ utcnow - timedelta_hours 3
                                             <= HashRateDoc.updated_time d).
  { intros k. unfold groups. rewrite stage_group_keys. split.
    - intros [d [Hd Hk]]. apply Hdocs in Hd. exists d. tauto.
    - intros [d [Hd [Hk Ht]]]. exists d. split; [apply Hdocs; tauto | exact Hk]. }
  exists (map fst groups).
  split; [apply stage_group_NoDup|]. split; [exact Hkeys|]. split; [|split].
  - unfold Worker.active_count, ModelMixin.aggregate_count, bind, Mongo.aggregate.
    simpl. fold docs. fold groups. rewrite stage_group_sum_first.
    now rewrite length_map, Zsum_ones.
  - intros d Hd Ht. apply Hkeys. exists d. repeat split; auto.
    rewrite Ht. unfold timedelta_hours. lia.
  - intros k Hold Hin. apply Hkeys in Hin. destruct Hin as [d [Hd [Hk Ht]]].
    specialize (Hold d Hd Hk). unfold timedelta_hours in *. lia.
Qed.

Lemma active_count_distinct_pairs_witness :
  let s := Mongo.mk [] []
             [ HashRateDoc.mk (Some 0%N) "zil1"%string "rigA"%string 100
                 (20000000 - timedelta_hours 2);
               HashRateDoc.mk (Some 1%N) "zil1"%string "rigA"%string 150
                 (20000000 - timedelta_hours 1);
               HashRateDoc.mk (Some 2%N) "zil2"%string "rigB"%string 200
                 (20000000 - timedelta_hours 4) ]
             3%N [] in
  fst (Worker.active_count 20000000 s) = Ret 1
  /\ exists pairs : list Mongo.key,
      NoDup pairs
      /\ fst (Worker.active_count 20000000 s) = Ret (Z.of_nat (List.length pairs))
      /\ In ("zil1"%string, "rigA"%string) pairs
      /\ ~ In ("zil2"%string, "rigB"%string) pairs.
Proof.
  intros s. split; [reflexivity|].
  destruct (active_count_distinct_pairs 20000000 s)
    as [pairs [Hnd [_ [Hc [H2 H4]]]]].
  exists pairs. split; [exact Hnd|]. split; [exact Hc|]. split.
  - apply (H2 (HashRateDoc.mk (Some 0%N) "zil1"%string "rigA"%string 100
                 (20000000 - timedelta_hours 2))); [now left | reflexivity].
  - apply H4. intros d [<-|[<-|[<-|[]]]] Hk; try discriminate Hk.
    vm_compute. discriminate.
Defined.

(** * Further properties *)

(** ** What get-or-create of a Worker leaves alone *)

Lemma get_or_create_run (a n : string) (s : Mongo.store) :
  Worker.valid_set a n = true ->
  exists w,
    fst (Worker.get_or_create a n s) = Ret (Some w)
    /\ Worker.has_key a n w = true
    /\ In w (Mongo.workers (snd (Worker.get_or_create a n s)))
    /\ Mongo.miners (snd (Worker.get_or_create a n s)) = Mongo.miners s
    /\ Mongo.hashrates (snd (Worker.get_or_create a n s)) = Mongo.hashrates s
    /\ (Mongo.workers (snd (Worker.get_or_create a n s)) = Mongo.workers s
        \/ (find (Worker.has_key a n) (Mongo.workers s) = None
            /\ Mongo.workers (snd (Worker.get_or_create a n s))
               = (Mongo.workers s
                  ++ [WorkerDoc.mk (Some (Mongo.next_oid s)) a n 0 0 0 0])%list)).
Proof.
  intros V.
  destruct (find (Worker.has_key a n) (Mongo.workers s)) as [d|] eqn:F.
  - destruct (get_or_create_found _ _ _ _ V F) as [R W]. exists d.
    pose proof (find_some _ _ F) as [Hin Hk].
    rewrite W. repeat split; auto.
    + unfold Worker.get_or_create, Mongo.find_one_and_update. now rewrite V, F.
    + unfold Worker.get_or_create, Mongo.find_one_and_update. now rewrite V, F.
  - destruct (get_or_create_missing _ _ _ V F) as [R W].
    exists (WorkerDoc.mk (Some (Mongo.next_oid s)) a n 0 0 0 0).
    rewrite W. repeat split; auto.
    + apply has_key_refl.
    + apply in_or_app. right. now left.
    + unfold Worker.get_or_create, Mongo.find_one_and_update. now rewrite V, F.
    + unfold Worker.get_or_create, Mongo.find_one_and_update. now rewrite V, F.
Qed.

(** Whatever it answers, [Worker.get_or_create] touches neither the miners
    nor the samples, and leaves the workers as they are or appends one, of
    the key and with counters at 0. *)
Lemma get_or_create_any (a n : string) (s : Mongo.store) :
  Mongo.miners (snd (Worker.get_or_create a n s)) = Mongo.miners s
  /\ Mongo.hashrates (snd (Worker.get_or_create a n s)) = Mongo.hashrates s
  /\ (Mongo.workers (snd (Worker.get_or_create a n s)) = Mongo.workers s
      \/ (find (Worker.has_key a n) (Mongo.workers s) = None
          /\ Mongo.workers (snd (Worker.get_or_create a n s))
             = (Mongo.workers s
                ++ [WorkerDoc.mk (Some (Mongo.next_oid s)) a n 0 0 0 0])%list)).
Proof.
  destruct (Worker.valid_set a n) eqn:V.
  - destruct (get_or_create_run a n s V) as [w [_ [_ [_ [Hm [Hh Hw]]]]]]. auto.
  - rewrite (get_or_create_invalid _ _ _ V). simpl. auto.
Qed.



(** ** The course of [HashRate.log] *)

Lemma log_negative_hashrate_run (utcnow : datetime) (h : Z) (a n : string)
    (s : Mongo.store) :
  h < 0 -> HashRate.log utcnow h a n s = (Ret (inl false), s).
Proof.
  intros H. unfold HashRate.log. apply Z.ltb_lt in H. now rewrite H.
Qed.


Lemma log_run (utcnow : datetime) (h : Z) (a n : string) (s : Mongo.store) :
  0 <= h ->
  HashRate.log utcnow h a n s
  = match find (fun d => String.eqb (MinerDoc.wallet_address d) a)
               (Mongo.miners s) with
    | None => (Ret (inl false), Mongo.logged (Mongo.Find Mongo.zil_miners) s)
    | Some _ =>
        if Worker.valid_set a n then
          match HashRate.save (HashRateDoc.mk None a n h utcnow)
                  (snd (Worker.get_or_create a n
                          (Mongo.logged (Mongo.Find Mongo.zil_miners) s))) with
          | (Ret d, s2) => (Ret (inr d), s2)
          | (Raise e, s2) => (Raise e, s2)
          end
        else (Raise ValidationError, Mongo.logged (Mongo.Find Mongo.zil_miners) s)
    end.
Proof.
  intros Hh. unfold HashRate.log.
  destruct (h <? 0) eqn:E; [apply Z.ltb_lt in E; lia|].
  unfold bind, Miner.get, Miner.get_one, ModelMixin.get_one.
  destruct (find _ (Mongo.miners s)) as [m|]; [|reflexivity].
  destruct (Worker.valid_set a n) eqn:V.
  - destruct (get_or_create_run a n
                (Mongo.logged (Mongo.Find Mongo.zil_miners) s) V)
      as [w [R _]].
    destruct (Worker.get_or_create a n _) as [r s1]. simpl in R. subst r. simpl.
    now destruct (HashRate.save _ s1) as [[d|e] s2].
  - now rewrite (get_or_create_invalid _ _ _ V).
Qed.

Lemma save_accepts (hr : HashRateDoc.t) (s : Mongo.store) :
  (String.length (HashRateDoc.wallet_address hr) <= 128)%nat ->
  (String.length (HashRateDoc.worker_name hr) <= 64)%nat ->
  - 2 ^ 63 <= HashRateDoc.hashrate hr <= 2 ^ 63 - 1 ->
  let saved := HashRateDoc.mk (Some (Mongo.next_oid s))
                 (HashRateDoc.wallet_address hr) (HashRateDoc.worker_name hr)
                 (HashRateDoc.hashrate hr) (HashRateDoc.updated_time hr) in
  HashRate.save hr s
  = (Ret saved,
     Mongo.logged (Mongo.InsertOne Mongo.zil_mine_hashrate)
       (Mongo.with_hashrates (Mongo.hashrates s ++ [saved])
          (snd (Mongo.fresh_oid s)))).
Proof.
  intros Ha Hn Hh. unfold HashRate.save.
  assert (E1 : (128 <? Z.of_nat (String.length (HashRateDoc.wallet_address hr)))
               = false) by (apply Z.ltb_ge; lia).
  assert (E2 : (64 <? Z.of_nat (String.length (HashRateDoc.worker_name hr)))
               = false) by (apply Z.ltb_ge; lia).
  assert (E3 : (HashRateDoc.hashrate hr <? - 2 ^ 63) = false)
    by (apply Z.ltb_ge; lia).
  assert (E4 : (2 ^ 63 - 1 <? HashRateDoc.hashrate hr) = false)
    by (apply Z.ltb_ge; lia).
  rewrite E1, E2, E3, E4. reflexivity.
Qed.

(** Whatever it answers, [save] leaves the store as it is or appends one
    sample that carries the data handed in. *)
Lemma save_appends (hr : HashRateDoc.t) (s : Mongo.store) :
  Mongo.miners (snd (HashRate.save hr s)) = Mongo.miners s
  /\ Mongo.workers (snd (HashRate.save hr s)) = Mongo.workers s
  /\ (Mongo.hashrates (snd (HashRate.save hr s)) = Mongo.hashrates s
      \/ exists id,
          Mongo.hashrates (snd (HashRate.save hr s))
          = (Mongo.hashrates s
             ++ [HashRateDoc.mk (Some id) (HashRateDoc.wallet_address hr)
                   (HashRateDoc.worker_name hr) (HashRateDoc.hashrate hr)
                   (HashRateDoc.updated_time hr)])%list).
Proof.
  unfold HashRate.save.
  destruct (_ || _); [simpl; auto|].
  destruct (_ || _); [simpl; auto|].
  simpl. repeat split; auto. right. eexists. reflexivity.
Qed.

Lemma log_run_accepted
    (utcnow : datetime) (hashrate : Z) (wallet_address worker_name : string)
    (s : Mongo.store) :
  registered wallet_address s ->
  0 <= hashrate <= 2 ^ 63 - 1 ->
  (String.length wallet_address <= 128)%nat ->
  (String.length worker_name <= 64)%nat ->
  let r := HashRate.log utcnow hashrate wallet_address worker_name s in
  exists id,
    let d := HashRateDoc.mk (Some id) wallet_address worker_name hashrate utcnow in
    fst r = Ret (inr d)
    /\ Mongo.hashrates (snd r) = (Mongo.hashrates s ++ [d])%list
    /\ Mongo.miners (snd r) = Mongo.miners s
    /\ (1 <= worker_count wallet_address worker_name (snd r))%nat.
Proof.
  intros Hreg Hh Ha Hn r. unfold r. rewrite log_run by lia.
  apply find_wallet_registered in Hreg. destruct Hreg as [m F]. rewrite F.
  assert (V : Worker.valid_set wallet_address worker_name = true)
    by (apply worker_valid_set_bounds; auto).
  rewrite V.
  set (s0 := Mongo.logged (Mongo.Find Mongo.zil_miners) s).
  destruct (get_or_create_run wallet_address worker_name s0 V)
    as [w [_ [Hk [Hin [Hm [Hs _]]]]]].
  set (s1 := snd (Worker.get_or_create wallet_address worker_name s0)) in *.
  rewrite save_accepts; simpl; try lia.
  exists (Mongo.next_oid s1). repeat split.
  - now rewrite Hs.
  - exact Hm.
  - rewrite worker_count_has_key. simpl.
    destruct (filter (Worker.has_key wallet_address worker_name) (Mongo.workers s1))
      eqn:E; simpl; [|lia].
    assert (Hf : In w (filter (Worker.has_key wallet_address worker_name)
                         (Mongo.workers s1)))
      by (apply filter_In; auto).
    rewrite E in Hf. destruct Hf.
Qed.

(** X2: for a registered account, [HashRate.log] of a hashrate from 0 to the
    largest 8-byte integer, with a wallet address of at most 128 characters
    and a worker name of at most 64, answers the saved sample: it carries the
    account, the worker name, the hashrate and the time of the call, it is
    the one sample added, last in the collection; the miners collection is
    untouched and the store holds a Worker of the key afterwards. *)
Theorem log_accepted
    (utcnow : datetime) (hashrate : Z) (wallet_address worker_name : string)
    (s : Mongo.store) :
  registered wallet_address s ->
  0 <= hashrate <= 2 ^ 63 - 1 ->
  (String.length wallet_address <= 128)%nat ->
  (String.length worker_name <= 64)%nat ->
  let r := HashRate.log utcnow hashrate wallet_address worker_name s in
  exists id,
    let d := HashRateDoc.mk (Some id) wallet_address worker_name hashrate utcnow in
    fst r = Ret (inr d)
    /\ Mongo.hashrates (snd r) = (Mongo.hashrates s ++ [d])%list
    /\ Mongo.miners (snd r) = Mongo.miners s
    /\ (1 <= worker_count wallet_address worker_name (snd r))%nat.
Proof. apply log_run_accepted. Qed.

Lemma log_accepted_witness :
  let m := MinerDoc.mk (Some 0%N) "zil1"%string true ""%string ""%string false
             None [] 0 0 0 0 in
  let s := Mongo.mk [m] [] [] 1%N [] in
  let r := HashRate.log 1000 42 "zil1"%string "rig0"%string s in
  exists id,
    let d := HashRateDoc.mk (Some id) "zil1"%string "rig0"%string 42 1000 in
    fst r = Ret (inr d)
    /\ Mongo.hashrates (snd r) = (Mongo.hashrates s ++ [d])%list
    /\ Mongo.miners (snd r) = Mongo.miners s
    /\ (1 <= worker_count "zil1"%string "rig0"%string (snd r))%nat.
Proof.
  intros m s.
  apply (log_accepted 1000 42 "zil1"%string "rig0"%string s).
  - exists m. split; [now left | reflexivity].
  - lia.
  - simpl. lia.
  - simpl. lia.
Defined.

Lemma log_shape
    (utcnow : datetime) (hashrate : Z) (wallet_address worker_name : string)
    (s : Mongo.store) :
  let s' := snd (HashRate.log utcnow hashrate wallet_address worker_name s) in
  Mongo.miners s' = Mongo.miners s
  /\ (Mongo.workers s' = Mongo.workers s
      \/ exists id,
          Mongo.workers s'
          = (Mongo.workers s
             ++ [WorkerDoc.mk (Some id) wallet_address worker_name 0 0 0 0])%list)
  /\ (Mongo.hashrates s' = Mongo.hashrates s
      \/ exists id,
          0 <= hashrate
          /\ Mongo.hashrates s'
             = (Mongo.hashrates s
                ++ [HashRateDoc.mk (Some id) wallet_address worker_name
                      hashrate utcnow])%list).
Proof.
  intros s'. unfold s'.
  destruct (Z.lt_ge_cases hashrate 0) as [Hneg|Hpos].
  - rewrite log_negative_hashrate_run by exact Hneg. simpl. auto.
  - rewrite log_run by exact Hpos.
    destruct (find _ (Mongo.miners s)) as [m|]; [|simpl; auto].
    destruct (Worker.valid_set wallet_address worker_name); [|simpl; auto].
    set (s0 := Mongo.logged (Mongo.Find Mongo.zil_miners) s).
    destruct (get_or_create_any wallet_address worker_name s0)
      as [Hm [Hs Hw]].
    set (s1 := snd (Worker.get_or_create wallet_address worker_name s0)) in *.
    destruct (save_appends (HashRateDoc.mk None wallet_address worker_name
                              hashrate utcnow) s1) as [Sm [Sw Sh]].
    simpl in Sh.
    destruct (HashRate.save _ s1) as [[d|e] s2]; simpl in *;
      (split; [congruence|]); (split;
        [ rewrite Sw; destruct Hw as [Hw|[_ Hw]];
          [left; exact Hw | right; eexists; exact Hw]
        | rewrite <- Hs; destruct Sh as [Sh|[id Sh]];
          [left; exact Sh | right; exists id; auto] ]).
Qed.

(** X3: whatever its arguments and its answer, [HashRate.log] never touches
    the miners collection, changes no stored Worker and no stored sample: the
    workers collection is as before or has one Worker more, of the key and
    with counters at 0, and the samples are as before or have one sample
    more, which carries the arguments and the time of the call, its hashrate
    not below 0. *)
Theorem log_appends_only
    (utcnow : datetime) (hashrate : Z) (wallet_address worker_name : string)
    (s : Mongo.store) :
  let s' := snd (HashRate.log utcnow hashrate wallet_address worker_name s) in
  Mongo.miners s' = Mongo.miners s
  /\ (Mongo.workers s' = Mongo.workers s
      \/ exists id,
          Mongo.workers s'
          = (Mongo.workers s
             ++ [WorkerDoc.mk (Some id) wallet_address worker_name 0 0 0 0])%list)
  /\ (Mongo.hashrates s' = Mongo.hashrates s
      \/ exists id,
          0 <= hashrate
          /\ Mongo.hashrates s'
             = (Mongo.hashrates s
                ++ [HashRateDoc.mk (Some id) wallet_address worker_name
                      hashrate utcnow])%list).
Proof. apply log_shape. Qed.

Lemma find_filter_none {D : Type} (p : D -> bool) (l : list D) :
  filter p l = [] -> find p l = None.
Proof.
  induction l as [|y l IH]; simpl; [reflexivity|].
  destruct (p y); [discriminate|]. exact IH.
Qed.

Lemma save_too_long (hr : HashRateDoc.t) (s : Mongo.store) :
  (128 < String.length (HashRateDoc.wallet_address hr))%nat
  \/ (64 < String.length (HashRateDoc.worker_name hr))%nat ->
  HashRate.save hr s = (Raise ValidationError, s).
Proof.
  intros H. unfold HashRate.save.
  assert (E : (128 <? Z.of_nat (String.length (HashRateDoc.wallet_address hr)))
              || (64 <? Z.of_nat (String.length (HashRateDoc.worker_name hr)))
              = true).
  { apply orb_true_iff. destruct H as [H|H]; [left|right]; apply Z.ltb_lt; lia. }
  now rewrite E.
Qed.



(** ** [update_stat] with nothing to add *)

(** X5: [update_stat] called with no delta above 0 (so also with its default
    arguments), or on a document that was never saved, raises
    [OperationError] and leaves the store exactly as it was, for a Miner and
    for a Worker; the Worker's cascade is not run. *)
Theorem update_stat_nothing_to_add (a b c d : Z) (s : Mongo.store) :
  (forall (self : MinerDoc.t),
      (forall f, delta a b c d f <= 0) \/ MinerDoc.pk self = None ->
      Miner.update_stat self a b c d s = (Raise OperationError, s))
  /\ (forall (self : WorkerDoc.t),
      (forall f, delta a b c d f <= 0) \/ WorkerDoc.pk self = None ->
      Worker.update_stat self a b c d s = (Raise OperationError, s)).
Proof.
  split.
  - intros self H. unfold Miner.update_stat. fold (stat_kwargs a b c d).
    unfold Miner.update. destruct H as [H|H].
    + apply stat_kwargs_nil in H. rewrite H. now destruct (MinerDoc.pk self).
    + now rewrite H.
  - intros self H. rewrite worker_update_stat_run. unfold Worker.update.
    destruct H as [H|H].
    + apply stat_kwargs_nil in H. rewrite H. now destruct (WorkerDoc.pk self).
    + now rewrite H.
Qed.

Lemma update_stat_nothing_to_add_witness :
  let w := WorkerDoc.mk (Some 1%N) "zil1"%string "rig0"%string 10 0 3 7 in
  let s := Mongo.mk [] [w] [] 2%N [] in
  Worker.update_stat w 0 0 0 0 s = (Raise OperationError, s).
Proof.
  intros w s.
  apply (proj2 (update_stat_nothing_to_add 0 0 0 0 s) w).
  left. intros f. destruct f; simpl; lia.
Defined.

(** ** Where an update lands *)

Lemma find_split {D : Type} (p : D -> bool) (l : list D) (d : D) :
  find p l = Some d ->
  exists l1 l2,
    l = (l1 ++ d :: l2)%list /\ (forall x, In x l1 -> p x = false) /\ p d = true.
Proof.
  induction l as [|y l IH]; simpl; [discriminate|].
  destruct (p y) eqn:E.
  - intros H. injection H as <-. exists [], l. simpl. repeat split; auto.
    intros x [].
  - intros H. destruct (IH H) as [l1 [l2 [Hl [H1 Hd]]]].
    exists (y :: l1), l2. subst l. repeat split; auto.
    intros x [<-|Hx]; auto.
Qed.

Lemma update_one_at {D : Type} (p : D -> bool) (f : D -> D) (l1 l2 : list D)
    (d : D) :
  (forall x, In x l1 -> p x = false) -> p d = true ->
  Mongo.update_one p f (l1 ++ d :: l2) = (1, (l1 ++ f d :: l2)%list).
Proof.
  intros H1 Hd. induction l1 as [|y l1 IH]; simpl.
  - now rewrite Hd.
  - rewrite (H1 y (or_introl eq_refl)). rewrite IH; [reflexivity|].
    intros x Hx. apply H1. now right.
Qed.

Lemma find_at {D : Type} (p : D -> bool) (l1 l2 : list D) (d : D) :
  (forall x, In x l1 -> p x = false) -> p d = true ->
  find p (l1 ++ d :: l2) = Some d.
Proof.
  intros H1 Hd. induction l1 as [|y l1 IH]; simpl.
  - now rewrite Hd.
  - rewrite (H1 y (or_introl eq_refl)). apply IH.
    intros x Hx. apply H1. now right.
Qed.

Lemma NoDup_map_before {D K : Type} (key : D -> K) (l1 l2 : list D) (d x : D) :
  NoDup (map key (l1 ++ d :: l2)) -> In x l1 -> key x <> key d.
Proof.
  rewrite map_app. simpl. intros H Hx E.
  apply NoDup_remove_2 in H. apply H. apply in_or_app. left.
  rewrite <- E. now apply in_map.
Qed.

Lemma NoDup_map_after {D K : Type} (key : D -> K) (l1 l2 : list D) (d x : D) :
  NoDup (map key (l1 ++ d :: l2)) -> In x l2 -> key x <> key d.
Proof.
  rewrite map_app. simpl. intros H Hx E.
  apply NoDup_remove_2 in H. apply H. apply in_or_app. right.
  rewrite <- E. now apply in_map.
Qed.

Lemma map_replace {D K : Type} (key : D -> K) (l1 l2 : list D) (d d' : D) :
  key d' = key d ->
  map key (l1 ++ d' :: l2) = map key (l1 ++ d :: l2).
Proof. intros E. rewrite !map_app. simpl. now rewrite E. Qed.

Lemma is_pk_true (id : ObjectId) (o : option ObjectId) :
  Mongo.is_pk id o = true <-> o = Some id.
Proof.
  destruct o as [i|]; simpl.
  - rewrite N.eqb_eq. split; congruence.
  - split; discriminate.
Qed.

Lemma is_pk_false (id : ObjectId) (o : option ObjectId) :
  Mongo.is_pk id o = false <-> o <> Some id.
Proof.
  rewrite <- is_pk_true. destruct (Mongo.is_pk id o); split; congruence.
Qed.

(** ** The course of [Miner.get_or_create] *)

Lemma miner_save_valid (self : MinerDoc.t) :
  (String.length (MinerDoc.wallet_address self) <= 128)%nat ->
  (String.length (MinerDoc.nick_name self) <= 64)%nat ->
  (String.length (MinerDoc.email self) <= 128)%nat ->
  (128 <? Z.of_nat (String.length (MinerDoc.wallet_address self)))
  || (64 <? Z.of_nat (String.length (MinerDoc.nick_name self)))
  || (128 <? Z.of_nat (String.length (MinerDoc.email self))) = false.
Proof.
  intros Ha Hn He. rewrite !orb_false_iff. repeat split; apply Z.ltb_ge; lia.
Qed.

Lemma miner_valid_set_bounds (a nick email : string) :
  MinerUpsert.valid_set a nick email = true
  <-> (String.length a <= 128)%nat /\ (String.length nick <= 64)%nat
      /\ (String.length email <= 128)%nat.
Proof.
  unfold MinerUpsert.valid_set. rewrite !andb_true_iff, !Z.leb_le. lia.
Qed.

Lemma miner_save_at (self : MinerDoc.t) (cj cw : bool) (s : Mongo.store)
    (id : ObjectId) (l1 l2 : list MinerDoc.t) (d : MinerDoc.t) :
  (String.length (MinerDoc.wallet_address self) <= 128)%nat ->
  (String.length (MinerDoc.nick_name self) <= 64)%nat ->
  (String.length (MinerDoc.email self) <= 128)%nat ->
  MinerDoc.pk self = Some id ->
  Mongo.miners s = (l1 ++ d :: l2)%list ->
  (forall x, In x l1 -> Mongo.is_pk id (MinerDoc.pk x) = false) ->
  Mongo.is_pk id (MinerDoc.pk d) = true ->
  MinerUpsert.save self cj cw s
  = (Ret self,
     if cj || cw then
       Mongo.logged (Mongo.UpdateOne Mongo.zil_miners)
         (Mongo.with_miners
            (l1 ++ (let d1 := if cj
                              then MinerUpsert.with_join_date
                                     (MinerDoc.join_date self) d
                              else d in
                    if cw
                    then MinerUpsert.with_workers_name
                           (MinerDoc.workers_name self) d1
                    else d1) :: l2)%list s)
     else s).
Proof.
  intros Ha Hn He Hpk Hl H1 Hd. unfold MinerUpsert.save.
  rewrite (miner_save_valid self Ha Hn He), Hpk.
  destruct (cj || cw); [|reflexivity].
  rewrite Hl. now rewrite (update_one_at _ _ l1 l2 d H1 Hd).
Qed.

Lemma miner_get_or_create_found
    (utcnow : datetime) (a n nick email : string) (auth : bool)
    (s : Mongo.store) (m0 : MinerDoc.t) (l1 l2 : list MinerDoc.t) :
  Mongo.miners s = (l1 ++ m0 :: l2)%list ->
  (forall x, In x l1 -> String.eqb (MinerDoc.wallet_address x) a = false) ->
  String.eqb (MinerDoc.wallet_address m0) a = true ->
  NoDup (map MinerDoc.pk (Mongo.miners s)) ->
  MinerDoc.pk m0 <> None ->
  (String.length a <= 128)%nat ->
  (String.length n <= 64)%nat ->
  (String.length nick <= 64)%nat ->
  (String.length email <= 128)%nat ->
  let r := MinerUpsert.get_or_create utcnow a n nick email auth s in
  let s1 := snd (Worker.get_or_create a n s) in
  fst r = Ret (Some (upserted utcnow a n nick email auth m0))
  /\ Mongo.miners (snd r)
     = (l1 ++ upserted utcnow a n nick email auth m0 :: l2)%list
  /\ Mongo.workers (snd r) = Mongo.workers s1
  /\ Mongo.hashrates (snd r) = Mongo.hashrates s
  /\ Mongo.next_oid (snd r) = Mongo.next_oid s1.
Proof.
  intros Hl H1 Hm0 Hnd Hpk Ha Hwn Hn He r s1.
  assert (V : Worker.valid_set a n = true)
    by (apply worker_valid_set_bounds; auto).
  assert (VM : MinerUpsert.valid_set a nick email = true)
    by (apply miner_valid_set_bounds; auto).
  destruct (MinerDoc.pk m0) as [id|] eqn:Epk; [clear Hpk | congruence].
  assert (Hpk1 : forall x, In x l1 -> Mongo.is_pk id (MinerDoc.pk x) = false).
  { intros x Hx. apply is_pk_false. rewrite <- Epk. rewrite Hl in Hnd.
    exact (NoDup_map_before MinerDoc.pk l1 l2 m0 x Hnd Hx). }
  destruct (get_or_create_run a n s V) as [w [R [_ [_ [Hmin [Hhr _]]]]]].
  unfold r, MinerUpsert.get_or_create, bind. fold s1 in R, Hmin, Hhr.
  destruct (Worker.get_or_create a n s) as [r1 s1'] eqn:W.
  simpl in R. subst r1. simpl in s1. subst s1.
  unfold MinerUpsert.modify, Mongo.find_one_and_update.
  rewrite VM. cbn [negb].
  rewrite Hmin, Hl, (find_at _ l1 l2 m0 H1 Hm0), (update_one_at _ _ l1 l2 m0 H1 Hm0).
  cbn [snd fst].
  set (m1 := MinerUpsert.set_ a auth nick email m0).
  set (s2 := Mongo.logged (Mongo.FindAndModify Mongo.zil_miners)
               (Mongo.with_miners (l1 ++ m1 :: l2) s1')).
  assert (Hs2 : Mongo.miners s2 = (l1 ++ m1 :: l2)%list) by reflexivity.
  assert (Hm1 : Mongo.is_pk id (MinerDoc.pk m1) = true)
    by (apply is_pk_true; exact Epk).
  match goal with
  | |- context [MinerUpsert.save ?self ?cj ?cw s2] =>
      rewrite (miner_save_at self cj cw s2 id l1 l2 m1)
  end; auto.
  - subst s2 m1.
    unfold upserted, MinerUpsert.set_, MinerUpsert.with_join_date,
      MinerUpsert.with_workers_name.
    destruct (MinerDoc.join_date m0) as [t|] eqn:Ejd;
      cbn [MinerDoc.join_date MinerDoc.workers_name];
      destruct (existsb (String.eqb n) (MinerDoc.workers_name m0)) eqn:Ewn;
      cbn; rewrite ?Epk, ?Ejd, ?Ewn; auto.
  - destruct (MinerDoc.join_date m1), (existsb _ _); exact Ha.
  - destruct (MinerDoc.join_date m1), (existsb _ _); exact Hn.
  - destruct (MinerDoc.join_date m1), (existsb _ _); exact He.
  - destruct (MinerDoc.join_date m1), (existsb _ _); exact Epk.
Qed.

Lemma get_or_create_next_oid (a n : string) (s : Mongo.store) :
  (Mongo.next_oid s <= Mongo.next_oid (snd (Worker.get_or_create a n s)))%N.
Proof.
  unfold Worker.get_or_create, Mongo.find_one_and_update.
  destruct (negb _); [simpl; lia|].
  destruct (find _ (Mongo.workers s)); simpl; lia.
Qed.

Lemma miner_get_or_create_missing
    (utcnow : datetime) (a n nick email : string) (auth : bool)
    (s : Mongo.store) :
  find (fun d => String.eqb (MinerDoc.wallet_address d) a) (Mongo.miners s) = None ->
  (forall m, In m (Mongo.miners s) ->
             exists id, MinerDoc.pk m = Some id /\ (id < Mongo.next_oid s)%N) ->
  (String.length a <= 128)%nat ->
  (String.length n <= 64)%nat ->
  (String.length nick <= 64)%nat ->
  (String.length email <= 128)%nat ->
  let r := MinerUpsert.get_or_create utcnow a n nick email auth s in
  let s1 := snd (Worker.get_or_create a n s) in
  let created := MinerDoc.mk (Some (Mongo.next_oid s1)) a auth nick email false
                   (Some utcnow) [n] 0 0 0 0 in
  fst r = Ret (Some created)
  /\ Mongo.miners (snd r) = (Mongo.miners s ++ [created])%list
  /\ Mongo.workers (snd r) = Mongo.workers s1
  /\ Mongo.hashrates (snd r) = Mongo.hashrates s
  /\ Mongo.next_oid (snd r) = N.succ (Mongo.next_oid s1).
Proof.
  intros F Hfresh Ha Hwn Hn He r s1 created.
  assert (V : Worker.valid_set a n = true)
    by (apply worker_valid_set_bounds; auto).
  assert (VM : MinerUpsert.valid_set a nick email = true)
    by (apply miner_valid_set_bounds; auto).
  pose proof (get_or_create_next_oid a n s) as Hoid. fold s1 in Hoid.
  assert (Hpk1 : forall x, In x (Mongo.miners s) ->
                 Mongo.is_pk (Mongo.next_oid s1) (MinerDoc.pk x) = false).
  { intros x Hx. apply is_pk_false. destruct (Hfresh x Hx) as [id [E Hlt]].
    rewrite E. intros E'. injection E' as ->. lia. }
  destruct (get_or_create_run a n s V) as [w [R [_ [_ [Hmin [Hhr _]]]]]].
  unfold r, created, MinerUpsert.get_or_create, bind. fold s1 in R, Hmin, Hhr.
  clear r created.
  destruct (Worker.get_or_create a n s) as [r1 s1'] eqn:W.
  simpl in R. subst r1. simpl in s1. subst s1.
  unfold MinerUpsert.modify, Mongo.find_one_and_update.
  rewrite VM. cbn [negb].
  rewrite Hmin, F. cbn [Mongo.fresh_oid snd fst].
  set (m1 := MinerDoc.mk (Some (Mongo.next_oid s1')) a auth nick email false
               None [] 0 0 0 0).
  match goal with
  | |- context [MinerUpsert.save ?self ?cj ?cw ?s2] =>
      rewrite (miner_save_at self cj cw s2 (Mongo.next_oid s1')
                 (Mongo.miners s) [] m1)
  end; auto.
  - cbn. now rewrite Hmin.
  - cbn. apply N.eqb_refl.
Qed.










(** ** The miners collection stays keyed *)

Lemma miner_save_shape (self : MinerDoc.t) (cj cw : bool) (s : Mongo.store)
    (id : ObjectId) (l1 l2 : list MinerDoc.t) (d : MinerDoc.t) :
  MinerDoc.pk self = Some id ->
  Mongo.miners s = (l1 ++ d :: l2)%list ->
  (forall x, In x l1 -> Mongo.is_pk id (MinerDoc.pk x) = false) ->
  Mongo.is_pk id (MinerDoc.pk d) = true ->
  exists X,
    Mongo.miners (snd (MinerUpsert.save self cj cw s)) = (l1 ++ X :: l2)%list
    /\ MinerDoc.pk X = MinerDoc.pk d
    /\ MinerDoc.wallet_address X = MinerDoc.wallet_address d
    /\ Mongo.next_oid (snd (MinerUpsert.save self cj cw s)) = Mongo.next_oid s
    /\ Mongo.workers (snd (MinerUpsert.save self cj cw s)) = Mongo.workers s
    /\ Mongo.hashrates (snd (MinerUpsert.save self cj cw s)) = Mongo.hashrates s.
Proof.
  intros Hpk Hl H1 Hd. unfold MinerUpsert.save.
  destruct (_ || _ || _); [exists d; simpl; repeat split; auto|].
  rewrite Hpk. destruct (cj || cw); [|exists d; simpl; repeat split; auto].
  rewrite Hl, (update_one_at _ _ l1 l2 d H1 Hd). simpl.
  eexists. split; [reflexivity|]. destruct cj, cw; simpl; repeat split; auto.
Qed.

Lemma miner_get_or_create_shape
    (utcnow : datetime) (a n nick email : string) (auth : bool)
    (s : Mongo.store) :
  (forall m, In m (Mongo.miners s) ->
             exists id, MinerDoc.pk m = Some id /\ (id < Mongo.next_oid s)%N) ->
  NoDup (map MinerDoc.pk (Mongo.miners s)) ->
  let s' := snd (MinerUpsert.get_or_create utcnow a n nick email auth s) in
  let s1 := snd (Worker.get_or_create a n s) in
  Mongo.workers s' = Mongo.workers s1
  /\ Mongo.hashrates s' = Mongo.hashrates s
  /\ ((Mongo.miners s' = Mongo.miners s
       /\ Mongo.next_oid s' = Mongo.next_oid s1)
      \/ (exists l1 m0 l2 X,
          Mongo.miners s = (l1 ++ m0 :: l2)%list
          /\ MinerDoc.wallet_address m0 = a
          /\ Mongo.miners s' = (l1 ++ X :: l2)%list
          /\ MinerDoc.pk X = MinerDoc.pk m0
          /\ MinerDoc.wallet_address X = a
          /\ Mongo.next_oid s' = Mongo.next_oid s1)
      \/ (find (fun d => String.eqb (MinerDoc.wallet_address d) a)
               (Mongo.miners s) = None
          /\ exists X,
              Mongo.miners s' = (Mongo.miners s ++ [X])%list
              /\ MinerDoc.pk X = Some (Mongo.next_oid s1)
              /\ MinerDoc.wallet_address X = a
              /\ Mongo.next_oid s' = N.succ (Mongo.next_oid s1))).
Proof.
  intros Hpk Hnd s' s1.
  pose proof (get_or_create_next_oid a n s) as Hoid. fold s1 in Hoid.
  destruct (Worker.valid_set a n) eqn:V.
  2:{ unfold s', s1, MinerUpsert.get_or_create, bind.
      rewrite (get_or_create_invalid _ _ _ V). simpl. auto. }
  destruct (get_or_create_run a n s V) as [w [R [_ [_ [Hmin [Hhr _]]]]]].
  fold s1 in R, Hmin, Hhr.
  unfold s', MinerUpsert.get_or_create, bind. clear s'.
  destruct (Worker.get_or_create a n s) as [r1 s1'] eqn:W.
  simpl in R. subst r1. simpl in s1. subst s1.
  unfold MinerUpsert.modify, Mongo.find_one_and_update.
  destruct (negb (MinerUpsert.valid_set a nick email)); [simpl; auto|].
  rewrite Hmin.
  destruct (find (fun d => String.eqb (MinerDoc.wallet_address d) a)
                 (Mongo.miners s)) as [m0|] eqn:F.
  - destruct (find_split _ _ _ F) as [l1 [l2 [Hl [H1 Hm0]]]].
    destruct (Hpk m0) as [id [Epk _]];
      [rewrite Hl; apply in_or_app; right; now left|].
    assert (Hpk1 : forall x, In x l1 -> Mongo.is_pk id (MinerDoc.pk x) = false).
    { intros x Hx. apply is_pk_false. rewrite <- Epk. rewrite Hl in Hnd.
      exact (NoDup_map_before MinerDoc.pk l1 l2 m0 x Hnd Hx). }
    rewrite Hl, (update_one_at _ _ l1 l2 m0 H1 Hm0). cbn [snd fst].
    set (m1 := MinerUpsert.set_ a auth nick email m0).
    set (s2 := Mongo.logged (Mongo.FindAndModify Mongo.zil_miners)
                 (Mongo.with_miners (l1 ++ m1 :: l2) s1')).
    match goal with
    | |- context [MinerUpsert.save ?self ?cj ?cw s2] =>
        destruct (miner_save_shape self cj cw s2 id l1 l2 m1)
          as [X [M [Xpk [Xw [Xo [Xwk Xh]]]]]];
        [ destruct (MinerDoc.join_date m1), (existsb _ _); exact Epk
        | reflexivity | exact Hpk1 | apply is_pk_true; exact Epk | ];
        destruct (MinerUpsert.save self cj cw s2) as [[v|e] s3]
    end; simpl in *;
      (split; [exact Xwk|]); (split; [congruence|]); right; left;
      exists l1, m0, l2, X; apply String.eqb_eq in Hm0; auto 10.
  - cbn [Mongo.fresh_oid snd fst].
    set (m1 := MinerDoc.mk (Some (Mongo.next_oid s1')) a auth nick email false
                 None [] 0 0 0 0).
    set (s2 := Mongo.logged (Mongo.FindAndModify Mongo.zil_miners) _).
    assert (Hpk1 : forall x, In x (Mongo.miners s) ->
                   Mongo.is_pk (Mongo.next_oid s1') (MinerDoc.pk x) = false).
    { intros x Hx. apply is_pk_false. destruct (Hpk x Hx) as [id [E Hlt]].
      rewrite E. intros E'. injection E' as ->. simpl in Hoid. lia. }
    match goal with
    | |- context [MinerUpsert.save ?self ?cj ?cw s2] =>
        destruct (miner_save_shape self cj cw s2 (Mongo.next_oid s1')
                    (Mongo.miners s) [] m1)
          as [X [M [Xpk [Xw [Xo [Xwk Xh]]]]]];
        [ reflexivity
        | unfold s2; simpl; now rewrite Hmin
        | exact Hpk1 | simpl; apply N.eqb_refl | ];
        destruct (MinerUpsert.save self cj cw s2) as [[v|e] s3]
    end; simpl in *;
      (split; [exact Xwk|]); (split; [congruence|]); right; right;
      (split; [reflexivity|]); exists X; auto.
Qed.

Lemma miners_keyed_ext (s s' : Mongo.store) :
  map MinerDoc.pk (Mongo.miners s') = map MinerDoc.pk (Mongo.miners s) ->
  map MinerDoc.wallet_address (Mongo.miners s')
  = map MinerDoc.wallet_address (Mongo.miners s) ->
  (Mongo.next_oid s <= Mongo.next_oid s')%N ->
  miners_keyed s -> miners_keyed s'.
Proof.
  intros Epk Ew Hoid [Hpk [Hnd Hw]]. split; [|split].
  - intros m Hm. apply (in_map MinerDoc.pk) in Hm. rewrite Epk in Hm.
    apply in_map_iff in Hm. destruct Hm as [m0 [E Hm0]].
    destruct (Hpk m0 Hm0) as [id [Hid Hlt]]. exists id. split; [congruence | lia].
  - now rewrite Epk.
  - now rewrite Ew.
Qed.

Lemma map_update_one {D K : Type} (key : D -> K) (p : D -> bool) (f : D -> D)
    (l : list D) :
  (forall d, key (f d) = key d) ->
  map key (snd (Mongo.update_one p f l)) = map key l.
Proof.
  intros Hk. induction l as [|x l IH]; simpl; [reflexivity|].
  destruct (p x); simpl; [now rewrite Hk|].
  destruct (Mongo.update_one p f l) as [k l']. simpl in *. now rewrite IH.
Qed.

Lemma miner_update_keyed (self : MinerDoc.t) (kw : kwargs) (s : Mongo.store) :
  miners_keyed s -> miners_keyed (snd (Miner.update self kw s)).
Proof.
  apply miners_keyed_ext;
    destruct (miner_update_cases self kw s) as [[e [E _]]|[id [_ [_ [_ E]]]]];
    rewrite E; simpl; try reflexivity; try lia.
  - apply map_update_one. intros x. apply miner_apply_pk.
  - apply map_update_one. intros x. apply miner_apply_wallet.
Qed.

Lemma save_next_oid (hr : HashRateDoc.t) (s : Mongo.store) :
  (Mongo.next_oid s <= Mongo.next_oid (snd (HashRate.save hr s)))%N.
Proof.
  unfold HashRate.save.
  destruct (_ || _); [simpl; lia|]. destruct (_ || _); simpl; lia.
Qed.

Lemma log_miners_next_oid (utcnow : datetime) (h : Z) (a n : string)
    (s : Mongo.store) :
  Mongo.miners (snd (HashRate.log utcnow h a n s)) = Mongo.miners s
  /\ (Mongo.next_oid s
      <= Mongo.next_oid (snd (HashRate.log utcnow h a n s)))%N.
Proof.
  destruct (Z.lt_ge_cases h 0) as [Hneg|Hpos].
  - rewrite log_negative_hashrate_run by exact Hneg. simpl. split; [auto | lia].
  - rewrite log_run by exact Hpos.
    destruct (find _ (Mongo.miners s)) as [m|]; [|simpl; split; [auto | lia]].
    destruct (Worker.valid_set a n); [|simpl; split; [auto | lia]].
    set (s0 := Mongo.logged (Mongo.Find Mongo.zil_miners) s).
    destruct (get_or_create_any a n s0) as [Hm _].
    pose proof (get_or_create_next_oid a n s0) as Ho.
    set (s1 := snd (Worker.get_or_create a n s0)) in *.
    pose proof (save_next_oid (HashRateDoc.mk None a n h utcnow) s1) as Hs.
    destruct (save_appends (HashRateDoc.mk None a n h utcnow) s1) as [Sm _].
    destruct (HashRate.save _ s1) as [[d|e] s2]; simpl in *;
      (split; [congruence | lia]).
Qed.

(** X9: the miners collection stays keyed under every operation, whatever
    the arguments and whether the call returns or raises: after
    [Worker.get_or_create], [Miner.get_or_create], [HashRate.log],
    [Miner.update_stat] and [Worker.update_stat], still every Miner has a
    primary key, no two share one, and no two Miners have the same wallet
    address. *)
Theorem miners_keyed_kept (s : Mongo.store) :
  miners_keyed s ->
  (forall a n, miners_keyed (snd (Worker.get_or_create a n s)))
  /\ (forall utcnow a n nick email auth,
        miners_keyed (snd (MinerUpsert.get_or_create utcnow a n nick email auth s)))
  /\ (forall utcnow h a n, miners_keyed (snd (HashRate.log utcnow h a n s)))
  /\ (forall self a b c d, miners_keyed (snd (Miner.update_stat self a b c d s)))
  /\ (forall self a b c d, miners_keyed (snd (Worker.update_stat self a b c d s))).
Proof.
  intros K. split; [|split; [|split; [|split]]].
  - intros a n. destruct (get_or_create_any a n s) as [Hm _].
    apply (miners_keyed_ext s); [now rewrite Hm | now rewrite Hm | | exact K].
    apply get_or_create_next_oid.
  - intros utcnow a n nick email auth. destruct K as [Hpk [Hnd Hw]].
    pose proof (get_or_create_next_oid a n s) as Ho.
    destruct (miner_get_or_create_shape utcnow a n nick email auth s Hpk Hnd)
      as [_ [_ [[M Xo]|[[l1 [m0 [l2 [X [Hl [Hm0 [M [Xpk [Xw Xo]]]]]]]]]|[F [X [M [Xpk [Xw Xo]]]]]]]]].
    + apply (miners_keyed_ext s);
        [now rewrite M | now rewrite M | lia | now repeat split].
    + apply (miners_keyed_ext s); [| | lia | now repeat split].
      * rewrite M, Hl. now apply map_replace.
      * rewrite M, Hl. apply map_replace. congruence.
    + split; [|split]; rewrite M.
      * intros m Hm. apply in_app_or in Hm. destruct Hm as [Hm|[<-|[]]].
        -- destruct (Hpk m Hm) as [id [E Hlt]]. exists id. split; [exact E | lia].
        -- eexists. split; [exact Xpk | lia].
      * rewrite map_app. simpl. apply NoDup_app; [exact Hnd | | ].
        -- repeat constructor. intros [].
        -- intros o Ho' [<-|[]]. apply in_map_iff in Ho'.
           destruct Ho' as [m [E Hm]]. destruct (Hpk m Hm) as [id [Hid Hlt]].
           rewrite Xpk, Hid in E. injection E as ->. lia.
      * rewrite map_app. simpl. apply NoDup_app; [exact Hw | | ].
        -- repeat constructor. intros [].
        -- intros o Ho' [<-|[]]. apply in_map_iff in Ho'.
           destruct Ho' as [m [E Hm]]. pose proof (find_none _ _ F m Hm) as N.
           simpl in N. apply String.eqb_neq in N. congruence.
  - intros utcnow h a n. destruct (log_miners_next_oid utcnow h a n s) as [Hm Ho].
    apply (miners_keyed_ext s); [now rewrite Hm | now rewrite Hm | exact Ho | exact K].
  - intros self a b c d. unfold Miner.update_stat. fold (stat_kwargs a b c d).
    now apply miner_update_keyed.
  - intros self a b c d. rewrite worker_update_stat_run.
    assert (K1 : miners_keyed (snd (Worker.update self (stat_kwargs a b c d) s))).
    { apply (miners_keyed_ext s); [| | | exact K];
        destruct (worker_update_cases self (stat_kwargs a b c d) s)
          as [[e [E _]]|[id [_ [_ [_ E]]]]]; rewrite E; simpl; auto; lia. }
    destruct (Worker.update self (stat_kwargs a b c d) s) as [[k|e] s1];
      simpl in K1; [|exact K1].
    destruct (k =? 0); [exact K1|]. simpl.
    assert (K2 : miners_keyed (Mongo.logged (Mongo.Find Mongo.zil_miners) s1))
      by (apply (miners_keyed_ext s1); simpl; auto; lia).
    destruct (find _ (Mongo.miners s1)) as [m|]; [|exact K2].
    pose proof (miner_update_keyed m (stat_kwargs a b c d) _ K2) as K3.
    now destruct (Miner.update m (stat_kwargs a b c d) _) as [[v|e] s3].
Qed.

Lemma miners_keyed_kept_witness :
  let m0 := MinerDoc.mk (Some 0%N) "zil1"%string true ""%string ""%string false
              (Some 500) [] 0 0 0 0 in
  let s := Mongo.mk [m0] [] [] 1%N [] in
  miners_keyed (snd (MinerUpsert.get_or_create 1000 "zil2"%string "rig0"%string
                       ""%string ""%string true s)).
Proof.
  intros m0 s.
  refine (proj1 (proj2 (miners_keyed_kept s _)) _ _ _ _ _ _).
  split; [|split].
  - intros x [<-|[]]. exists 0%N. split; reflexivity.
  - repeat constructor. intros [].
  - repeat constructor. intros [].
Defined.

(** ** Registration, then sampling *)




(** ** Arguments that fail validation *)




(** ** Miner counters and the sums over the Workers *)

Lemma Zsum_app (l1 l2 : list Z) : Zsum (l1 ++ l2) = Zsum l1 + Zsum l2.
Proof. induction l1 as [|x l1 IH]; simpl; [reflexivity | rewrite IH; lia]. Qed.

Lemma worker_apply_wallet (kw : kwargs) (doc : WorkerDoc.t) :
  WorkerDoc.wallet_address (Worker.apply_kwargs kw doc)
  = WorkerDoc.wallet_address doc.
Proof.
  unfold Worker.apply_kwargs. revert doc.
  induction kw as [|[f v] kw IH]; intros doc; simpl; [reflexivity|].
  rewrite IH. now destruct f.
Qed.

Lemma worker_total_replace (f : stat_field) (x : string) (s s' : Mongo.store)
    (l1 l2 : list WorkerDoc.t) (w w' : WorkerDoc.t) :
  Mongo.workers s = (l1 ++ w :: l2)%list ->
  Mongo.workers s' = (l1 ++ w' :: l2)%list ->
  WorkerDoc.wallet_address w' = WorkerDoc.wallet_address w ->
  worker_total f x s'
  = worker_total f x s
    + (if String.eqb (WorkerDoc.wallet_address w) x
       then WorkerDoc.stat f w' - WorkerDoc.stat f w
       else 0).
Proof.
  intros Hs Hs' Hw. unfold worker_total. rewrite Hs, Hs'.
  rewrite !filter_app, !map_app, !Zsum_app. simpl. rewrite Hw.
  destruct (String.eqb (WorkerDoc.wallet_address w) x); simpl; lia.
Qed.

Lemma worker_total_append (f : stat_field) (x : string) (s s' : Mongo.store)
    (w : WorkerDoc.t) :
  Mongo.workers s' = (Mongo.workers s ++ [w])%list ->
  WorkerDoc.stat f w = 0 ->
  worker_total f x s' = worker_total f x s.
Proof.
  intros Hs' H0. unfold worker_total. rewrite Hs'.
  rewrite filter_app, map_app, Zsum_app. simpl.
  destruct (String.eqb (WorkerDoc.wallet_address w) x); simpl; lia.
Qed.

Lemma stats_in_sync_ext (s s' : Mongo.store) :
  Mongo.miners s' = Mongo.miners s ->
  Mongo.workers s' = Mongo.workers s ->
  stats_in_sync s -> stats_in_sync s'.
Proof.
  intros Hm Hw H m Hin f. unfold worker_total. rewrite Hw.
  rewrite Hm in Hin. exact (H m Hin f).
Qed.

Lemma worker_update_not_ok_same (self : WorkerDoc.t) (a b c d : Z)
    (s : Mongo.store) :
  ~ worker_update_ok self a b c d s ->
  Mongo.workers (snd (Worker.update self (stat_kwargs a b c d) s))
  = Mongo.workers s.
Proof.
  intros Hno.
  destruct (worker_update_cases self (stat_kwargs a b c d) s)
    as [[e [E _]]|[wid [Hpk [Hkw [Hfit E]]]]]; [now rewrite E|].
  destruct (find (fun x => Mongo.is_pk wid (WorkerDoc.pk x)) (Mongo.workers s))
    as [w|] eqn:F.
  - exfalso. apply Hno. exists 1. split; [|lia]. rewrite E. simpl. f_equal.
    eapply update_one_found; eauto.
  - rewrite E. simpl. now rewrite update_one_missing.
Qed.

Lemma worker_update_ok_at (self : WorkerDoc.t) (a b c d : Z) (s : Mongo.store) :
  worker_update_ok self a b c d s ->
  exists wid w l1 l2,
    WorkerDoc.pk self = Some wid
    /\ worker_by_pk wid s = Some w
    /\ Mongo.workers s = (l1 ++ w :: l2)%list
    /\ Mongo.workers (snd (Worker.update self (stat_kwargs a b c d) s))
       = (l1 ++ Worker.apply_kwargs (stat_kwargs a b c d) w :: l2)%list.
Proof.
  intros Hok.
  destruct (worker_update_ok_inv _ _ _ _ _ _ Hok) as [wid [w [Hpk [Hkw [Hw _]]]]].
  destruct (find_split _ _ _ Hw) as [l1 [l2 [Hl [H1 Hd]]]].
  exists wid, w, l1, l2. repeat split; auto.
  pose proof (worker_update_ok_fit _ _ _ _ _ _ Hok) as Hfit.
  destruct (worker_update_cases self (stat_kwargs a b c d) s)
    as [[e [_ [_ [E|[E|E]]]]]|[wid' [Hpk' [_ [_ E]]]]]; try congruence.
  assert (wid' = wid) by congruence. subst wid'.
  rewrite E. simpl. rewrite Hl. now rewrite (update_one_at _ _ l1 l2 w H1 Hd).
Qed.

Lemma Zmax0_delta (a b c d : Z) (f : stat_field) (w : WorkerDoc.t) :
  WorkerDoc.stat f (Worker.apply_kwargs (stat_kwargs a b c d) w)
  - WorkerDoc.stat f w
  = Z.max 0 (delta a b c d f).
Proof. rewrite worker_apply_stat. lia. Qed.

(** X12: [Worker.update_stat] keeps the Miner counters equal to the sums over
    the Workers.  In a store whose miners collection is keyed and where every
    Miner's four counters are the sums of the counters of the Workers of its
    wallet address, a call on a Worker whose wallet address is the stored
    one leaves every Miner's counters equal to those sums again, whatever
    the deltas and whether the call returns or raises. *)
Theorem update_stat_keeps_sync (self : WorkerDoc.t) (a b c d : Z) (s : Mongo.store) :
  miners_keyed s ->
  stats_in_sync s ->
  (forall id w, WorkerDoc.pk self = Some id -> worker_by_pk id s = Some w ->
                WorkerDoc.wallet_address w = WorkerDoc.wallet_address self) ->
  stats_in_sync (snd (Worker.update_stat self a b c d s)).
Proof.
  intros [Hpk [Hnd Hwal]] Hsync Hcons.
  destruct (worker_update_ok_dec self a b c d s) as [Hok|Hno].
  - destruct (worker_update_ok_at _ _ _ _ _ _ Hok)
      as [wid [w [l1 [l2 [Hspk [Hw [Hl Hl']]]]]]].
    pose proof (Hcons wid w Hspk Hw) as Hwa.
    destruct (worker_update_ok_inv _ _ _ _ _ _ Hok) as [_ [_ [_ [Hkw [_ [Hmin _]]]]]].
    pose proof (worker_update_ok_fit _ _ _ _ _ _ Hok) as Hfit.
    rewrite (worker_update_stat_ok _ _ _ _ _ _ Hok).
    set (s1 := snd (Worker.update self (stat_kwargs a b c d) s)) in *.
    set (kw := stat_kwargs a b c d) in *.
    assert (Htot : forall f x,
               worker_total f x s1
               = worker_total f x s
                 + (if String.eqb (WorkerDoc.wallet_address self) x
                    then Z.max 0 (delta a b c d f) else 0)).
    { intros f x.
      rewrite (worker_total_replace f x s s1 l1 l2 w (Worker.apply_kwargs kw w)
                 Hl Hl' (worker_apply_wallet kw w)).
      rewrite Hwa. unfold kw. now rewrite Zmax0_delta. }
    destruct (find (fun m => String.eqb (MinerDoc.wallet_address m)
                               (WorkerDoc.wallet_address self))
                   (Mongo.miners s)) as [m|] eqn:F.
    + destruct (find_split _ _ _ F) as [k1 [k2 [Hk [H1 Hm]]]].
      apply String.eqb_eq in Hm.
      destruct (Hpk m) as [mid [Empk _]];
        [rewrite Hk; apply in_or_app; right; now left|].
      set (s2 := Mongo.logged (Mongo.Find Mongo.zil_miners) s1).
      assert (Hk1 : forall x, In x k1 -> Mongo.is_pk mid (MinerDoc.pk x) = false).
      { intros x Hx. apply is_pk_false. rewrite <- Empk. rewrite Hk in Hnd.
        exact (NoDup_map_before MinerDoc.pk k1 k2 m x Hnd Hx). }
      destruct (miner_update_cases m kw s2)
        as [[e [_ [_ [E|[E|E]]]]]|[mid' [Empk' [_ [_ E]]]]]; try congruence.
      assert (mid' = mid) by congruence. subst mid'.
      rewrite E. cbn [snd].
      assert (Hm2 : Mongo.miners s2 = (k1 ++ m :: k2)%list)
        by (unfold s2; simpl; rewrite Hmin; exact Hk).
      rewrite Hm2.
      rewrite (update_one_at _ _ k1 k2 m Hk1 (proj2 (is_pk_true mid _) Empk)).
      intros m' Hm' f.
      change (In m' (k1 ++ Miner.apply_kwargs kw m :: k2)) in Hm'.
      assert (Hws : forall x, worker_total f x
                      (Mongo.logged (Mongo.UpdateOne Mongo.zil_miners)
                         (Mongo.with_miners (k1 ++ Miner.apply_kwargs kw m :: k2) s2))
                    = worker_total f x s1) by reflexivity.
      rewrite Hws, Htot.
      apply in_app_or in Hm'. destruct Hm' as [Hm'|[<-|Hm']].
      * assert (Hne : MinerDoc.wallet_address m' <> MinerDoc.wallet_address m)
          by (rewrite Hk in Hwal;
              exact (NoDup_map_before MinerDoc.wallet_address k1 k2 m m' Hwal Hm')).
        rewrite Hm in Hne. apply not_eq_sym in Hne. apply String.eqb_neq in Hne.
        rewrite Hne, Z.add_0_r. apply Hsync. rewrite Hk.
        apply in_or_app. now left.
      * rewrite miner_apply_wallet, Hm, String.eqb_refl.
        unfold kw. rewrite miner_apply_stat.
        rewrite (Hsync m); [now rewrite Hm|].
        rewrite Hk. apply in_or_app. right. now left.
      * assert (Hne : MinerDoc.wallet_address m' <> MinerDoc.wallet_address m)
          by (rewrite Hk in Hwal;
              exact (NoDup_map_after MinerDoc.wallet_address k1 k2 m m' Hwal Hm')).
        rewrite Hm in Hne. apply not_eq_sym in Hne. apply String.eqb_neq in Hne.
        rewrite Hne, Z.add_0_r. apply Hsync. rewrite Hk.
        apply in_or_app. right. now right.
    + intros m' Hm' f. change (In m' (Mongo.miners s1)) in Hm'.
      rewrite Hmin in Hm'.
      assert (Hws : forall x, worker_total f x
                      (Mongo.logged (Mongo.Find Mongo.zil_miners) s1)
                    = worker_total f x s1) by reflexivity.
      rewrite Hws, Htot.
      pose proof (find_none _ _ F m' Hm') as Hne. simpl in Hne.
      rewrite String.eqb_sym in Hne. rewrite Hne, Z.add_0_r. now apply Hsync.
  - rewrite (worker_update_stat_not_ok _ _ _ _ _ _ Hno). cbn [snd].
    apply (stats_in_sync_ext s); [apply worker_update_frame | | exact Hsync].
    now apply worker_update_not_ok_same.
Qed.

Lemma update_stat_keeps_sync_witness :
  let w := WorkerDoc.mk (Some 1%N) "zil1"%string "rig0"%string 10 0 3 7 in
  let m := MinerDoc.mk (Some 0%N) "zil1"%string true ""%string ""%string false
             None ["rig0"%string] 10 0 3 7 in
  let s := Mongo.mk [m] [w] [] 2%N [] in
  stats_in_sync (snd (Worker.update_stat w 2 0 (-1) 5 s)).
Proof.
  intros w m s. apply (update_stat_keeps_sync w 2 0 (-1) 5 s).
  - split; [|split].
    + intros x [<-|[]]. exists 0%N. split; reflexivity.
    + repeat constructor. intros [].
    + repeat constructor. intros [].
  - intros x [<-|[]] f. destruct f; reflexivity.
  - intros id x Hid Hx. injection Hid as <-. vm_compute in Hx.
    injection Hx as <-. reflexivity.
Defined.

(** X13: the other operations keep the Miner counters equal to the sums over
    the Workers as well: [Worker.get_or_create] and [HashRate.log] whatever
    the arguments (a Worker they create has its counters at 0), and
    [Miner.get_or_create] (keyed miners, strings within their bounds) when
    the wallet address has a Miner already or its Workers' counters sum to
    0. *)
Theorem stats_in_sync_kept (s : Mongo.store) :
  stats_in_sync s ->
  (forall a n, stats_in_sync (snd (Worker.get_or_create a n s)))
  /\ (forall utcnow h a n, stats_in_sync (snd (HashRate.log utcnow h a n s)))
  /\ (forall utcnow a n nick email auth,
        miners_keyed s ->
        (String.length a <= 128)%nat ->
        (String.length nick <= 64)%nat ->
        (String.length email <= 128)%nat ->
        (registered a s \/ forall f, worker_total f a s = 0) ->
        stats_in_sync
          (snd (MinerUpsert.get_or_create utcnow a n nick email auth s))).
Proof.
  intros Hsync.
  assert (Hgoc : forall a n s0,
             Mongo.miners s0 = Mongo.miners s ->
             Mongo.workers s0 = Mongo.workers s ->
             forall f x,
               worker_total f x (snd (Worker.get_or_create a n s0))
               = worker_total f x s).
  { intros a n s0 Hm0 Hw0 f x.
    destruct (get_or_create_any a n s0) as [_ [_ [Hw|[_ Hw]]]].
    - unfold worker_total. now rewrite Hw, Hw0.
    - rewrite (worker_total_append f x s0 _ _ Hw); [|now destruct f].
      unfold worker_total. now rewrite Hw0. }
  split; [|split].
  - intros a n m Hm f.
    destruct (get_or_create_any a n s) as [Hmin _].
    rewrite Hmin in Hm. rewrite (Hgoc a n s eq_refl eq_refl). now apply Hsync.
  - intros utcnow h a n m Hm f.
    destruct (log_shape utcnow h a n s) as [Hmin [Hw _]].
    rewrite Hmin in Hm. rewrite (Hsync m Hm f).
    destruct Hw as [Hw|[id Hw]].
    + unfold worker_total. now rewrite Hw.
    + symmetry. apply (worker_total_append f _ s _ _ Hw). now destruct f.
  - intros utcnow a n nick email auth [Hpk [Hnd Hwal]] Ha Hn He Hor.
    destruct (Worker.valid_set a n) eqn:V.
    2:{ unfold MinerUpsert.get_or_create, bind.
        now rewrite (get_or_create_invalid _ _ _ V). }
    assert (Hwn : (String.length n <= 64)%nat)
      by (apply worker_valid_set_bounds in V; tauto).
    destruct (find (fun d => String.eqb (MinerDoc.wallet_address d) a)
                   (Mongo.miners s)) as [m0|] eqn:F.
    + destruct (find_split _ _ _ F) as [l1 [l2 [Hl [H1 Hm0]]]].
      assert (Hpk0 : MinerDoc.pk m0 <> None).
      { destruct (Hpk m0) as [id [E _]]; [|congruence].
        rewrite Hl. apply in_or_app. right. now left. }
      destruct (miner_get_or_create_found utcnow a n nick email auth s m0 l1 l2
                  Hl H1 Hm0 Hnd Hpk0 Ha Hwn Hn He) as [_ [M [W _]]].
      apply String.eqb_eq in Hm0.
      intros m Hm f. rewrite M in Hm.
      assert (Ht : forall x,
                 worker_total f x
                   (snd (MinerUpsert.get_or_create utcnow a n nick email auth s))
                 = worker_total f x s).
      { intros x. rewrite <- (Hgoc a n s eq_refl eq_refl f x).
        unfold worker_total. now rewrite W. }
      rewrite Ht. apply in_app_or in Hm. destruct Hm as [Hm|[<-|Hm]].
      * apply Hsync. rewrite Hl. apply in_or_app. now left.
      * unfold upserted. cbn [MinerDoc.wallet_address].
        rewrite <- Hm0. rewrite <- (Hsync m0);
          [now destruct f | rewrite Hl; apply in_or_app; right; now left].
      * apply Hsync. rewrite Hl. apply in_or_app. right. now right.
    + destruct (miner_get_or_create_missing utcnow a n nick email auth s
                  F Hpk Ha Hwn Hn He) as [_ [M [W _]]].
      assert (Hz : forall f, worker_total f a s = 0).
      { destruct Hor as [Hreg|Hz]; [|exact Hz].
        apply find_wallet_registered in Hreg. destruct Hreg as [m E]. congruence. }
      intros m Hm f. rewrite M in Hm.
      assert (Ht : forall x,
                 worker_total f x
                   (snd (MinerUpsert.get_or_create utcnow a n nick email auth s))
                 = worker_total f x s).
      { intros x. rewrite <- (Hgoc a n s eq_refl eq_refl f x).
        unfold worker_total. now rewrite W. }
      rewrite Ht. apply in_app_or in Hm. destruct Hm as [Hm|[<-|[]]].
      * now apply Hsync.
      * cbn [MinerDoc.wallet_address]. rewrite Hz. now destruct f.
Qed.

Lemma stats_in_sync_kept_witness :
  let s := Mongo.mk [] [] [] 0%N [] in
  stats_in_sync (snd (MinerUpsert.get_or_create 1000 "zil1"%string "rig0"%string
                        ""%string ""%string true s)).
Proof.
  intros s.
  refine (proj2 (proj2 (stats_in_sync_kept s _)) 1000 "zil1"%string "rig0"%string
            ""%string ""%string true _ _ _ _ _).
  - intros m [].
  - split; [intros m [] | split; constructor].
  - simpl. lia.
  - simpl. lia.
  - simpl. lia.
  - right. intros f. reflexivity.
Defined.

(** ** A logged sample in the aggregations *)

Lemma active_count_run (utcnow : datetime) (s : Mongo.store) :
  fst (Worker.active_count utcnow s)
  = Ret (Z.of_nat (List.length
           (Mongo.stage_group (fun _ => tt) (fun (a : unit) _ => a)
              (Mongo.stage_match
                 [Mongo.updated_time__gte (utcnow - timedelta_hours 3)]
                 (Mongo.hashrates s))))).
Proof.
  unfold Worker.active_count, ModelMixin.aggregate_count, bind, Mongo.aggregate.
  simpl. now rewrite stage_group_sum_first, Zsum_ones.
Qed.

Lemma stage_match_snoc (m : list Mongo.cond) (docs : list HashRateDoc.t)
    (d : HashRateDoc.t) :
  forallb (Mongo.sat d) m = true ->
  Mongo.stage_match m (docs ++ [d]) = (Mongo.stage_match m docs ++ [d])%list.
Proof.
  intros H. unfold Mongo.stage_match. rewrite filter_app. simpl. now rewrite H.
Qed.

Lemma group_put_length {A : Type} (init : A) (step : A -> A) (k : Mongo.key)
    (g : list (Mongo.key * A)) :
  (In k (map fst g)
   /\ List.length (Mongo.group_put init step k g) = List.length g)
  \/ (~ In k (map fst g)
      /\ List.length (Mongo.group_put init step k g) = S (List.length g)).
Proof.
  destruct (group_put_cases init step k g)
    as [[Hn Hp]|[g1 [a [g2 [Hg [Hn Hp]]]]]]; rewrite Hp.
  - right. split; [exact Hn|]. rewrite length_app. simpl. lia.
  - left. split.
    + rewrite Hg, map_app. apply in_or_app. right. now left.
    + rewrite Hg, !length_app. reflexivity.
Qed.

(** X14: a sample that [HashRate.log] has accepted makes its worker active
    for the next three hours.  Counted at a time [now] with now - 3 hours at
    or before the time of the call, [Worker.active_count] is at least 1
    afterwards; it is what it was if the (wallet address, worker name) pair
    had a sample in the last three hours already, and one more if it had
    none. *)
Theorem log_makes_active
    (utcnow now : datetime) (hashrate : Z) (wallet_address worker_name : string)
    (s : Mongo.store) :
  registered wallet_address s ->
  0 <= hashrate <= 2 ^ 63 - 1 ->
  (String.length wallet_address <= 128)%nat ->
  (String.length worker_name <= 64)%nat ->
  now - timedelta_hours 3 <= utcnow ->
  let s' := snd (HashRate.log utcnow hashrate wallet_address worker_name s) in
  let before := answer_of (fst (Worker.active_count now s)) in
  let after := answer_of (fst (Worker.active_count now s')) in
  let active :=
    exists d, In d (Mongo.hashrates s)
              /\ Mongo.key_of d = (wallet_address, worker_name)
              /\ now - timedelta_hours 3 <= HashRateDoc.updated_time d in
  1 <= after
  /\ (active -> after = before)
  /\ (~ active -> after = before + 1).
Proof.
  intros Hreg Hh Ha Hn Hnow s' before after active.
  destruct (log_run_accepted utcnow hashrate wallet_address worker_name s
              Hreg Hh Ha Hn) as [id [_ [Hs' _]]].
  fold s' in Hs'.
  set (d := HashRateDoc.mk (Some id) wallet_address worker_name hashrate utcnow)
    in *.
  set (m := [Mongo.updated_time__gte (now - timedelta_hours 3)]).
  assert (Hd : forallb (Mongo.sat d) m = true).
  { simpl. rewrite andb_true_r. apply Z.leb_le. exact Hnow. }
  unfold after, before. rewrite !active_count_run. fold m. rewrite Hs'.
  rewrite (stage_match_snoc m _ d Hd), stage_group_snoc. simpl answer_of.
  set (docs := Mongo.stage_match m (Mongo.hashrates s)).
  set (g := Mongo.stage_group (fun _ => tt) (fun (a : unit) _ => a) docs).
  assert (Hact : In (wallet_address, worker_name) (map fst g) <-> active).
  { unfold g. rewrite stage_group_keys. unfold active, docs, m, Mongo.stage_match.
    split.
    - intros [x [Hx Hk]]. apply filter_In in Hx. destruct Hx as [Hx Hsat].
      simpl in Hsat. rewrite andb_true_r in Hsat. apply Z.leb_le in Hsat.
      exists x. auto.
    - intros [x [Hx [Hk Ht]]]. exists x. split; [|exact Hk].
      apply filter_In. split; [exact Hx|]. simpl. rewrite andb_true_r.
      now apply Z.leb_le. }
  change (Mongo.key_of d) with (wallet_address, worker_name).
  destruct (group_put_length tt (fun a : unit => a) (wallet_address, worker_name) g)
    as [[Hin Hlen]|[Hout Hlen]]; rewrite Hlen.
  - split; [|split].
    + destruct g; [destruct Hin | simpl List.length; lia].
    + reflexivity.
    + intros Hna. exfalso. apply Hna. now apply Hact.
  - split; [lia|]. split.
    + intros Hact'. exfalso. apply Hout. now apply Hact.
    + intros _. lia.
Qed.

Lemma log_makes_active_witness :
  let m := MinerDoc.mk (Some 0%N) "zil1"%string true ""%string ""%string false
             None [] 0 0 0 0 in
  let s := Mongo.mk [m] [] [] 1%N [] in
  let s' := snd (HashRate.log 20000000 42 "zil1"%string "rig0"%string s) in
  1 <= answer_of (fst (Worker.active_count (20000000 + timedelta_hours 1) s')).
Proof.
  intros m s.
  apply (log_makes_active 20000000 (20000000 + timedelta_hours 1) 42
           "zil1"%string "rig0"%string s).
  - exists m. split; [now left | reflexivity].
  - lia.
  - simpl. lia.
  - simpl. lia.
  - vm_compute. discriminate.
Defined.

(** The groups of samples that all belong to one pair: none, or one. *)
Lemma stage_group_one_key {A : Type} (first : HashRateDoc.t -> A)
    (acc : A -> HashRateDoc.t -> A) (docs : list HashRateDoc.t) (k : Mongo.key) :
  (forall d, In d docs -> Mongo.key_of d = k) ->
  Mongo.stage_group first acc docs = []
  \/ exists v, Mongo.stage_group first acc docs = [(k, v)].
Proof.
  intros Hall.
  pose proof (stage_group_NoDup first acc docs) as Hnd.
  pose proof (stage_group_keys first acc docs) as Hkeys.
  destruct (Mongo.stage_group first acc docs) as [|[k1 v1] [|[k2 v2] g]].
  - now left.
  - right. exists v1. destruct (proj1 (Hkeys k1) (or_introl eq_refl)) as [d [Hd E]].
    now rewrite <- E, (Hall d Hd).
  - exfalso.
    destruct (proj1 (Hkeys k1) (or_introl eq_refl)) as [d1 [Hd1 E1]].
    destruct (proj1 (Hkeys k2) (or_intror (or_introl eq_refl))) as [d2 [Hd2 E2]].
    rewrite (Hall d1 Hd1) in E1. rewrite (Hall d2 Hd2) in E2. subst k1 k2.
    simpl in Hnd. inversion Hnd as [|? ? Hn _]. apply Hn. now left.
Qed.

(** X15: a sample accepted by [HashRate.log] inside a resolved epoch raises
    the worker's hashrate of the epoch to the larger of what it was and the
    logged hashrate: [epoch_hashrate] filtered by the wallet address and the
    worker name answers max(before, hashrate) afterwards. *)
Theorem log_raises_worker_peak
    (get_pow_window : option Z -> option datetime * option datetime)
    (block_num : option Z) (pow_start pow_end : datetime)
    (utcnow : datetime) (hashrate : Z) (wallet_address worker_name : string)
    (s : Mongo.store) :
  get_pow_window block_num = (Some pow_start, Some pow_end) ->
  registered wallet_address s ->
  0 <= hashrate <= 2 ^ 63 - 1 ->
  (String.length wallet_address <= 128)%nat ->
  (String.length worker_name <= 64)%nat ->
  pow_start <= utcnow <= pow_end ->
  let s' := snd (HashRate.log utcnow hashrate wallet_address worker_name s) in
  let of_worker := fun st =>
    answer_of (fst (HashRate.epoch_hashrate get_pow_window block_num
                      (Some wallet_address) (Some worker_name) st)) in
  of_worker s' = Z.max (of_worker s) hashrate.
Proof.
  intros Hw Hreg Hh Ha Hn Ht s' of_worker.
  destruct (log_run_accepted utcnow hashrate wallet_address worker_name s
              Hreg Hh Ha Hn) as [id [_ [Hs' _]]].
  fold s' in Hs'.
  set (d := HashRateDoc.mk (Some id) wallet_address worker_name hashrate utcnow)
    in *.
  set (m := HashRate.epoch_match pow_start pow_end (Some wallet_address)
              (Some worker_name)).
  assert (Hd : forallb (Mongo.sat d) m = true).
  { apply epoch_match_sat. unfold in_epoch, passes. simpl. auto. }
  unfold of_worker.
  rewrite !(epoch_hashrate_run _ _ pow_start pow_end _ _ _ Hw). fold m.
  rewrite Hs', (stage_match_snoc m _ d Hd), stage_group_snoc. simpl answer_of.
  change (Mongo.key_of d) with (wallet_address, worker_name).
  change (HashRateDoc.hashrate d) with hashrate.
  destruct (stage_group_one_key HashRateDoc.hashrate
              (fun a x => Z.max a (HashRateDoc.hashrate x))
              (Mongo.stage_match m (Mongo.hashrates s))
              (wallet_address, worker_name)) as [E|[v E]].
  - intros x Hx. apply epoch_match_in in Hx. destruct Hx as [_ [_ [Hxa Hxn]]].
    simpl in Hxa, Hxn. unfold Mongo.key_of. now rewrite Hxa, Hxn.
  - rewrite E. simpl. lia.
  - rewrite E. simpl.
    rewrite (proj2 (key_eqb_eq (wallet_address, worker_name)
                      (wallet_address, worker_name)) eq_refl).
    simpl. lia.
Qed.

Lemma log_raises_worker_peak_witness :
  let resolver := fun _ : option Z => (Some 1000, Some 2000) in
  let m := MinerDoc.mk (Some 0%N) "zil1"%string true ""%string ""%string false
             None [] 0 0 0 0 in
  let s := Mongo.mk [m] []
             [HashRateDoc.mk (Some 1%N) "zil1"%string "rig0"%string 150 1100]
             2%N [] in
  let s' := snd (HashRate.log 1500 100 "zil1"%string "rig0"%string s) in
  answer_of (fst (HashRate.epoch_hashrate resolver None
                    (Some "zil1"%string) (Some "rig0"%string) s'))
  = Z.max
      (answer_of (fst (HashRate.epoch_hashrate resolver None
                         (Some "zil1"%string) (Some "rig0"%string) s)))
      100.
Proof.
  intros resolver m s.
  apply (log_raises_worker_peak resolver None 1000 2000 1500 100
           "zil1"%string "rig0"%string s eq_refl).
  - exists m. split; [now left | reflexivity].
  - lia.
  - simpl. lia.
  - simpl. lia.
  - lia.
Defined.

(** ** The figures of the workers add up *)

Lemma peak_of_unique (docs docs' : list HashRateDoc.t) (k : Mongo.key) (v v' : Z) :
  (forall d, Mongo.key_of d = k -> In d docs <-> In d docs') ->
  peak_of docs k v -> peak_of docs' k v' -> v = v'.
Proof.
  intros Hiff [[d [Hd [Hk Hv]]] Hmax] [[d' [Hd' [Hk' Hv']]] Hmax'].
  pose proof (Hmax' d (proj1 (Hiff d Hk) Hd) Hk).
  pose proof (Hmax d' (proj2 (Hiff d' Hk') Hd') Hk'). lia.
Qed.

Lemma epoch_hashrate_sum_of_workers
    (get_pow_window : option Z -> option datetime * option datetime)
    (block_num : option Z) (pow_start pow_end : datetime)
    (wallet_address : option string) (s : Mongo.store) :
  get_pow_window block_num = (Some pow_start, Some pow_end) ->
  exists pairs : list Mongo.key,
    NoDup pairs
    /\ (forall k, In k pairs
                  <-> exists d, In d (Mongo.hashrates s)
                                /\ in_epoch pow_start pow_end wallet_address None d
                                /\ Mongo.key_of d = k)
    /\ answer_of (fst (HashRate.epoch_hashrate get_pow_window block_num
                         wallet_address None s))
       = Zsum (map (fun k =>
                      answer_of (fst (HashRate.epoch_hashrate get_pow_window
                                        block_num (Some (fst k)) (Some (snd k)) s)))
                 pairs).
Proof.
  intros Hw.
  set (D := Mongo.stage_match
              (HashRate.epoch_match pow_start pow_end wallet_address None)
              (Mongo.hashrates s)).
  set (step := fun a d => Z.max a (HashRateDoc.hashrate d)).
  set (g := Mongo.stage_group HashRateDoc.hashrate step D).
  assert (HD : forall d, In d D
                         <-> In d (Mongo.hashrates s)
                             /\ in_epoch pow_start pow_end wallet_address None d)
    by (intros d; apply epoch_match_in).
  exists (map fst g). split; [apply stage_group_NoDup|]. split.
  - intros k. unfold g. rewrite stage_group_keys. split.
    + intros [d [Hd Hk]]. apply HD in Hd. exists d. tauto.
    + intros [d [Hd [He Hk]]]. exists d. split; [apply HD; tauto | exact Hk].
  - rewrite (epoch_hashrate_run _ _ pow_start pow_end _ _ _ Hw). fold D step g.
    simpl answer_of. rewrite map_map. f_equal. apply map_ext_in.
    intros [k v] Hkv. cbn [fst snd].
    rewrite (epoch_hashrate_run _ _ pow_start pow_end _ _ _ Hw).
    simpl answer_of. fold step.
    set (Dk := Mongo.stage_match
                 (HashRate.epoch_match pow_start pow_end (Some (fst k))
                    (Some (snd k))) (Mongo.hashrates s)).
    change (v = Zsum (map snd (Mongo.stage_group HashRateDoc.hashrate step Dk))).
    pose proof (stage_group_max_peak D k v Hkv) as Hpeak.
    assert (Hsame : forall d, Mongo.key_of d = k -> In d D <-> In d Dk).
    { intros d Hk. unfold Dk. rewrite HD, epoch_match_in.
      destruct Hpeak as [[x [Hx [Hkx _]]] _]. apply HD in Hx.
      destruct Hx as [_ [_ [Hxa _]]].
      assert (Ea : HashRateDoc.wallet_address d = fst k)
        by (rewrite <- Hk; reflexivity).
      assert (En : HashRateDoc.worker_name d = snd k)
        by (rewrite <- Hk; reflexivity).
      assert (Ex : HashRateDoc.wallet_address x = fst k)
        by (rewrite <- Hkx; reflexivity).
      unfold in_epoch. cbn [passes]. split.
      - intros [Hin [Ht _]]. auto.
      - intros [Hin [Ht _]]. repeat split; try tauto.
        rewrite Ea, <- Ex. exact Hxa. }
    destruct (stage_group_one_key HashRateDoc.hashrate step Dk k) as [E|[v' E]].
    + intros d Hd. unfold Dk in Hd. apply epoch_match_in in Hd.
      destruct Hd as [_ [_ [Hda Hdn]]]. simpl in Hda, Hdn.
      unfold Mongo.key_of. rewrite Hda, Hdn. now destruct k.
    + exfalso. destruct Hpeak as [[x [Hx [Hkx _]]] _].
      apply (Hsame x Hkx) in Hx.
      assert (Hin : In k (map fst (Mongo.stage_group HashRateDoc.hashrate step Dk)))
        by (apply stage_group_keys; now exists x).
      rewrite E in Hin. destruct Hin.
    + rewrite E. simpl.
      assert (Hp' : peak_of Dk k v').
      { apply stage_group_max_peak. fold step. rewrite E. now left. }
      rewrite (peak_of_unique D Dk k v v' Hsame Hpeak Hp'). lia.
Qed.

(** X16: in a resolved epoch the hashrate of a scope is the sum of the
    hashrates of its workers: [epoch_hashrate] without worker filter, global
    or for one wallet address, answers the sum over the distinct (wallet
    address, worker name) pairs with a sample in the window (of that wallet
    address) of what [epoch_hashrate] answers when filtered by the pair. *)
Theorem epoch_hashrate_adds_up
    (get_pow_window : option Z -> option datetime * option datetime)
    (block_num : option Z) (pow_start pow_end : datetime)
    (wallet_address : option string) (s : Mongo.store) :
  get_pow_window block_num = (Some pow_start, Some pow_end) ->
  exists pairs : list Mongo.key,
    NoDup pairs
    /\ (forall k, In k pairs
                  <-> exists d, In d (Mongo.hashrates s)
                                /\ in_epoch pow_start pow_end wallet_address None d
                                /\ Mongo.key_of d = k)
    /\ answer_of (fst (HashRate.epoch_hashrate get_pow_window block_num
                         wallet_address None s))
       = Zsum (map (fun k =>
                      answer_of (fst (HashRate.epoch_hashrate get_pow_window
                                        block_num (Some (fst k)) (Some (snd k)) s)))
                 pairs).
Proof. apply epoch_hashrate_sum_of_workers. Qed.

Lemma epoch_hashrate_adds_up_witness :
  let resolver := fun _ : option Z => (Some 1000, Some 2000) in
  let s := Mongo.mk [] []
             [ HashRateDoc.mk (Some 0%N) "zil1"%string "rigA"%string 100 1100;
               HashRateDoc.mk (Some 1%N) "zil1"%string "rigA"%string 150 1500;
               HashRateDoc.mk (Some 2%N) "zil2"%string "rigB"%string 200 2000 ]
             3%N [] in
  exists pairs : list Mongo.key,
    NoDup pairs
    /\ answer_of (fst (HashRate.epoch_hashrate resolver None None None s))
       = Zsum (map (fun k =>
                      answer_of (fst (HashRate.epoch_hashrate resolver None
                                        (Some (fst k)) (Some (snd k)) s)))
                 pairs).
Proof.
  intros resolver s.
  destruct (epoch_hashrate_adds_up resolver None 1000 2000 None s eq_refl)
    as [pairs [Hnd [_ Hsum]]].
  exists pairs. split; [exact Hnd | exact Hsum].
Defined.

(** ** Hashrates are never negative *)

Lemma worker_update_stat_hashrates (self : WorkerDoc.t) (a b c d : Z)
    (s : Mongo.store) :
  Mongo.hashrates (snd (Worker.update_stat self a b c d s)) = Mongo.hashrates s.
Proof.
  rewrite worker_update_stat_run.
  pose proof (worker_update_frame self (stat_kwargs a b c d) s) as [_ F].
  destruct (Worker.update self (stat_kwargs a b c d) s) as [[n|e] s1];
    simpl in F; [|exact F].
  destruct (n =? 0); [exact F|]. simpl.
  destruct (find _ (Mongo.miners s1)) as [m|]; [|exact F].
  pose proof (miner_update_frame m (stat_kwargs a b c d)
                (Mongo.logged (Mongo.Find Mongo.zil_miners) s1)) as [_ G].
  destruct (Miner.update m (stat_kwargs a b c d) _) as [[k|e] s3];
    simpl in *; congruence.
Qed.

Lemma miner_save_hashrates (self : MinerDoc.t) (cj cw : bool) (s : Mongo.store) :
  Mongo.hashrates (snd (MinerUpsert.save self cj cw s)) = Mongo.hashrates s.
Proof.
  unfold MinerUpsert.save. destruct (_ || _ || _); [reflexivity|].
  destruct (MinerDoc.pk self); [|reflexivity].
  destruct (cj || cw); [|reflexivity].
  now destruct (Mongo.update_one _ _ (Mongo.miners s)).
Qed.

Lemma miner_get_or_create_hashrates
    (utcnow : datetime) (a n nick email : string) (auth : bool)
    (s : Mongo.store) :
  Mongo.hashrates (snd (MinerUpsert.get_or_create utcnow a n nick email auth s))
  = Mongo.hashrates s.
Proof.
  destruct (get_or_create_any a n s) as [_ [Hh _]].
  unfold MinerUpsert.get_or_create, bind.
  destruct (Worker.get_or_create a n s) as [[[w|]|e] s1]; simpl in Hh;
    [|exact Hh|exact Hh].
  unfold MinerUpsert.modify.
  destruct (negb _); [exact Hh|].
  destruct (Mongo.find_one_and_update _ _ (Mongo.miners s1)) as [[m l]|];
    cbn [Mongo.fresh_oid];
    match goal with
    | |- context [MinerUpsert.save ?self ?cj ?cw ?s2] =>
        pose proof (miner_save_hashrates self cj cw s2) as Hs;
        destruct (MinerUpsert.save self cj cw s2) as [[v|e] s3]
    end; simpl in *; congruence.
Qed.

Lemma Zsum_nonneg (l : list Z) : (forall z, In z l -> 0 <= z) -> 0 <= Zsum l.
Proof.
  induction l as [|x l IH]; simpl; intros H; [lia|].
  pose proof (H x (or_introl eq_refl)).
  assert (0 <= Zsum l) by (apply IH; intros z Hz; apply H; now right). lia.
Qed.

Lemma epoch_hashrate_nonneg
    (get_pow_window : option Z -> option datetime * option datetime)
    (block_num : option Z) (wallet_address worker_name : option string)
    (s : Mongo.store) :
  samples_nonneg s ->
  0 <= answer_of (fst (HashRate.epoch_hashrate get_pow_window block_num
                         wallet_address worker_name s)).
Proof.
  intros Hs.
  destruct (get_pow_window block_num) as [[ps|] [pe|]] eqn:Hw;
    try (unfold HashRate.epoch_hashrate; rewrite Hw; simpl; lia).
  rewrite (epoch_hashrate_run get_pow_window block_num ps pe _ _ s Hw).
  simpl answer_of.
  apply Zsum_nonneg. intros z Hz. apply in_map_iff in Hz.
  destruct Hz as [[k v] [<- Hkv]]. apply stage_group_max_peak in Hkv.
  destruct Hkv as [[d [Hd [_ <-]]] _]. apply epoch_match_in in Hd.
  apply Hs. tauto.
Qed.

(** X17: no operation stores a hashrate below 0, so the hashrate of an
    epoch is never negative.  If every stored sample has a hashrate of 0 or
    more, this is still so after [HashRate.log], [Worker.get_or_create],
    [Miner.get_or_create], [Miner.update_stat] and [Worker.update_stat],
    whatever the arguments; and in such a store [epoch_hashrate] answers 0 or
    more for every epoch and every choice of filters. *)
Theorem samples_nonneg_kept (s : Mongo.store) :
  samples_nonneg s ->
  (forall utcnow h a n, samples_nonneg (snd (HashRate.log utcnow h a n s)))
  /\ (forall a n, samples_nonneg (snd (Worker.get_or_create a n s)))
  /\ (forall utcnow a n nick email auth,
        samples_nonneg
          (snd (MinerUpsert.get_or_create utcnow a n nick email auth s)))
  /\ (forall self a b c d, samples_nonneg (snd (Miner.update_stat self a b c d s)))
  /\ (forall self a b c d, samples_nonneg (snd (Worker.update_stat self a b c d s)))
  /\ (forall get_pow_window block_num wallet_address worker_name,
        0 <= answer_of (fst (HashRate.epoch_hashrate get_pow_window block_num
                               wallet_address worker_name s))).
Proof.
  intros Hs. split; [|split; [|split; [|split; [|split]]]].
  - intros utcnow h a n d Hd.
    destruct (log_shape utcnow h a n s) as [_ [_ [E|[id [Hh E]]]]];
      rewrite E in Hd; [now apply Hs|].
    apply in_app_or in Hd. destruct Hd as [Hd|[<-|[]]]; [now apply Hs | exact Hh].
  - intros a n d Hd.
    destruct (get_or_create_any a n s) as [_ [Hh _]].
    rewrite Hh in Hd. now apply Hs.
  - intros utcnow a n nick email auth d Hd.
    rewrite miner_get_or_create_hashrates in Hd. now apply Hs.
  - intros self a b c d x Hx. unfold Miner.update_stat in Hx.
    rewrite (proj2 (miner_update_frame self _ s)) in Hx. now apply Hs.
  - intros self a b c d x Hx. rewrite worker_update_stat_hashrates in Hx.
    now apply Hs.
  - intros gw b wa wn. now apply epoch_hashrate_nonneg.
Qed.

Lemma samples_nonneg_kept_witness :
  let m := MinerDoc.mk (Some 0%N) "zil1"%string true ""%string ""%string false
             None [] 0 0 0 0 in
  let s := Mongo.mk [m] [] [] 1%N [] in
  samples_nonneg (snd (HashRate.log 1000 42 "zil1"%string "rig0"%string s)).
Proof.
  intros m s.
  refine (proj1 (samples_nonneg_kept s _) 1000 42 "zil1"%string "rig0"%string).
  intros d [].
Defined.

(** ** Narrower scopes report less *)

Lemma Zsum_map_remove {K : Type} (F : K -> Z) (a b : list K) (x : K) :
  Zsum (map F (a ++ x :: b)) = F x + Zsum (map F (a ++ b)).
Proof. rewrite !map_app, !Zsum_app. simpl. lia. Qed.

Lemma Zsum_map_incl {K : Type} (F : K -> Z) (l1 l2 : list K) :
  NoDup l1 -> incl l1 l2 -> (forall x, In x l2 -> 0 <= F x) ->
  Zsum (map F l1) <= Zsum (map F l2).
Proof.
  revert l2. induction l1 as [|x l1 IH]; intros l2 Hnd Hincl Hpos.
  - simpl. apply Zsum_nonneg. intros z Hz. apply in_map_iff in Hz.
    destruct Hz as [y [<- Hy]]. now apply Hpos.
  - inversion Hnd as [|? ? Hx Hnd']. subst.
    destruct (in_split x l2 (Hincl x (or_introl eq_refl))) as [a [b ->]].
    rewrite Zsum_map_remove. simpl.
    assert (Zsum (map F l1) <= Zsum (map F (a ++ b))); [|lia].
    apply IH; [exact Hnd' | | ].
    + intros y Hy. specialize (Hincl y (or_intror Hy)).
      apply in_app_or in Hincl. apply in_or_app.
      destruct Hincl as [H|[H|H]]; [now left | subst y; contradiction | now right].
    + intros y Hy. apply Hpos. apply in_app_or in Hy. apply in_or_app.
      destruct Hy as [H|H]; [now left | right; now right].
Qed.

Lemma key_eq_dec (x y : Mongo.key) : {x = y} + {x <> y}.
Proof. decide equality; apply string_dec. Qed.

Lemma filter_none {D : Type} (p : D -> bool) (l : list D) :
  (forall x, In x l -> p x = false) -> filter p l = [].
Proof.
  induction l as [|y l IH]; simpl; intros H; [reflexivity|].
  rewrite (H y (or_introl eq_refl)). apply IH. intros x Hx. apply H. now right.
Qed.

Lemma epoch_hashrate_no_sample
    (get_pow_window : option Z -> option datetime * option datetime)
    (block_num : option Z) (wallet_address worker_name : option string)
    (s : Mongo.store) :
  (forall pow_start pow_end d,
      get_pow_window block_num = (Some pow_start, Some pow_end) ->
      In d (Mongo.hashrates s) ->
      ~ in_epoch pow_start pow_end wallet_address worker_name d) ->
  answer_of (fst (HashRate.epoch_hashrate get_pow_window block_num
                    wallet_address worker_name s)) = 0.
Proof.
  intros Hnone.
  destruct (get_pow_window block_num) as [[ps|] [pe|]] eqn:Hw;
    try (unfold HashRate.epoch_hashrate; rewrite Hw; reflexivity).
  rewrite (epoch_hashrate_run get_pow_window block_num ps pe _ _ s Hw).
  unfold Mongo.stage_match. rewrite filter_none; [reflexivity|].
  intros d Hd. destruct (forallb _ _) eqn:E; [|reflexivity].
  exfalso. apply epoch_match_sat in E. exact (Hnone ps pe d eq_refl Hd E).
Qed.

(** X18: in a store without negative hashrates and for a resolved epoch, a
    narrower scope never reports more than a wider one: the hashrate of one
    worker is between 0 and the hashrate of its wallet address, which is at
    most the global hashrate of the epoch. *)
Theorem epoch_hashrate_scopes
    (get_pow_window : option Z -> option datetime * option datetime)
    (block_num : option Z) (pow_start pow_end : datetime)
    (wallet_address worker_name : string) (s : Mongo.store) :
  samples_nonneg s ->
  get_pow_window block_num = (Some pow_start, Some pow_end) ->
  let of_scope := fun wa wn =>
    answer_of (fst (HashRate.epoch_hashrate get_pow_window block_num wa wn s)) in
  0 <= of_scope (Some wallet_address) (Some worker_name)
  /\ of_scope (Some wallet_address) (Some worker_name)
     <= of_scope (Some wallet_address) None
  /\ of_scope (Some wallet_address) None <= of_scope None None.
Proof.
  intros Hs Hw of_scope.
  set (F := fun k : Mongo.key => of_scope (Some (fst k)) (Some (snd k))).
  assert (HF : forall k, 0 <= F k)
    by (intros k; unfold F, of_scope; now apply epoch_hashrate_nonneg).
  destruct (epoch_hashrate_sum_of_workers get_pow_window block_num pow_start
              pow_end (Some wallet_address) s Hw) as [pa [Hnda [Hpa Ea]]].
  destruct (epoch_hashrate_sum_of_workers get_pow_window block_num pow_start
              pow_end None s Hw) as [pg [Hndg [Hpg Eg]]].
  change (of_scope (Some wallet_address) None = Zsum (map F pa)) in Ea.
  change (of_scope None None = Zsum (map F pg)) in Eg.
  split; [apply (HF (wallet_address, worker_name))|]. split.
  - rewrite Ea.
    destruct (in_dec key_eq_dec (wallet_address, worker_name) pa) as [Hin|Hout].
    + assert (H1 : Zsum (map F [(wallet_address, worker_name)])
                   <= Zsum (map F pa)).
      { apply Zsum_map_incl; [repeat constructor; intros [] | | auto].
        intros y [<-|[]]. exact Hin. }
      simpl in H1. unfold F at 1 in H1. cbn [fst snd] in H1. lia.
    + assert (E0 : of_scope (Some wallet_address) (Some worker_name) = 0).
      { apply epoch_hashrate_no_sample. intros ps pe d Hw' Hd [Ht [Ha Hn]].
        rewrite Hw in Hw'. injection Hw' as <- <-. simpl in Ha, Hn.
        apply Hout. apply Hpa. exists d. split; [exact Hd|]. split.
        - unfold in_epoch, passes. auto.
        - unfold Mongo.key_of. now rewrite Ha, Hn. }
      rewrite E0. apply Zsum_nonneg. intros z Hz. apply in_map_iff in Hz.
      destruct Hz as [k [<- _]]. apply HF.
  - rewrite Ea, Eg. apply Zsum_map_incl; [exact Hnda | | auto].
    intros k Hk. apply Hpa in Hk. destruct Hk as [d [Hd [[Ht _] Hk]]].
    apply Hpg. exists d. split; [exact Hd|]. split; [|exact Hk].
    unfold in_epoch, passes. auto.
Qed.

Lemma epoch_hashrate_scopes_witness :
  let resolver := fun _ : option Z => (Some 1000, Some 2000) in
  let s := Mongo.mk [] []
             [ HashRateDoc.mk (Some 0%N) "zil1"%string "rigA"%string 100 1100;
               HashRateDoc.mk (Some 1%N) "zil1"%string "rigC"%string 150 1500;
               HashRateDoc.mk (Some 2%N) "zil2"%string "rigB"%string 200 2000 ]
             3%N [] in
  let of_scope := fun wa wn =>
    answer_of (fst (HashRate.epoch_hashrate resolver None wa wn s)) in
  0 <= of_scope (Some "zil1"%string) (Some "rigA"%string)
  /\ of_scope (Some "zil1"%string) (Some "rigA"%string)
     <= of_scope (Some "zil1"%string) None
  /\ of_scope (Some "zil1"%string) None <= of_scope None None.
Proof.
  intros resolver s.
  apply (epoch_hashrate_scopes resolver None 1000 2000
           "zil1"%string "rigA"%string s).
  - intros d [<-|[<-|[<-|[]]]]; simpl; lia.
  - reflexivity.
Defined.
